(** * Smart CV ATS parser: a shallow embedding of [main.py]

    The development follows the helper functions and the two request
    handlers of [src/main.py]:

    - [filter_null_values]       (the structural sanitizer),
    - [extract_text_from_file]   (dispatch on the filename extension),
    - [detect_language]          (language identification with a default),
    - the social-link validation and the response assembly of
      [analyze_and_rewrite_cv],
    - [recommend_careers].

    Python values that flow through the pipeline are JSON documents; they
    are modelled by the inductive type [value].  Numbers are integers: the
    schemas of [schemas.py] declare every score as [int], and floating
    point is outside the model.  A Python [dict] is an association list in
    insertion order (its keys are pairwise distinct in Python; no
    definition below relies on it).  A Python string is a sequence of
    Unicode code points; a [string] holds its UTF-8 encoding, and length,
    iteration, white space and case go by code points.

    Code that can raise returns a [result]: [Ok v] or [Raise e]. *)

From Stdlib Require Import ZArith String Ascii List Bool Lia Permutation.
From Stdlib Require Import DecimalString.
From stdpp Require Import base option list strings gmap.

Import ListNotations.
Local Open Scope Z_scope.
Local Open Scope string_scope.
Local Open Scope list_scope.

(** ** Python values and exceptions *)

Module Py.

#[warnings="-register-all"]
Inductive value : Type :=
| VNone
| VBool (b : bool)
| VInt (n : Z)
| VStr (s : string)
| VList (l : list value)
| VDict (d : list (string * value)).

Inductive exn : Type :=
| HTTPException (status_code : Z) (detail : string)
| LangDetectException
| TypeError
| AttributeError
| OtherError (name : string).

Inductive result (A : Type) : Type :=
| Ok (a : A)
| Raise (e : exn).

Arguments Ok {A} a.
Arguments Raise {A} e.

#[export] Instance result_ret : MRet result := fun A a => Ok a.

#[export] Instance result_bind : MBind result := fun A B f m =>
  match m with
  | Ok a => f a
  | Raise e => Raise e
  end.

#[export] Instance result_fmap : FMap result := fun A B f m =>
  match m with
  | Ok a => Ok (f a)
  | Raise e => Raise e
  end.

(** [v is None], [v == ""], [v == []], [v == {}]. *)

Definition is_none (v : value) : bool :=
  match v with VNone => true | _ => false end.

Definition is_empty_str (v : value) : bool :=
  match v with VStr EmptyString => true | _ => false end.

Definition is_empty_list (v : value) : bool :=
  match v with VList [] => true | _ => false end.

Definition is_empty_dict (v : value) : bool :=
  match v with VDict [] => true | _ => false end.

(** A list of strings. *)
Definition strs (l : list string) : value := VList (map VStr l).

(** An induction principle that reaches the values nested in lists and
    dictionaries. *)

Section value_induction.
Variable P : value -> Prop.
Hypothesis HNone : P VNone.
Hypothesis HBool : forall b, P (VBool b).
Hypothesis HInt : forall n, P (VInt n).
Hypothesis HStr : forall s, P (VStr s).
Hypothesis HList : forall l, Forall P l -> P (VList l).
Hypothesis HDict : forall d, Forall (fun kv => P (snd kv)) d -> P (VDict d).

Fixpoint value_nested_ind (v : value) : P v :=
  match v with
  | VNone => HNone
  | VBool b => HBool b
  | VInt n => HInt n
  | VStr s => HStr s
  | VList l =>
      HList l ((fix elems (l : list value) : Forall P l :=
                  match l with
                  | [] => List.Forall_nil P
                  | x :: l' => @List.Forall_cons _ P x l' (value_nested_ind x) (elems l')
                  end) l)
  | VDict d =>
      HDict d ((fix items (d : list (string * value))
                  : Forall (fun kv => P (snd kv)) d :=
                  match d with
                  | [] => List.Forall_nil _
                  | kv :: d' =>
                      @List.Forall_cons _ (fun kv => P (snd kv)) kv d'
                        (value_nested_ind (snd kv)) (items d')
                  end) d)
  end.
End value_induction.

End Py.
Import Py.

(** ** The structural sanitizer (main.py, [filter_null_values]) *)

Module Sanitizer.

(** The guard of the dictionary comprehension:
    [v is not None and v != "" and v != []]. *)
Definition dict_keep (v : value) : bool :=
  negb (is_none v) && negb (is_empty_str v) && negb (is_empty_list v).

(** The guard of the list comprehension:
    [item is not None and item != "" and item != {}]. *)
Definition list_keep (item : value) : bool :=
  negb (is_none item) && negb (is_empty_str item) && negb (is_empty_dict item).

(** Both comprehensions test the value as it stands in the input and recurse
    on the ones they keep. *)
Fixpoint filter_null_values (data : value) : value :=
  match data with
  | VDict d =>
      VDict ((fix items (d : list (string * value)) :=
                match d with
                | [] => []
                | (k, v) :: d' =>
                    if dict_keep v then (k, filter_null_values v) :: items d'
                    else items d'
                end) d)
  | VList l =>
      VList ((fix elems (l : list value) :=
                match l with
                | [] => []
                | item :: l' =>
                    if list_keep item then filter_null_values item :: elems l'
                    else elems l'
                end) l)
  | _ => data
  end.

(** The two comprehensions on their own. *)
Fixpoint filter_items (d : list (string * value)) : list (string * value) :=
  match d with
  | [] => []
  | (k, v) :: d' =>
      if dict_keep v then (k, filter_null_values v) :: filter_items d'
      else filter_items d'
  end.

Fixpoint filter_elems (l : list value) : list value :=
  match l with
  | [] => []
  | item :: l' =>
      if list_keep item then filter_null_values item :: filter_elems l'
      else filter_elems l'
  end.

(** A value is [clean] when a pass of the sanitizer finds nothing to remove
    in it, at any depth. *)
Fixpoint clean (v : value) : bool :=
  match v with
  | VDict d =>
      (fix items (d : list (string * value)) :=
         match d with
         | [] => true
         | (_, v) :: d' => dict_keep v && clean v && items d'
         end) d
  | VList l =>
      (fix elems (l : list value) :=
         match l with
         | [] => true
         | item :: l' => list_keep item && clean item && elems l'
         end) l
  | _ => true
  end.

(** A value is [settled] when no sequence kept as a mapping value is emptied
    by the sanitizer and no mapping kept as a sequence element is emptied by
    it, at any depth. *)
Fixpoint settled (v : value) : bool :=
  match v with
  | VDict d =>
      (fix items (d : list (string * value)) :=
         match d with
         | [] => true
         | (_, v) :: d' =>
             (if dict_keep v
              then settled v && dict_keep (filter_null_values v)
              else true) && items d'
         end) d
  | VList l =>
      (fix elems (l : list value) :=
         match l with
         | [] => true
         | item :: l' =>
             (if list_keep item
              then settled item && list_keep (filter_null_values item)
              else true) && elems l'
         end) l
  | _ => true
  end.

(** [null_inside v]: a null or an empty string stands as a mapping value or
    as a sequence element somewhere in [v]. *)
Fixpoint null_inside (v : value) : bool :=
  match v with
  | VDict d =>
      (fix items (d : list (string * value)) :=
         match d with
         | [] => false
         | (_, v) :: d' =>
             is_none v || is_empty_str v || null_inside v || items d'
         end) d
  | VList l =>
      (fix elems (l : list value) :=
         match l with
         | [] => false
         | item :: l' =>
             is_none item || is_empty_str item || null_inside item || elems l'
         end) l
  | _ => false
  end.

(** [empty_list_inside v]: an empty sequence stands as a mapping value or
    as a sequence element somewhere in [v]. *)
Fixpoint empty_list_inside (v : value) : bool :=
  match v with
  | VDict d =>
      (fix items (d : list (string * value)) :=
         match d with
         | [] => false
         | (_, v) :: d' =>
             is_empty_list v || empty_list_inside v || items d'
         end) d
  | VList l =>
      (fix elems (l : list value) :=
         match l with
         | [] => false
         | item :: l' =>
             is_empty_list item || empty_list_inside item || elems l'
         end) l
  | _ => false
  end.

(** The input [{"a": [None]}]. *)
Definition a_list_of_none : value := VDict [("a", VList [VNone])].

(** A project entry as the parse transform returns one, with its absent
    fields as null or empty. *)
Definition sample_project : value :=
  VDict [("title", VStr "Churn model");
         ("description", VStr EmptyString);
         ("technologies", VList [VStr "Python"; VNone; VStr EmptyString]);
         ("metrics", VNone);
         ("links", VList [])].

End Sanitizer.

(** ** Python string methods *)

Module Str.

(** A Python string is a sequence of Unicode code points.  A [string] here
    holds the UTF-8 encoding of one: equality, concatenation, the
    occurrences of a substring and the pieces between ASCII separators are
    the same on the encoding as on the code points.  [len], iteration,
    [strip] and [lower] go by code points, and are written out below. *)

Definition is_empty (s : string) : bool :=
  match s with EmptyString => true | String _ _ => false end.

(** Truth value of a string: non-empty. *)
Definition truthy (s : string) : bool := negb (is_empty s).

(** A byte [10xxxxxx] continues the code point that the byte before it
    belongs to. *)
Definition is_continuation (c : ascii) : bool :=
  let n := nat_of_ascii c in ((128 <=? n) && (n <? 192))%nat.

(** The code points of [s], each with the bytes that encode it: a code
    point starts at every byte that is not a continuation byte. *)
Fixpoint chars_from (current : string) (s : string) : list string :=
  match s with
  | EmptyString => [current]
  | String c s' =>
      if is_continuation c
      then chars_from (current +:+ String c EmptyString) s'
      else current :: chars_from (String c EmptyString) s'
  end.

Definition chars (s : string) : list string :=
  match s with
  | EmptyString => []
  | String c s' => chars_from (String c EmptyString) s'
  end.

(** The string made of the code points [l]. *)
Fixpoint cat (l : list string) : string :=
  match l with
  | [] => EmptyString
  | c :: l' => c +:+ cat l'
  end.

(** [len(s)]: the number of code points. *)
Definition len (s : string) : nat := length (chars s).

(** The number of the code point that the bytes [c] encode, when they are
    the UTF-8 encoding of one: one byte below 128, or a first byte
    [110xxxxx], [1110xxxx] or [11110xxx] with one, two or three
    continuation bytes, the number being too large for a shorter
    encoding. *)
Definition code_point (c : string) : option N :=
  match map N_of_ascii (list_ascii_of_string c) with
  | [b0] => if b0 <? 128 then Some b0 else None
  | [b0; b1] =>
      let n := (b0 - 192) * 64 + (b1 - 128) in
      if (192 <=? b0) && (b0 <? 224) && (128 <=? n) then Some n else None
  | [b0; b1; b2] =>
      let n := (b0 - 224) * 4096 + (b1 - 128) * 64 + (b2 - 128) in
      if (224 <=? b0) && (b0 <? 240) && (2048 <=? n) then Some n else None
  | [b0; b1; b2; b3] =>
      let n := (b0 - 240) * 262144 + (b1 - 128) * 4096
               + (b2 - 128) * 64 + (b3 - 128) in
      if (240 <=? b0) && (b0 <? 248) && (65536 <=? n) && (n <=? 1114111)
      then Some n else None
  | _ => None
  end%N.

(** White space as [str.strip] and [str.isspace] see it: the characters of
    bidirectional type WS, B or S and those of category Zs.  They are
    U+0009..U+000D, U+001C..U+0020, U+0085, U+00A0, U+1680,
    U+2000..U+200A, U+2028, U+2029, U+202F, U+205F and U+3000. *)
Definition white_space (n : N) : bool :=
  ((9 <=? n) && (n <=? 13) || (28 <=? n) && (n <=? 32)
   || (n =? 133) || (n =? 160) || (n =? 5760)
   || (8192 <=? n) && (n <=? 8202)
   || (n =? 8232) || (n =? 8233) || (n =? 8239) || (n =? 8287)
   || (n =? 12288))%N.

Definition is_space (c : string) : bool :=
  match code_point c with
  | Some n => white_space n
  | None => false
  end.

Fixpoint lstrip_chars (l : list string) : list string :=
  match l with
  | [] => []
  | c :: l' => if is_space c then lstrip_chars l' else l
  end.

Fixpoint rstrip_chars (l : list string) : list string :=
  match l with
  | [] => []
  | c :: l' =>
      let r := rstrip_chars l' in
      if is_space c && match r with [] => true | _ :: _ => false end
      then [] else c :: r
  end.

(** A list of code points that does not start with white space. *)
Definition starts_clean (l : list string) : bool :=
  match l with
  | [] => true
  | c :: _ => negb (is_space c)
  end.

(** The bytes of one code point: a first byte and the continuation bytes
    after it.  In a list of code points every first byte but that of the
    head is no continuation byte. *)
Fixpoint all_continuation (t : string) : bool :=
  match t with
  | EmptyString => true
  | String c t' => is_continuation c && all_continuation t'
  end.

Definition is_char (c : string) : bool :=
  match c with
  | EmptyString => false
  | String _ t => all_continuation t
  end.

Definition is_fresh_char (c : string) : bool :=
  match c with
  | EmptyString => false
  | String b t => negb (is_continuation b) && all_continuation t
  end.

Definition well_split (l : list string) : bool :=
  match l with
  | [] => true
  | c :: l' => is_char c && forallb is_fresh_char l'
  end.

(** [s.strip()]: the white space at both ends removed. *)
Definition strip (s : string) : string :=
  cat (rstrip_chars (lstrip_chars (chars s))).

(** [c.lower()] for an ASCII character: [A]..[Z] to [a]..[z]. *)
Definition lower_ascii (c : ascii) : ascii :=
  let n := nat_of_ascii c in
  if ((65 <=? n) && (n <=? 90))%nat then ascii_of_nat (n + 32) else c.

(** [s.lower()] on ASCII text. *)
Fixpoint ascii_lower (s : string) : string :=
  match s with
  | EmptyString => EmptyString
  | String c s' => String (lower_ascii c) (ascii_lower s')
  end.

(** The text holds ASCII characters only. *)
Fixpoint is_ascii (s : string) : bool :=
  match s with
  | EmptyString => true
  | String c s' => (nat_of_ascii c <? 128)%nat && is_ascii s'
  end.

(** [s.lower()].  On ASCII text it turns [A]..[Z] into [a]..[z].  On text
    that holds other characters it is the case mapping of the Unicode
    database that the runtime carries, special cases included; that mapping
    is the parameter [unicode_lower]. *)
Definition lower (unicode_lower : string -> string) (s : string) : string :=
  if is_ascii s then ascii_lower s else unicode_lower s.

(** Stands in for the runtime's case mapping in the examples: their texts
    are ASCII, so that it is never reached. *)
Definition no_unicode (s : string) : string := s.

(** [sub in s]: [sub] occurs in [s] as a contiguous substring. *)
Fixpoint contains (sub s : string) : bool :=
  String.prefix sub s ||
  match s with
  | EmptyString => false
  | String _ s' => contains sub s'
  end.

(** [s.split(sep)] for a one-character separator: never the empty list. *)
Fixpoint split (sep : ascii) (s : string) : list string :=
  match s with
  | EmptyString => [EmptyString]
  | String c s' =>
      if Ascii.eqb c sep then EmptyString :: split sep s'
      else match split sep s' with
           | piece :: pieces => String c piece :: pieces
           | [] => [String c EmptyString]
           end
  end.

(** [sep.join(pieces)]. *)
Fixpoint join (sep : string) (pieces : list string) : string :=
  match pieces with
  | [] => EmptyString
  | [piece] => piece
  | piece :: pieces' => piece +:+ sep +:+ join sep pieces'
  end.

(** [str(n)] for a length or a count. *)
Definition of_nat (n : nat) : string := NilEmpty.string_of_uint (Nat.to_uint n).

(** [str(n)] for an integer. *)
Definition of_Z (n : Z) : string := NilZero.string_of_int (Z.to_int n).

End Str.

(** ** Document text extraction (main.py, [extract_text_from_file]) *)

Module Extractor.

(** An uploaded file: its declared name and its content. *)
Record UploadFile : Type := {
  filename : string;
  file_bytes : list Byte.byte
}.

(** [uploaded_file.filename.split('.')[-1].lower()].  The split is never
    empty, so the index [-1] always finds the piece after the last dot. *)
Definition file_extension (unicode_lower : string -> string) (name : string)
  : string :=
  Str.lower unicode_lower (List.last (Str.split "." name) EmptyString).

(** The two document libraries are taken as parameters: [pdf_pages] stands
    for [fitz.open] followed by [page.get_text()] on each page, in page
    order, and [docx_paragraphs] for [docx.Document] followed by
    [para.text] on each paragraph.  Either may raise on a damaged file. *)
Definition extract_text_from_file (unicode_lower : string -> string)
    (pdf_pages docx_paragraphs : list Byte.byte -> result (list string))
    (uploaded_file : UploadFile) : result string :=
  let file_bytes := file_bytes uploaded_file in
  let file_extension := file_extension unicode_lower (filename uploaded_file) in
  if String.eqb file_extension "pdf" then
    pages ← pdf_pages file_bytes;
    mret (Str.strip (fold_left (fun text page => text +:+ page) pages EmptyString))
  else if existsb (String.eqb file_extension) ["docx"; "doc"] then
    paragraphs ← docx_paragraphs file_bytes;
    mret (Str.strip (Str.join (String "010" EmptyString) paragraphs))
  else
    Raise (HTTPException 400 ("Unsupported file format: " +:+ file_extension)).

End Extractor.

(** ** Language identification (main.py, [detect_language]) *)

Module Language.

(** The keys of [SUPPORTED_LANGUAGES]. *)
Definition supported_codes : list string := ["en"; "de"; "ar"].

(** [detect] is the classifier of the [langdetect] package; its documented
    failure is [LangDetectException], the only exception caught here. *)
Definition detect_language (detect : string -> result string) (text : string)
  : result string :=
  match detect text with
  | Ok lang =>
      if existsb (String.eqb lang) ["en"; "de"; "ar"] then Ok lang
      else Ok "en"
  | Raise LangDetectException => Ok "en"
  | Raise e => Raise e
  end.

(** A classifier for the examples: it fails on the empty text and answers
    [fr] on the text [Bonjour], [de] otherwise. *)
Definition toy_detect (text : string) : result string :=
  if Str.is_empty text then Raise LangDetectException
  else if String.eqb text "Bonjour" then Ok "fr" else Ok "de".

End Language.

(** ** Social-link validation (main.py, [analyze_and_rewrite_cv], the block
    that fills [social_links_data]) *)

Module SocialLinks.

(** One platform: the key of its entry in [social_links_data], the test
    run on the lower-cased value, and the detail of the error raised when
    the test fails. *)
Record platform : Type := {
  key : string;
  accepts : string -> bool;
  detail : string
}.

Definition any_in (indicators : list string) (s : string) : bool :=
  existsb (fun x => Str.contains x s) indicators.

Definition github_rule : platform :=
  {| key := "github";
     accepts := Str.contains "github.com";
     detail := "Invalid GitHub URL. Must contain 'github.com'" |}.

Definition linkedin_rule : platform :=
  {| key := "linkedin";
     accepts := Str.contains "linkedin.com";
     detail := "Invalid LinkedIn URL. Must contain 'linkedin.com'" |}.

Definition kaggle_rule : platform :=
  {| key := "kaggle";
     accepts := Str.contains "kaggle.com";
     detail := "Invalid Kaggle URL. Must contain 'kaggle.com'" |}.

Definition portfolio_rule : platform :=
  {| key := "portfolio";
     accepts := any_in ["http"; ".com"; ".io"; ".dev"; ".net"; ".org"];
     detail := "Invalid Portfolio URL. Must be a valid URL" |}.

Definition stackoverflow_rule : platform :=
  {| key := "stackoverflow";
     accepts := Str.contains "stackoverflow.com";
     detail := "Invalid Stack Overflow URL. Must contain 'stackoverflow.com'" |}.

Definition medium_rule : platform :=
  {| key := "medium";
     accepts := Str.contains "medium.com";
     detail := "Invalid Medium URL. Must contain 'medium.com'" |}.

Definition twitter_rule : platform :=
  {| key := "twitter";
     accepts := any_in ["twitter.com"; "x.com"];
     detail := "Invalid Twitter URL. Must contain 'twitter.com' or 'x.com'" |}.

(** [if s and s.strip():]: the value is not empty and not made of white
    space only. *)
Definition supplied (s : string) : bool :=
  Str.truthy s && Str.truthy (Str.strip s).

(** One [if] block of the handler:
<<
    if s and s.strip():
        if <test fails on s.lower()>:
            raise HTTPException(status_code=400, detail=...)
        social_links_data[key] = s.strip()
>> *)
Definition check_link (unicode_lower : string -> string)
    (p : platform) (s : string)
    (social_links_data : gmap string string) : result (gmap string string) :=
  if supplied s then
    if negb (accepts p (Str.lower unicode_lower s))
    then Raise (HTTPException 400 (detail p))
    else Ok (<[key p := Str.strip s]> social_links_data)
  else Ok social_links_data.

(** The seven blocks, in the order of the source. *)
Definition validate_social_links (unicode_lower : string -> string)
    (github linkedin kaggle portfolio stackoverflow medium twitter : string)
  : result (gmap string string) :=
  let check_link := check_link unicode_lower in
  social_links_data ← check_link github_rule github ∅;
  social_links_data ← check_link linkedin_rule linkedin social_links_data;
  social_links_data ← check_link kaggle_rule kaggle social_links_data;
  social_links_data ← check_link portfolio_rule portfolio social_links_data;
  social_links_data ← check_link stackoverflow_rule stackoverflow social_links_data;
  social_links_data ← check_link medium_rule medium social_links_data;
  social_links_data ← check_link twitter_rule twitter social_links_data;
  mret social_links_data.

(** The same blocks as a list of platforms with the values supplied. *)
Definition form_fields
    (github linkedin kaggle portfolio stackoverflow medium twitter : string)
  : list (platform * string) :=
  [(github_rule, github); (linkedin_rule, linkedin); (kaggle_rule, kaggle);
   (portfolio_rule, portfolio); (stackoverflow_rule, stackoverflow);
   (medium_rule, medium); (twitter_rule, twitter)].

Fixpoint check_links (unicode_lower : string -> string)
    (fields : list (platform * string))
    (social_links_data : gmap string string) : result (gmap string string) :=
  match fields with
  | [] => Ok social_links_data
  | (p, s) :: fields' =>
      social_links_data ← check_link unicode_lower p s social_links_data;
      check_links unicode_lower fields' social_links_data
  end.

(** A field is rejected when it is supplied and fails its platform's test. *)
Definition rejected (unicode_lower : string -> string)
    (field : platform * string) : bool :=
  supplied (snd field)
  && negb (accepts (fst field) (Str.lower unicode_lower (snd field))).

(** The entry a field leaves in [social_links_data], if any. *)
Definition entry_of (s : string) : option string :=
  if supplied s then Some (Str.strip s) else None.

(** The map that the blocks build when none of them raises. *)
Fixpoint accepted_entries (fields : list (platform * string))
    (m : gmap string string) : gmap string string :=
  match fields with
  | [] => m
  | (p, s) :: fields' =>
      accepted_entries fields'
        (if supplied s then <[key p := Str.strip s]> m else m)
  end.

End SocialLinks.

(** ** Career recommendations (main.py, [recommend_careers]) *)

Module Careers.

(** [l[:stop]]: a negative [stop] counts from the end, and the bounds are
    clamped to the list. *)
Definition slice_to {A} (l : list A) (stop : Z) : list A :=
  if (0 <=? stop)%Z then take (Z.to_nat stop) l
  else take (length l - Z.to_nat (- stop)) l.

(** [uuid.uuid4()] and [datetime.now()] are read from the environment: the
    handler receives the identifier and the time stamp they return. *)
Definition mock_jobs (tier job_id posted_at : string) : list value :=
  [VDict [("id", VStr job_id);
          ("title", VStr "Data Scientist");
          ("company", VStr "Tech Company GmbH");
          ("location", VStr "Berlin, Germany");
          ("job_type", VStr "Full-time");
          ("experience_level", VStr "Mid-level");
          ("description", VStr "We are looking for a Data Scientist...");
          ("required_skills", strs ["Python"; "Machine Learning"; "SQL"]);
          ("salary_min", VInt 60000);
          ("salary_max", VInt 80000);
          ("salary_currency", VStr "EUR");
          ("source", VStr (if String.eqb tier "free" then "BA-API" else "LinkedIn"));
          ("posted_at", VStr posted_at);
          ("url", VStr "https://example.com/job/123")]].

Definition mock_recommendations (jobs : list value) : result (list value) :=
  match jobs with
  | job :: _ =>
      Ok [VDict [("job", job);
                 ("overall_match_score", VInt 85);
                 ("skills_match_score", VInt 90);
                 ("experience_match_score", VInt 80);
                 ("education_match_score", VInt 85);
                 ("language_match_score", VInt 95);
                 ("matched_skills", strs ["Python"; "Machine Learning"]);
                 ("missing_skills", strs ["Deep Learning"; "TensorFlow"]);
                 ("improvement_suggestions",
                  VList [VDict [("category", VStr "skills");
                                ("suggestion", VStr "Learn Deep Learning frameworks like TensorFlow or PyTorch")];
                         VDict [("category", VStr "experience");
                                ("suggestion", VStr "Work on more ML projects to gain hands-on experience")]]);
                 ("estimated_preparation_time", VStr "2-3 months")]]
  | [] => Raise (OtherError "IndexError")
  end.

(** The response of the handler, as a record of its five keys. *)
Record CareerRecommendationResponse : Type := {
  tier : string;
  location : string;
  total_jobs_searched : nat;
  recommendations : list value;
  message : string
}.

Definition recommend_careers (job_id posted_at : string)
    (cv_data : value) (tier location : string) (limit : Z)
  : result CareerRecommendationResponse :=
  if negb (existsb (String.eqb tier) ["free"; "premium"]) then
    Raise (HTTPException 400 "Invalid tier. Must be 'free' or 'premium'")
  else
    let mock_jobs := mock_jobs tier job_id posted_at in
    mock_recommendations ← mock_recommendations mock_jobs;
    mret {| tier := tier;
            location := location;
            total_jobs_searched := length mock_jobs;
            recommendations := slice_to mock_recommendations limit;
            message := "Showing top "
                       +:+ Str.of_nat (length (slice_to mock_recommendations limit))
                       +:+ " recommendations from " +:+ tier +:+ " tier" |}.

End Careers.

(** ** Python operators and built-ins on JSON values *)

Module Builtins.

(** [d[k]] on the entries of a dictionary, when the key is there. *)
Fixpoint dict_lookup (k : string) (d : list (string * value)) : option value :=
  match d with
  | [] => None
  | (k', v) :: d' => if String.eqb k k' then Some v else dict_lookup k d'
  end.

(** [obj.get]: the bound method of a dictionary.  No other JSON value has
    one, and looking it up raises [AttributeError]. *)
Definition get_method (obj : value) : result (string -> value -> value) :=
  match obj with
  | VDict d => Ok (fun k dflt => default dflt (dict_lookup k d))
  | _ => Raise AttributeError
  end.

(** [obj.get(k, dflt)] for a default that is a literal. *)
Definition py_get (obj : value) (k : string) (dflt : value) : result value :=
  get ← get_method obj; mret (get k dflt).

(** The integer a number stands for; [bool] is a subtype of [int]. *)
Definition as_int (v : value) : option Z :=
  match v with
  | VInt n => Some n
  | VBool b => Some (Z.b2z b)
  | _ => None
  end.

(** [a + b]. *)
Definition py_add (a b : value) : result value :=
  match as_int a, as_int b with
  | Some m, Some n => Ok (VInt (m + n))
  | _, _ =>
      match a, b with
      | VStr s, VStr t => Ok (VStr (s +:+ t))
      | VList l, VList l' => Ok (VList (l ++ l'))
      | _, _ => Raise TypeError
      end
  end.

(** [a - b]. *)
Definition py_sub (a b : value) : result value :=
  match as_int a, as_int b with
  | Some m, Some n => Ok (VInt (m - n))
  | _, _ => Raise TypeError
  end.

(** [a < n] for an integer literal [n]. *)
Definition py_lt_int (a : value) (n : Z) : result bool :=
  match as_int a with
  | Some m => Ok (m <? n)%Z
  | None => Raise TypeError
  end.

(** [max(0, x)]: [x] when [x > 0], else the literal [0]. *)
Definition py_max0 (x : value) : result value :=
  match as_int x with
  | Some n => Ok (if (0 <? n)%Z then x else VInt 0)
  | None => Raise TypeError
  end.

(** [len(v)]. *)
Definition py_len (v : value) : result nat :=
  match v with
  | VList l => Ok (length l)
  | VDict d => Ok (length d)
  | VStr s => Ok (Str.len s)
  | _ => Raise TypeError
  end.

(** The elements [for x in v] runs over: a string yields its characters, a
    dictionary its keys. *)
Definition py_iter (v : value) : result (list value) :=
  match v with
  | VList l => Ok l
  | VDict d => Ok (map (fun kv => VStr (fst kv)) d)
  | VStr s => Ok (map VStr (Str.chars s))
  | _ => Raise TypeError
  end.

(** Truth value. *)
Definition truthy (v : value) : bool :=
  match v with
  | VNone => false
  | VBool b => b
  | VInt n => negb (n =? 0)%Z
  | VStr s => negb (Str.is_empty s)
  | VList l => match l with [] => false | _ => true end
  | VDict d => match d with [] => false | _ => true end
  end.

(** [a or b]. *)
Definition py_or (a b : value) : value := if truthy a then a else b.

(** [isinstance(v, list)]. *)
Definition is_list (v : value) : bool :=
  match v with VList _ => true | _ => false end.

(** Lists and dictionaries are unhashable. *)
Definition hashable (v : value) : bool :=
  match v with VList _ | VDict _ => false | _ => true end.

(** [a == b] on hashable values: [True == 1] and [False == 0]. *)
Definition scalar_eqb (a b : value) : bool :=
  match a, b with
  | VNone, VNone => true
  | VStr s, VStr t => String.eqb s t
  | _, _ =>
      match as_int a, as_int b with
      | Some m, Some n => (m =? n)%Z
      | _, _ => false
      end
  end.

(** [s.add(x)], the members of [s] being listed in the order they came. *)
Definition set_add (s : list value) (x : value) : list value :=
  if existsb (scalar_eqb x) s then s else s ++ [x].

(** [set(xs)]: raises on an unhashable element. *)
Definition py_set (xs : list value) : result (list value) :=
  if forallb hashable xs then Ok (fold_left set_add xs []) else Raise TypeError.

(** [str(v)] as an f-string renders [v]; [repr] renders the containers. *)
Definition py_str (repr : value -> string) (v : value) : string :=
  match v with
  | VStr s => s
  | VInt n => Str.of_Z n
  | VBool true => "True"
  | VBool false => "False"
  | VNone => "None"
  | _ => repr v
  end.

(** [d.get(k, dflt)] on a dictionary of strings. *)
Fixpoint names_get (d : list (string * string)) (k dflt : string) : string :=
  match d with
  | [] => dflt
  | (k', v) :: d' => if String.eqb k k' then v else names_get d' k dflt
  end.

(** Reading a key along a path of nested dictionaries. *)
Fixpoint at_path (path : list string) (v : value) : option value :=
  match path with
  | [] => Some v
  | k :: path' =>
      match v with
      | VDict d => dict_lookup k d ≫= at_path path'
      | _ => None
      end
  end.

End Builtins.

(** ** Response assembly (main.py, [analyze_and_rewrite_cv], from
    [# Calculate improvements] to [return response]) *)

Module Assembler.
Import Builtins.

(** The iteration order of a Python set is not specified.  [order] stands for
    the order in which [list(...)] reads the members of a set; the theorems
    that depend on it assume that it permutes them. *)
Definition list_of_set (order : list value -> list value) (xs : value)
  : result value :=
  members ← py_iter xs;
  s ← py_set members;
  mret (VList (order s)).

(** [list(set(parsed_data_dict.get("skills", []) +
      (suggested_skills if isinstance(suggested_skills, list) else [])))] *)
Definition combined_skills (order : list value -> list value)
    (parsed_data_dict suggested_skills : value) : result value :=
  skills ← py_get parsed_data_dict "skills" (VList []);
  both ← py_add skills
           (if is_list suggested_skills then suggested_skills else VList []);
  list_of_set order both.

(** [rewritten_data.get("estimated_new_ats_score",
                        ats_data.get("overall_score", 0) + 10)],
    the expression that the [improvement_notes] block writes out five times.
    The default is computed before the call. *)
Definition estimated_score (rewritten_data ats_data : value) : result value :=
  get ← get_method rewritten_data;
  overall_score ← py_get ats_data "overall_score" (VInt 0);
  dflt ← py_add overall_score (VInt 10);
  mret (get "estimated_new_ats_score" dflt).

(** [X if <score> < 90 else Y]. *)
Definition if_below_90 (rewritten_data ats_data : value) (x y : value)
  : result value :=
  score ← estimated_score rewritten_data ats_data;
  below ← py_lt_int score 90;
  mret (if below : bool then x else y).

(** One of the two comprehensions of [ats_compliance]. *)
Definition check_records (checks : value) : result value :=
  checks ← py_iter checks;
  records ← mapM (fun check =>
      item ← py_get check "item" (VStr EmptyString);
      status ← py_get check "status" (VStr EmptyString);
      details ← py_get check "details" (VStr EmptyString);
      mret (VDict [("item", item); ("status", status); ("details", details)]))
    checks;
  mret (VList records).

Definition lang_names : list (string * string) :=
  [("en", "English"); ("de", "German"); ("ar", "Arabic")].

Definition missing_for_90_percent : value := strs [
  "Quantifiable metrics (e.g., 'Improved efficiency by 30%', 'Managed team of 5 engineers')";
  "Specific numbers (e.g., 'Served 10,000+ users daily', 'Generated $2M in revenue')";
  "Measurable achievements (e.g., 'Reduced costs by 25%', 'Increased customer satisfaction by 40%')";
  "Project scope details (e.g., 'Led 3 major projects over 6 months', 'Delivered to 50+ clients')"].

Definition recommendation_below : string :=
  "To reach 90% ATS score, please add specific quantifiable metrics to your achievements. Without concrete numbers, we can improve your CV to ~75-80% ATS compliance through better language, structure, and keywords. For 85-90%, you'll need to provide measurable results from your work experience.".

Definition recommendation_reached : string :=
  "Excellent! Your CV meets high ATS standards.".

Definition examples : value := strs [
  "Instead of: 'Worked on projects' → Use: 'Led 5 cross-functional projects serving 50,000+ users'";
  "Instead of: 'Improved processes' → Use: 'Optimized workflow processes, reducing processing time by 35%'";
  "Instead of: 'Managed team' → Use: 'Managed team of 8 engineers, delivering 12 features in 6 months'"].

(** The list [improvements_made], appended to in the order of the source. *)
Definition improvements_made (repr : value -> string)
    (suggested_skills rewritten_data original_ats improved_ats : value)
    (input_language output_language : string) : result (list string) :=
  let improvements_made := [] in
  let improvements_made :=
    if negb (String.eqb input_language output_language) then
      improvements_made ++
        ["Translated CV from "
         +:+ names_get lang_names input_language input_language
         +:+ " to " +:+ names_get lang_names output_language output_language]
    else improvements_made in
  let improvements_made :=
    improvements_made ++
      ["Improved professional summary with strong action verbs and context"] in
  rewritten_experience ← py_get rewritten_data "rewritten_experience" (VList []);
  count ← py_len rewritten_experience;
  let improvements_made :=
    improvements_made ++
      ["Enhanced " +:+ Str.of_nat count
       +:+ " experience descriptions with impact and scope"] in
  let improvements_made :=
    match suggested_skills with
    | VList l =>
        if (0 <? length l)%nat then
          improvements_made ++
            ["Added " +:+ Str.of_nat (length l)
             +:+ " suggested skills based on experience"]
        else improvements_made
    | _ => improvements_made
    end in
  gain ← py_sub improved_ats original_ats;
  let improvements_made :=
    improvements_made ++
      ["Improved ATS compliance from " +:+ py_str repr original_ats
       +:+ "% to " +:+ py_str repr improved_ats
       +:+ "% (+" +:+ py_str repr gain +:+ "%)"] in
  mret (improvements_made ++
          ["Applied industry-specific keywords and professional terminology"]).

(** The six blocks of the response. *)

Definition final_cv (parsed_data_dict rewritten_data combined_skills
    social_links_data : value) : result value :=
  name ← py_get parsed_data_dict "name" VNone;
  email ← py_get parsed_data_dict "email" VNone;
  phone ← py_get parsed_data_dict "phone" VNone;
  address ← py_get parsed_data_dict "address" VNone;
  summary ← py_get rewritten_data "rewritten_summary" (VStr EmptyString);
  experience ← py_get rewritten_data "rewritten_experience" (VList []);
  education ← py_get parsed_data_dict "education" (VList []);
  projects ← py_get parsed_data_dict "projects" (VList []);
  languages ← py_get parsed_data_dict "languages" (VList []);
  hobbies ← py_get parsed_data_dict "hobbies" (VList []);
  mret (VDict [("name", py_or name (VStr EmptyString));
               ("email", py_or email (VStr EmptyString));
               ("phone", py_or phone (VStr EmptyString));
               ("address", py_or address (VStr EmptyString));
               ("summary", summary);
               ("skills", combined_skills);
               ("experience", experience);
               ("education", education);
               ("projects", projects);
               ("languages", languages);
               ("hobbies", hobbies);
               ("social_links", social_links_data)]).

Definition career_recommendation (career_data : value) : result value :=
  recommended_career ← py_get career_data "recommended_career" (VStr "Unknown");
  confidence ← py_get career_data "confidence" (VInt 0);
  reasoning ← py_get career_data "reasoning" (VStr EmptyString);
  alternative_careers ← py_get career_data "alternative_careers" (VList []);
  mret (VDict [("recommended_career", recommended_career);
               ("confidence", confidence);
               ("reasoning", reasoning);
               ("alternative_careers", alternative_careers)]).

Definition improvements_summary (original_ats improved_ats : value)
    (improvements_made : list string) (input_language output_language : string)
  : value :=
  VDict [("ats_score_before", original_ats);
         ("ats_score_after", improved_ats);
         ("improvements_made", strs improvements_made);
         ("translation_applied",
          VBool (negb (String.eqb input_language output_language)));
         ("input_language", VStr input_language);
         ("output_language", VStr output_language)].

Definition improvement_notes (rewritten_data ats_data : value) : result value :=
  original_ats_score ← py_get ats_data "overall_score" (VInt 0);
  improved_ats_score ← estimated_score rewritten_data ats_data;
  score ← estimated_score rewritten_data ats_data;
  gap ← py_sub (VInt 90) score;
  gap_to_target ← py_max0 gap;
  missing ← if_below_90 rewritten_data ats_data missing_for_90_percent (VList []);
  recommendation ← if_below_90 rewritten_data ats_data
                      (VStr recommendation_below) (VStr recommendation_reached);
  examples ← if_below_90 rewritten_data ats_data examples (VList []);
  mret (VDict [("original_ats_score", original_ats_score);
               ("improved_ats_score", improved_ats_score);
               ("target_ats_score", VInt 90);
               ("gap_to_target", gap_to_target);
               ("missing_for_90_percent", missing);
               ("recommendation", recommendation);
               ("examples", examples)]).

Definition quality_report (quality_data : value) : result value :=
  overall_score ← py_get quality_data "overall_score" (VInt 0);
  strengths ← py_get quality_data "strengths" (VList []);
  weaknesses ← py_get quality_data "weaknesses" (VList []);
  suggestions ← py_get quality_data "suggestions" (VList []);
  mret (VDict [("overall_score", overall_score);
               ("strengths", strengths);
               ("weaknesses", weaknesses);
               ("suggestions", suggestions)]).

Definition ats_compliance (ats_data : value) : result value :=
  overall_score ← py_get ats_data "overall_score" (VInt 0);
  passed ← py_get ats_data "passed_checks" (VList []);
  passed_checks ← check_records passed;
  failed ← py_get ats_data "failed_checks" (VList []);
  failed_checks ← check_records failed;
  critical_issues ← py_get ats_data "critical_issues" (VList []);
  recommendations ← py_get ats_data "recommendations" (VList []);
  mret (VDict [("overall_score", overall_score);
               ("passed_checks", passed_checks);
               ("failed_checks", failed_checks);
               ("critical_issues", critical_issues);
               ("recommendations", recommendations)]).

(** The transform outputs a request has gathered when assembly starts. *)
Record outputs : Type := {
  parsed_data_dict : value;
  quality_data : value;
  ats_data : value;
  suggested_skills : value;
  career_data : value;
  rewritten_data : value;
  input_language : string;
  output_language : string;
  social_links_data : value
}.

(** The assembly, statement by statement. *)
Definition assemble (order : list value -> list value) (repr : value -> string)
    (o : outputs) : result value :=
  (* Calculate improvements *)
  original_ats ← py_get (ats_data o) "overall_score" (VInt 0);
  get ← get_method (rewritten_data o);
  dflt ← py_add original_ats (VInt 10);
  let improved_ats := get "estimated_new_ats_score" dflt in
  combined_skills ← combined_skills order (parsed_data_dict o) (suggested_skills o);
  (* Build improvements_made list *)
  improvements_made ←
    improvements_made repr (suggested_skills o) (rewritten_data o)
      original_ats improved_ats (input_language o) (output_language o);
  (* Prepare response *)
  final_cv ← final_cv (parsed_data_dict o) (rewritten_data o) combined_skills
               (social_links_data o);
  career_recommendation ← career_recommendation (career_data o);
  let improvements_summary :=
    improvements_summary original_ats improved_ats improvements_made
      (input_language o) (output_language o) in
  improvement_notes ← improvement_notes (rewritten_data o) (ats_data o);
  quality_report ← quality_report (quality_data o);
  ats_compliance ← ats_compliance (ats_data o);
  mret (VDict [("final_cv", final_cv);
               ("career_recommendation", career_recommendation);
               ("improvements_summary", improvements_summary);
               ("improvement_notes", improvement_notes);
               ("quality_report", quality_report);
               ("ats_compliance", ats_compliance)]).

End Assembler.

(** ** Transform outputs with omitted fields *)

Module Schema.
Import Builtins Assembler.

(** [field v k]: the value under the key [k] of the mapping [v], if any. *)
Definition field (v : value) (k : string) : option value :=
  match v with VDict d => dict_lookup k d | _ => None end.

Definition is_dict (v : value) : bool :=
  match v with VDict _ => true | _ => false end.

(** A number, as the schemas declare the scores. *)
Definition is_number (v : value) : bool :=
  match as_int v with Some _ => true | None => false end.

(** A list of strings, numbers or nulls. *)
Definition is_scalar_list (v : value) : bool :=
  match v with VList l => forallb hashable l | _ => false end.

(** A list of mappings, as the schemas declare the check records. *)
Definition is_dict_list (v : value) : bool :=
  match v with VList l => forallb is_dict l | _ => false end.

(** [present_as P v k]: [v] is a mapping, and the key [k] is either omitted
    or bound to a value that satisfies [P]. *)
Definition present_as (P : value -> bool) (v : value) (k : string) : bool :=
  match v with
  | VDict d => from_option P true (dict_lookup k d)
  | _ => false
  end.

(** The outputs that the tolerance policy is about: every transform returned
    a mapping in which any field may be missing and the fields that the
    assembly computes with, when present, have the type their schema
    declares.  The suggested skills are a list of scalars, or anything that
    is not a list. *)
Definition well_formed (o : outputs) : bool :=
  present_as is_scalar_list (parsed_data_dict o) "skills"
  && is_dict (quality_data o)
  && is_dict (career_data o)
  && present_as is_number (ats_data o) "overall_score"
  && present_as is_dict_list (ats_data o) "passed_checks"
  && present_as is_dict_list (ats_data o) "failed_checks"
  && present_as is_number (rewritten_data o) "estimated_new_ats_score"
  && present_as is_list (rewritten_data o) "rewritten_experience"
  && (if is_list (suggested_skills o) then is_scalar_list (suggested_skills o)
      else true).




(** The four contact fields, read with [parsed_data_dict.get(k) or ""]. *)
Definition contact_fields : list string := ["name"; "email"; "phone"; "address"].


(** Every transform returned the empty mapping, and the skills transform the
    empty list. *)
Definition nothing_delivered : outputs :=
  {| parsed_data_dict := VDict [];
     quality_data := VDict [];
     ats_data := VDict [];
     suggested_skills := VList [];
     career_data := VDict [];
     rewritten_data := VDict [];
     input_language := "en";
     output_language := "de";
     social_links_data := VDict [] |}.

(** A request in which the quality transform under-delivers: its
    output has no [overall_score]. *)
Definition quality_omits_score : outputs :=
  {| parsed_data_dict :=
       VDict [("name", VStr "John Doe"); ("email", VNone);
              ("skills", strs ["Python"; "SQL"])];
     quality_data := VDict [("strengths", strs ["Clear structure"])];
     ats_data :=
       VDict [("overall_score", VInt 60);
              ("passed_checks",
               VList [VDict [("item", VStr "Contact"); ("status", VStr "pass")]])];
     suggested_skills := strs ["SQL"; "Docker"];
     career_data := VDict [("recommended_career", VStr "Python Developer")];
     rewritten_data :=
       VDict [("rewritten_summary", VStr "Entwickler");
              ("estimated_new_ats_score", VInt 70)];
     input_language := "en";
     output_language := "de";
     social_links_data := VDict [] |}.

(** Two ways of reading the members of a set, for the examples: in the
    order they came, and in the opposite order. *)
Definition as_listed (s : list value) : list value := s.

Definition latest_first (s : list value) : list value := rev s.

(** [set_add] on strings: [x] joins [acc] unless it is already there. *)
Definition add_new (acc : list string) (x : string) : list string :=
  if bool_decide (x ∈ acc) then acc else acc ++ [x].

Definition no_repr (v : value) : string := EmptyString.

End Schema.

(** ** The request handler before and after the parse transform (main.py,
    [analyze_and_rewrite_cv], from [# Validate output language] to
    [# Filter null values from parsed data]) *)

Module Handler.
Import Builtins.

(** [SUPPORTED_LANGUAGES]. *)
Definition SUPPORTED_LANGUAGES : list (string * string) :=
  [("en", "English"); ("de", "German (Deutsch)"); ("ar", "Arabic (العربية)")].

(** [get_language_name]: [SUPPORTED_LANGUAGES.get(lang_code, "English")]. *)
Definition get_language_name (lang_code : string) : string :=
  names_get SUPPORTED_LANGUAGES lang_code "English".

(** [repr] of a list of strings that hold no quote and no escape. *)
Definition repr_strs (l : list string) : string :=
  "[" +:+ Str.join ", " (map (fun s => "'" +:+ s +:+ "'") l) +:+ "]".

Definition insufficient_text : string :=
  "Could not extract sufficient text from the file. Please check the file format.".

(** What the handler holds when it calls the parse transform. *)
Record prepared : Type := {
  links : gmap string string;
  extracted_text : string;
  detected_language : string
}.

(** The statements that come before the parse transform: the check of the
    output language, the social links, the text extraction with its length
    check, and the language detection. *)
Definition prepare (unicode_lower : string -> string)
    (detect : string -> result string)
    (pdf_pages docx_paragraphs : list Byte.byte -> result (list string))
    (cv_file : Extractor.UploadFile) (output_language : string)
    (github linkedin kaggle portfolio stackoverflow medium twitter : string)
  : result prepared :=
  if negb (existsb (String.eqb output_language) (map fst SUPPORTED_LANGUAGES))
  then
    Raise (HTTPException 400
             ("Invalid output_language. Supported: "
              +:+ repr_strs (map fst SUPPORTED_LANGUAGES)))
  else
    social_links_data ←
      SocialLinks.validate_social_links unicode_lower github linkedin kaggle
        portfolio stackoverflow medium twitter;
    extracted_text ←
      Extractor.extract_text_from_file unicode_lower pdf_pages docx_paragraphs
        cv_file;
    if negb (Str.truthy extracted_text)
       || (Str.len extracted_text <? 50)%nat
    then Raise (HTTPException 400 insufficient_text)
    else
      input_language ← Language.detect_language detect extracted_text;
      mret {| links := social_links_data;
              extracted_text := extracted_text;
              detected_language := input_language |}.

(** [k in obj] for a string [k]: a key of a dictionary, an element of a
    list, a substring of a string; the other values are not iterable. *)
Definition py_in (k : string) (obj : value) : result bool :=
  match obj with
  | VDict d => Ok (existsb (fun kv => String.eqb k (fst kv)) d)
  | VList l => Ok (existsb (scalar_eqb (VStr k)) l)
  | VStr s => Ok (Str.contains k s)
  | _ => Raise TypeError
  end.

(** [obj[k]] for a string [k]: only a dictionary can be indexed by one. *)
Definition py_getitem (obj : value) (k : string) : result value :=
  match obj with
  | VDict d =>
      match dict_lookup k d with
      | Some v => Ok v
      | None => Raise (OtherError "KeyError")
      end
  | _ => Raise TypeError
  end.

(** [d[k] = v] on the entries of a dictionary: a key that is there keeps its
    place, a new key goes last. *)
Fixpoint dict_set (k : string) (v : value) (d : list (string * value))
  : list (string * value) :=
  match d with
  | [] => [(k, v)]
  | (k', v') :: d' =>
      if String.eqb k k' then (k, v) :: d' else (k', v') :: dict_set k v d'
  end.

(** [obj[k] = v] for a string [k]. *)
Definition py_setitem (obj : value) (k : string) (v : value) : result value :=
  match obj with
  | VDict d => Ok (VDict (dict_set k v d))
  | _ => Raise TypeError
  end.

(** One of the three blocks
<<
    if k in parsed_data_dict and parsed_data_dict[k]:
        parsed_data_dict[k] = [filter_null_values(p) for p in parsed_data_dict[k]]
>> *)
Definition sanitize_field (k : string) (parsed_data_dict : value) : result value :=
  present ← py_in k parsed_data_dict;
  if present : bool then
    entries ← py_getitem parsed_data_dict k;
    if truthy entries then
      entries ← py_getitem parsed_data_dict k;
      entries ← py_iter entries;
      py_setitem parsed_data_dict k
        (VList (map Sanitizer.filter_null_values entries))
    else Ok parsed_data_dict
  else Ok parsed_data_dict.

(** The statements between the parse transform and the quality transform:
    the social links, when there are any, are attached to the parsed data,
    and the projects, languages and education entries are sanitized. *)
Definition attach_and_sanitize (parsed_data_dict social_links_data : value)
  : result value :=
  parsed_data_dict ←
    (if truthy social_links_data
     then py_setitem parsed_data_dict "social_links" social_links_data
     else Ok parsed_data_dict);
  parsed_data_dict ← sanitize_field "projects" parsed_data_dict;
  parsed_data_dict ← sanitize_field "languages" parsed_data_dict;
  sanitize_field "education" parsed_data_dict.

(** The keys whose entries are sanitized. *)
Definition sanitized_keys : list string := ["projects"; "languages"; "education"].

(** What the comprehension makes of a list of entries: each entry is
    sanitized, none is dropped. *)
Definition sanitized_entries (v : value) : value :=
  match v with
  | VList l => VList (map Sanitizer.filter_null_values l)
  | _ => v
  end.

(** The link map as the dictionary it is in Python: its entries stand in
    the order in which the handler checks the platforms. *)
Definition links_value (links : gmap string string) : value :=
  VDict (omap (fun k => (fun v => (k, VStr v)) <$> links !! k)
           ["github"; "linkedin"; "kaggle"; "portfolio"; "stackoverflow";
            "medium"; "twitter"]).

(** An upload for the examples: its name has two dots and an upper-case
    extension. *)
Definition final_pdf : Extractor.UploadFile :=
  {| Extractor.filename := "resume.v2.PDF"; Extractor.file_bytes := [] |}.

(** An upload for the examples: a PDF of one page. *)
Definition one_page (bytes : list Byte.byte) : result (list string) :=
  Ok ["  John Doe, Python Developer, 3 years at Acme Corp, Berlin, Germany.  "].

(** A PDF whose one page holds 47 characters in 52 bytes. *)
Definition short_page (bytes : list Byte.byte) : result (list string) :=
  Ok ["Erfahrener Prüfer für Qualität in München, Köln"].

(** A parsed CV for the examples. *)
Definition sample_entries : list (string * value) :=
        [("name", VStr "John Doe");
         ("experience",
          VList [VDict [("position", VStr "Developer"); ("company", VNone)]]);
         ("projects",
          VList [Sanitizer.sample_project; VDict [("title", VNone)]]);
         ("languages", VList []);
         ("education", VNone)].

Definition sample_parsed : value := VDict sample_entries.

Definition sample_links : value :=
  VDict [("github", VStr "https://github.com/johndoe")].

End Handler.

(** ** Measures on values *)

Module Measure.
Import Sanitizer.

(** The number of values in a value, itself included. *)
Fixpoint size (v : value) : nat :=
  match v with
  | VDict d =>
      S ((fix items (d : list (string * value)) :=
            match d with
            | [] => 0
            | (_, v) :: d' => size v + items d'
            end) d)
  | VList l =>
      S ((fix elems (l : list value) :=
            match l with
            | [] => 0
            | item :: l' => size item + elems l'
            end) l)
  | _ => 1
  end%nat.

(** The values the sanitizer looks into. *)
Definition is_dict_or_list (v : value) : bool :=
  match v with VDict _ | VList _ => true | _ => false end.

(** [n] passes of the sanitizer. *)
Fixpoint passes (n : nat) (v : value) : value :=
  match n with
  | O => v
  | S n' => passes n' (filter_null_values v)
  end.

End Measure.

(** ** The whole handler (main.py, [analyze_and_rewrite_cv]) *)

Module Endpoint.
Import Builtins Assembler Handler.

(** The six language-model transforms.  Each stands for one
    [chain.ainvoke] of the handler, [JsonOutputParser] included: it returns
    the JSON value that the model's answer parses to, or raises.  The parse
    transform reads the extracted text; the others read the parsed data (as
    [json.dumps] renders it), the last three under a prompt built for the
    output language. *)
Record transforms : Type := {
  parser_chain : string -> result value;
  quality_chain : value -> result value;
  ats_chain : value -> result value;
  skills_chain : string -> value -> result value;
  career_chain : string -> value -> result value;
  rewriter_chain : string -> value -> result value
}.

(** The handler, statement by statement. *)
Definition analyze_and_rewrite_cv (unicode_lower : string -> string)
    (detect : string -> result string)
    (pdf_pages docx_paragraphs : list Byte.byte -> result (list string))
    (order : list value -> list value) (repr : value -> string)
    (llm : transforms)
    (cv_file : Extractor.UploadFile) (output_language : string)
    (github linkedin kaggle portfolio stackoverflow medium twitter : string)
  : result value :=
  p ← prepare unicode_lower detect pdf_pages docx_paragraphs cv_file output_language
        github linkedin kaggle portfolio stackoverflow medium twitter;
  let social_links_data := links_value (links p) in
  let extracted_text := extracted_text p in
  let input_language := detected_language p in
  (* Step 1: Parse CV *)
  parsed_data_dict ← parser_chain llm extracted_text;
  parsed_data_dict ← attach_and_sanitize parsed_data_dict social_links_data;
  (* Steps 2 to 6 *)
  quality_data ← quality_chain llm parsed_data_dict;
  ats_data ← ats_chain llm parsed_data_dict;
  suggested_skills ← skills_chain llm output_language parsed_data_dict;
  career_data ← career_chain llm output_language parsed_data_dict;
  rewritten_data ← rewriter_chain llm output_language parsed_data_dict;
  assemble order repr
    {| parsed_data_dict := parsed_data_dict;
       quality_data := quality_data;
       ats_data := ats_data;
       suggested_skills := suggested_skills;
       career_data := career_data;
       rewritten_data := rewritten_data;
       input_language := input_language;
       output_language := output_language;
       social_links_data := social_links_data |}.

(** What one of the three sanitizing blocks leaves under its key: a truthy
    value is iterated and each of its elements sanitized, a falsy one is
    left as it is. *)
Definition sanitized_value (v : value) : result value :=
  if truthy v then
    entries ← py_iter v; mret (VList (map Sanitizer.filter_null_values entries))
  else Ok v.

(** Transforms for the examples: they answer the same whatever they read. *)
Definition toy_transforms : transforms :=
  {| parser_chain := fun _ => Ok sample_parsed;
     quality_chain := fun _ => Ok (quality_data Schema.quality_omits_score);
     ats_chain := fun _ => Ok (ats_data Schema.quality_omits_score);
     skills_chain := fun _ _ => Ok (strs ["SQL"; "Docker"]);
     career_chain := fun _ _ => Ok (VDict []);
     rewriter_chain := fun _ _ =>
       Ok (VDict [("estimated_new_ats_score", VInt 92)]) |}.

End Endpoint.

(** ** The shape of the response *)

Module Response.
Import Builtins Schema.

(** The keys of a mapping, in their order. *)
Definition keys_of (v : value) : option (list string) :=
  match v with VDict d => Some (map fst d) | _ => None end.

(** The six blocks of the response and the keys of each. *)
Definition block_keys : list (string * list string) :=
  [("final_cv",
    ["name"; "email"; "phone"; "address"; "summary"; "skills"; "experience";
     "education"; "projects"; "languages"; "hobbies"; "social_links"]);
   ("career_recommendation",
    ["recommended_career"; "confidence"; "reasoning"; "alternative_careers"]);
   ("improvements_summary",
    ["ats_score_before"; "ats_score_after"; "improvements_made";
     "translation_applied"; "input_language"; "output_language"]);
   ("improvement_notes",
    ["original_ats_score"; "improved_ats_score"; "target_ats_score";
     "gap_to_target"; "missing_for_90_percent"; "recommendation"; "examples"]);
   ("quality_report",
    ["overall_score"; "strengths"; "weaknesses"; "suggestions"]);
   ("ats_compliance",
    ["overall_score"; "passed_checks"; "failed_checks"; "critical_issues";
     "recommendations"])].

(** The record that [ats_compliance] makes of one check. *)
Definition check_record (check : value) : value :=
  VDict [("item", default (VStr EmptyString) (field check "item"));
         ("status", default (VStr EmptyString) (field check "status"));
         ("details", default (VStr EmptyString) (field check "details"))].

(** [len(v)] is defined. *)
Definition has_len (v : value) : bool :=
  match v with VList _ | VDict _ | VStr _ => true | _ => false end.

(** [v] can be iterated and yields mappings only. *)
Definition yields_dicts (v : value) : bool :=
  match py_iter v with
  | Ok l => forallb is_dict l
  | Raise _ => false
  end.

(** What the assembly needs of the transform outputs: the five outputs
    that are read with [get] are mappings; the ATS score, or 0 in its
    place, and the score after the rewrite, or the former plus 10 in its
    place, are numbers; the skills, or the empty list in their place, are a
    list that, together with the suggested skills when those are a list,
    holds hashable values only; the rewritten experience has a length; the
    passed and the failed checks are iterated to mappings. *)
Definition assemblable (o : Assembler.outputs) : bool :=
  is_dict (Assembler.parsed_data_dict o)
  && is_dict (Assembler.quality_data o)
  && is_dict (Assembler.ats_data o)
  && is_dict (Assembler.career_data o)
  && is_dict (Assembler.rewritten_data o)
  && match as_int (default (VInt 0)
                     (field (Assembler.ats_data o) "overall_score")) with
     | Some before =>
         is_number (default (VInt (before + 10))
                      (field (Assembler.rewritten_data o)
                         "estimated_new_ats_score"))
     | None => false
     end
  && match default (VList []) (field (Assembler.parsed_data_dict o) "skills"),
           (if is_list (Assembler.suggested_skills o)
            then Assembler.suggested_skills o else VList []) with
     | VList l, VList l' => forallb hashable (l ++ l')
     | _, _ => false
     end
  && has_len (default (VList [])
                (field (Assembler.rewritten_data o) "rewritten_experience"))
  && yields_dicts (default (VList [])
                     (field (Assembler.ats_data o) "passed_checks"))
  && yields_dicts (default (VList [])
                     (field (Assembler.ats_data o) "failed_checks")).

(** Outputs in which the parse transform reports the skills as null, the
    way its prompt asks it to report what it did not find. *)
Definition skills_null : Assembler.outputs :=
  {| Assembler.parsed_data_dict :=
       VDict [("name", VStr "John Doe"); ("email", VNone); ("skills", VNone)];
     Assembler.quality_data := VDict [];
     Assembler.ats_data := VDict [];
     Assembler.suggested_skills := VList [];
     Assembler.career_data := VDict [];
     Assembler.rewritten_data := VDict [];
     Assembler.input_language := "en";
     Assembler.output_language := "de";
     Assembler.social_links_data := VDict [] |}.

(** Outputs in which the ATS score is a string. *)
Definition score_as_text : Assembler.outputs :=
  {| Assembler.parsed_data_dict := VDict [];
     Assembler.quality_data := VDict [];
     Assembler.ats_data := VDict [("overall_score", VStr "85")];
     Assembler.suggested_skills := VList [];
     Assembler.career_data := VDict [];
     Assembler.rewritten_data := VDict [("estimated_new_ats_score", VInt 92)];
     Assembler.input_language := "en";
     Assembler.output_language := "de";
     Assembler.social_links_data := VDict [] |}.

End Response.

(** * The string methods *)

Module StrSpec.

Example split_examples :
  Str.split "." "resume.txt" = ["resume"; "txt"] /\
  Str.split "." "a..b." = ["a"; EmptyString; "b"; EmptyString] /\
  Str.split "." "resume" = ["resume"] /\
  Str.split "." EmptyString = [EmptyString].
Proof. repeat split. Qed.

Example file_extension_examples :
  Extractor.file_extension Str.no_unicode "resume.txt" = "txt" /\
  Extractor.file_extension Str.no_unicode "CV.final.PDF" = "pdf" /\
  Extractor.file_extension Str.no_unicode "letter.Docx" = "docx" /\
  Extractor.file_extension Str.no_unicode "resume" = "resume" /\
  Extractor.file_extension Str.no_unicode "resume." = EmptyString.
Proof. repeat split. Qed.

Example strip_examples :
  Str.strip "  a b  " = "a b" /\
  Str.strip "   " = EmptyString /\
  Str.lower Str.no_unicode "HTTPS://GitHub.com/Abc" = "https://github.com/abc" /\
  Str.contains "github.com" "https://notgithub.com/abc" = true /\
  Str.contains "github.com" "https://gitlab.com/abc" = false /\
  Str.join "," ["a"; "b"; "c"] = "a,b,c" /\
  Str.of_Z (-5) = "-5" /\ Str.of_Z 0 = "0" /\ Str.of_nat 12 = "12".
Proof. repeat split. Qed.

(** The no-break space U+00A0 and the em space U+2003 are white space; a
    text is measured in code points, not in bytes. *)
Example code_point_examples :
  Str.strip (String "194" (String "160" "John Doe")
             +:+ String "226" (String "128" (String "131" EmptyString)))
  = "John Doe" /\
  Str.strip (String "194" (String "160" EmptyString)) = EmptyString /\
  Str.len (String "195" (String "132" "B")) = 2%nat /\
  Str.chars (String "195" (String "132" "B"))
  = [String "195" (String "132" EmptyString); "B"] /\
  Str.code_point (String "226" (String "132" (String "170" EmptyString)))
  = Some 8490%N.
Proof. repeat split. Qed.

(** ** Code points *)

Lemma append_cons c s1 s2 : String c s1 +:+ s2 = String c (s1 +:+ s2).
Proof. reflexivity. Qed.

Lemma append_empty s : EmptyString +:+ s = s.
Proof. reflexivity. Qed.

Lemma append_empty_r s : s +:+ EmptyString = s.
Proof.
  induction s as [|c s IH]; [done|]. by rewrite append_cons, IH.
Qed.

Lemma append_assoc s1 s2 s3 : (s1 +:+ s2) +:+ s3 = s1 +:+ (s2 +:+ s3).
Proof.
  induction s1 as [|c s1 IH]; [done|]. by rewrite !append_cons, IH.
Qed.

(** Continuation bytes are read into the code point at hand. *)
Lemma chars_from_continuation current t s :
  Str.all_continuation t = true ->
  Str.chars_from current (t +:+ s) = Str.chars_from (current +:+ t) s.
Proof.
  revert current. induction t as [|c t IH]; intros current Ht.
  - by rewrite append_empty, append_empty_r.
  - cbn [Str.all_continuation] in Ht. apply andb_prop in Ht as [Hc Ht].
    rewrite append_cons. cbn [Str.chars_from]. rewrite Hc, IH by done.
    by rewrite append_assoc.
Qed.

Lemma chars_from_cat current l :
  forallb Str.is_fresh_char l = true ->
  Str.chars_from current (Str.cat l) = current :: l.
Proof.
  revert current. induction l as [|x l IH]; intros current Hl; [done|].
  cbn [forallb] in Hl. apply andb_prop in Hl as [Hx Hl].
  destruct x as [|b t]; [done|]. cbn [Str.is_fresh_char] in Hx.
  apply andb_prop in Hx as [Hb Ht]. apply negb_true_iff in Hb.
  cbn [Str.cat]. rewrite append_cons. cbn [Str.chars_from]. rewrite Hb.
  by rewrite chars_from_continuation, IH.
Qed.

(** A string is made of its code points, and the code points of a string
    made of code points are these. *)
Lemma chars_cat l : Str.well_split l = true -> Str.chars (Str.cat l) = l.
Proof.
  destruct l as [|x l]; [done|]. cbn [Str.well_split]. intros H.
  apply andb_prop in H as [Hx Hl]. destruct x as [|b t]; [done|].
  cbn [Str.is_char] in Hx. cbn [Str.cat]. rewrite append_cons.
  cbn [Str.chars]. by rewrite chars_from_continuation, chars_from_cat.
Qed.

Lemma chars_from_spec current s :
  exists t rest,
    Str.chars_from current s = (current +:+ t) :: rest /\
    Str.all_continuation t = true /\
    forallb Str.is_fresh_char rest = true /\
    Str.cat ((current +:+ t) :: rest) = current +:+ s.
Proof.
  revert current. induction s as [|c s IH]; intros current.
  - exists EmptyString, []. cbn [Str.chars_from Str.cat].
    by rewrite !append_empty_r.
  - cbn [Str.chars_from]. destruct (Str.is_continuation c) eqn:Hc.
    + destruct (IH (current +:+ String c EmptyString))
        as (t & rest & -> & Ht & Hrest & Hcat).
      exists (String c t), rest. rewrite !append_assoc in *.
      split_and!; [done| |done|exact Hcat].
      cbn [Str.all_continuation]. by rewrite Hc.
    + destruct (IH (String c EmptyString)) as (t & rest & -> & Ht & Hrest & Hcat).
      exists EmptyString, ((String c EmptyString +:+ t) :: rest).
      rewrite append_empty_r. split_and!; try done.
      * cbn [forallb]. rewrite Hrest, append_cons. cbn [Str.is_fresh_char].
        by rewrite Hc, append_empty, Ht.
      * cbn [Str.cat] in *. by rewrite Hcat.
Qed.

Lemma cat_chars s : Str.cat (Str.chars s) = s.
Proof.
  destruct s as [|c s]; [done|]. cbn [Str.chars].
  by destruct (chars_from_spec (String c EmptyString) s) as (t & rest & -> & _ & _ & ->).
Qed.

Lemma chars_well_split s : Str.well_split (Str.chars s) = true.
Proof.
  destruct s as [|c s]; [done|]. cbn [Str.chars].
  destruct (chars_from_spec (String c EmptyString) s) as (t & rest & -> & Ht & Hrest & _).
  cbn [Str.well_split]. rewrite Hrest, append_cons. cbn [Str.is_char].
  by rewrite append_empty, Ht.
Qed.

Lemma fresh_char_is_char c : Str.is_fresh_char c = true -> Str.is_char c = true.
Proof. destruct c as [|b t]; [done|]. cbn. by destruct (Str.is_continuation b). Qed.

Lemma well_split_tail c l :
  Str.well_split (c :: l) = true -> Str.well_split l = true.
Proof.
  cbn [Str.well_split]. intros H. apply andb_prop in H as [_ Hl].
  destruct l as [|x l]; [done|]. cbn [forallb Str.well_split] in *.
  apply andb_prop in Hl as [Hx Hl]. by rewrite (fresh_char_is_char x), Hl.
Qed.

(** ** [strip] *)

Lemma lstrip_chars_well_split l :
  Str.well_split l = true -> Str.well_split (Str.lstrip_chars l) = true.
Proof.
  induction l as [|c l IH]; [done|]. intros H. cbn [Str.lstrip_chars].
  destruct (Str.is_space c); [|done]. by apply IH, (well_split_tail c).
Qed.

Lemma rstrip_chars_fresh l :
  forallb Str.is_fresh_char l = true ->
  forallb Str.is_fresh_char (Str.rstrip_chars l) = true.
Proof.
  induction l as [|c l IH]; [done|]. cbn [forallb Str.rstrip_chars].
  intros H. apply andb_prop in H as [Hc Hl].
  destruct (Str.is_space c && _); [done|]. cbn [forallb]. by rewrite Hc, IH.
Qed.

Lemma rstrip_chars_well_split l :
  Str.well_split l = true -> Str.well_split (Str.rstrip_chars l) = true.
Proof.
  destruct l as [|c l]; [done|]. cbn [Str.well_split Str.rstrip_chars].
  intros H. apply andb_prop in H as [Hc Hl].
  destruct (Str.is_space c && _); [done|]. cbn [Str.well_split].
  by rewrite Hc, rstrip_chars_fresh.
Qed.

Lemma lstrip_chars_starts_clean l :
  Str.starts_clean (Str.lstrip_chars l) = true.
Proof.
  induction l as [|c l IH]; [done|]. cbn [Str.lstrip_chars].
  destruct (Str.is_space c) eqn:Hc; [done|]. cbn [Str.starts_clean].
  by rewrite Hc.
Qed.

Lemma lstrip_chars_clean l :
  Str.starts_clean l = true -> Str.lstrip_chars l = l.
Proof.
  destruct l as [|c l]; [done|]. cbn [Str.starts_clean Str.lstrip_chars].
  by destruct (Str.is_space c).
Qed.

Lemma rstrip_chars_starts_clean l :
  Str.starts_clean l = true -> Str.starts_clean (Str.rstrip_chars l) = true.
Proof.
  destruct l as [|c l]; [done|]. cbn [Str.starts_clean Str.rstrip_chars].
  intros Hc. apply negb_true_iff in Hc. rewrite Hc. cbn [andb Str.starts_clean].
  by rewrite Hc.
Qed.

Lemma rstrip_chars_idempotent l :
  Str.rstrip_chars (Str.rstrip_chars l) = Str.rstrip_chars l.
Proof.
  induction l as [|c l IH]; [done|]. cbn [Str.rstrip_chars].
  destruct (Str.is_space c && _) eqn:Hc; [done|].
  cbn [Str.rstrip_chars]. by rewrite IH, Hc.
Qed.

(** What [strip] returns has no white space left at either end: stripping
    it again returns it. *)
Lemma strip_strip s : Str.strip (Str.strip s) = Str.strip s.
Proof.
  unfold Str.strip.
  rewrite chars_cat
    by apply rstrip_chars_well_split, lstrip_chars_well_split, chars_well_split.
  rewrite (lstrip_chars_clean (Str.rstrip_chars (Str.lstrip_chars (Str.chars s))))
    by apply rstrip_chars_starts_clean, lstrip_chars_starts_clean.
  by rewrite rstrip_chars_idempotent.
Qed.

(** ** [lower] on ASCII text *)

Lemma lower_ascii_text unicode_lower s :
  Str.is_ascii s = true -> Str.lower unicode_lower s = Str.ascii_lower s.
Proof. unfold Str.lower. by intros ->. Qed.

End StrSpec.

(** * Properties of the structural sanitizer *)

Module SanitizerSpec.
Import Sanitizer.

(** The sanitizer in terms of its two comprehensions. *)

Lemma filter_null_values_dict d :
  filter_null_values (VDict d) = VDict (filter_items d).
Proof. reflexivity. Qed.

Lemma filter_null_values_list l :
  filter_null_values (VList l) = VList (filter_elems l).
Proof. reflexivity. Qed.

Lemma filter_items_comprehension d :
  filter_items d =
  map (fun kv => (fst kv, filter_null_values (snd kv)))
      (List.filter (fun kv => dict_keep (snd kv)) d).
Proof.
  induction d as [|[k v] d IH]; cbn [filter_items List.filter fst snd]; [done|].
  destruct (dict_keep v); cbn [map fst snd]; by rewrite IH.
Qed.

Lemma filter_elems_comprehension l :
  filter_elems l = map filter_null_values (List.filter list_keep l).
Proof.
  induction l as [|x l IH]; cbn [filter_elems List.filter]; [done|].
  destruct (list_keep x); cbn [map]; by rewrite IH.
Qed.

Lemma clean_dict d :
  clean (VDict d) = forallb (fun kv => dict_keep (snd kv) && clean (snd kv)) d.
Proof.
  cbn [clean]. induction d as [|[k v] d IH]; cbn [forallb snd]; [done|].
  by rewrite IH.
Qed.

Lemma clean_list l :
  clean (VList l) = forallb (fun x => list_keep x && clean x) l.
Proof.
  cbn [clean]. induction l as [|x l IH]; cbn [forallb]; [done|].
  by rewrite IH.
Qed.

Lemma settled_dict d :
  settled (VDict d) =
  forallb (fun kv => if dict_keep (snd kv)
                     then settled (snd kv) && dict_keep (filter_null_values (snd kv))
                     else true) d.
Proof.
  cbn [settled]. induction d as [|[k v] d IH]; cbn [forallb snd]; [done|].
  by rewrite IH.
Qed.

Lemma settled_list l :
  settled (VList l) =
  forallb (fun x => if list_keep x
                    then settled x && list_keep (filter_null_values x)
                    else true) l.
Proof.
  cbn [settled]. induction l as [|x l IH]; cbn [forallb]; [done|].
  by rewrite IH.
Qed.

Lemma null_inside_dict d :
  null_inside (VDict d) =
  existsb (fun kv => is_none (snd kv) || is_empty_str (snd kv)
                     || null_inside (snd kv)) d.
Proof.
  cbn [null_inside]. induction d as [|[k v] d IH]; cbn [existsb snd]; [done|].
  by rewrite IH.
Qed.

Lemma null_inside_list l :
  null_inside (VList l) =
  existsb (fun x => is_none x || is_empty_str x || null_inside x) l.
Proof.
  cbn [null_inside]. induction l as [|x l IH]; cbn [existsb]; [done|].
  by rewrite IH.
Qed.

(** The comprehensions never lengthen their input, and a comprehension that
    returns its input has dropped nothing. *)

Lemma filter_items_length d : (length (filter_items d) <= length d)%nat.
Proof.
  induction d as [|[k v] d IH]; cbn [filter_items]; [done|].
  destruct (dict_keep v); cbn [length]; lia.
Qed.

Lemma filter_elems_length l : (length (filter_elems l) <= length l)%nat.
Proof.
  induction l as [|x l IH]; cbn [filter_elems]; [done|].
  destruct (list_keep x); cbn [length]; lia.
Qed.

Lemma filter_items_fixed d :
  filter_items d = d ->
  Forall (fun kv => dict_keep (snd kv) = true
                    /\ filter_null_values (snd kv) = snd kv) d.
Proof.
  induction d as [|[k v] d IH]; cbn [filter_items]; intros Heq.
  - constructor.
  - destruct (dict_keep v) eqn:Hk.
    + injection Heq as Hv Hd. constructor; [done|]. by apply IH.
    + pose proof (filter_items_length d) as Hlen.
      rewrite Heq in Hlen. cbn [length] in Hlen. lia.
Qed.

Lemma filter_elems_fixed l :
  filter_elems l = l ->
  Forall (fun x => list_keep x = true /\ filter_null_values x = x) l.
Proof.
  induction l as [|x l IH]; cbn [filter_elems]; intros Heq.
  - constructor.
  - destruct (list_keep x) eqn:Hk.
    + injection Heq as Hv Hd. constructor; [done|]. by apply IH.
    + pose proof (filter_elems_length l) as Hlen.
      rewrite Heq in Hlen. cbn [length] in Hlen. lia.
Qed.

(** The sanitizer maps scalars to themselves and containers to containers of
    the same kind: a kept value is never turned into a null or an empty
    string. *)

Lemma is_none_filter v : is_none (filter_null_values v) = is_none v.
Proof. by destruct v. Qed.

Lemma is_empty_str_filter v :
  is_empty_str (filter_null_values v) = is_empty_str v.
Proof. by destruct v. Qed.

(** [clean] characterises the fixed points of the sanitizer. *)

Lemma clean_fixed_point v : clean v = true <-> filter_null_values v = v.
Proof.
  induction v as [| | | |l IH|d IH] using value_nested_ind; try done.
  - rewrite clean_list, filter_null_values_list. split.
    + intros Hc. f_equal. induction IH as [|x l Hx _ IHl]; [done|].
      cbn [forallb] in Hc. apply andb_prop in Hc as [Hx' Hl].
      apply andb_prop in Hx' as [Hk Hcx].
      cbn [filter_elems]. rewrite Hk. f_equal; [by apply Hx | by apply IHl].
    + intros Heq. injection Heq as Heq. apply filter_elems_fixed in Heq.
      induction IH as [|x l Hx _ IHl]; [done|].
      apply Forall_cons in Heq as [[Hk Hfx] Hl]. cbn [forallb].
      rewrite Hk, (proj2 Hx Hfx). by apply IHl.
  - rewrite clean_dict, filter_null_values_dict. split.
    + intros Hc. f_equal. induction IH as [|[k v] d Hv _ IHd]; [done|].
      cbn [forallb snd] in Hc, Hv. apply andb_prop in Hc as [Hv' Hd].
      apply andb_prop in Hv' as [Hk Hcv].
      cbn [filter_items]. rewrite Hk. f_equal; [|by apply IHd].
      f_equal. by apply Hv.
    + intros Heq. injection Heq as Heq. apply filter_items_fixed in Heq.
      induction IH as [|[k v] d Hv _ IHd]; [done|].
      apply Forall_cons in Heq as [[Hk Hfv] Hd]. cbn [forallb snd] in *.
      rewrite Hk, (proj2 Hv Hfv). by apply IHd.
Qed.

(** [settled] says of the input what [clean] says of the output. *)

Lemma settled_clean v : settled v = clean (filter_null_values v).
Proof.
  induction v as [| | | |l IH|d IH] using value_nested_ind; try done.
  - rewrite settled_list, filter_null_values_list, clean_list.
    induction IH as [|x l Hx _ IHl]; [done|].
    cbn [forallb filter_elems]. destruct (list_keep x); cbn [forallb].
    + by rewrite IHl, Hx, andb_comm with (b1 := clean _).
    + done.
  - rewrite settled_dict, filter_null_values_dict, clean_dict.
    induction IH as [|[k v] d Hv _ IHd]; [done|].
    cbn [forallb filter_items snd] in *. destruct (dict_keep v); cbn [forallb snd].
    + by rewrite IHd, Hv, andb_comm with (b1 := clean _).
    + done.
Qed.

(** The sanitizer removes every null and every empty string that stands
    inside a container. *)

Lemma null_inside_filter v : null_inside (filter_null_values v) = false.
Proof.
  induction v as [| | | |l IH|d IH] using value_nested_ind; try done.
  - rewrite filter_null_values_list, null_inside_list.
    induction IH as [|x l Hx _ IHl]; [done|].
    cbn [filter_elems]. destruct (list_keep x) eqn:Hk; [|done].
    cbn [existsb]. rewrite IHl, Hx, is_none_filter, is_empty_str_filter.
    unfold list_keep in Hk.
    by destruct (is_none x), (is_empty_str x).
  - rewrite filter_null_values_dict, null_inside_dict.
    induction IH as [|[k v] d Hv _ IHd]; [done|].
    cbn [filter_items snd] in *. destruct (dict_keep v) eqn:Hk; [|done].
    cbn [existsb snd]. rewrite IHd, Hv, is_none_filter, is_empty_str_filter.
    unfold dict_keep in Hk.
    by destruct (is_none v), (is_empty_str v).
Qed.

(** C1, as stated, fails: [filter_null_values] is not idempotent.  On
    [{"a": [None]}] the first pass returns [{"a": []}] (the list is tested
    before its elements are filtered) and the second pass returns [{}]. *)
Lemma filter_null_values_not_idempotent :
  filter_null_values a_list_of_none = VDict [("a", VList [])] /\
  filter_null_values (filter_null_values a_list_of_none) = VDict [] /\
  filter_null_values (filter_null_values a_list_of_none)
    <> filter_null_values a_list_of_none.
Proof. repeat split; done. Qed.

(** C1 (amended): applying the sanitizer twice yields the same result as
    applying it once exactly on the settled structures, those in which, at
    every depth, no sequence kept as a mapping value is emptied by the
    sanitizer and no mapping kept as a sequence element is emptied by it. *)
Theorem filter_null_values_idempotent_iff_settled (x : value) :
  filter_null_values (filter_null_values x) = filter_null_values x
  <-> settled x = true.
Proof. by rewrite settled_clean, clean_fixed_point. Qed.

Example sample_project_sanitized :
  filter_null_values sample_project
  = VDict [("title", VStr "Churn model");
           ("technologies", VList [VStr "Python"])] /\
  settled sample_project = true /\
  filter_null_values (filter_null_values sample_project)
  = filter_null_values sample_project.
Proof. repeat split. Qed.

(** C2, as stated, fails: an empty sequence survives in the result, as a
    mapping value when the sanitizer itself empties the sequence, and as a
    sequence element because the list comprehension does not test for it. *)
Lemma empty_sequence_survives :
  empty_list_inside (filter_null_values a_list_of_none) = true /\
  filter_null_values (VList [VList []]) = VList [VList []].
Proof. split; done. Qed.

(** C2 (amended): the result is the copy of the input in which mapping
    entries whose value is null, the empty string or the empty sequence and
    sequence elements that are null, the empty string or the empty mapping
    are dropped, the kept values being sanitized in turn and scalars left as
    they are; no null and no empty string stands inside the result, at any
    depth. *)
Theorem filter_null_values_spec :
  (forall d, filter_null_values (VDict d) =
     VDict (map (fun kv => (fst kv, filter_null_values (snd kv)))
                (List.filter (fun kv => negb (is_none (snd kv))
                                        && negb (is_empty_str (snd kv))
                                        && negb (is_empty_list (snd kv))) d))) /\
  (forall l, filter_null_values (VList l) =
     VList (map filter_null_values
                (List.filter (fun x => negb (is_none x)
                                       && negb (is_empty_str x)
                                       && negb (is_empty_dict x)) l))) /\
  filter_null_values VNone = VNone /\
  (forall b, filter_null_values (VBool b) = VBool b) /\
  (forall n, filter_null_values (VInt n) = VInt n) /\
  (forall s, filter_null_values (VStr s) = VStr s) /\
  (forall x, null_inside (filter_null_values x) = false).
Proof.
  repeat split; try done.
  - intros d. by rewrite filter_null_values_dict, filter_items_comprehension.
  - intros l. by rewrite filter_null_values_list, filter_elems_comprehension.
  - apply null_inside_filter.
Qed.

End SanitizerSpec.

(** * Text extraction: unsupported extensions *)

Module ExtractorSpec.
Import Extractor.

Lemma split_not_nil sep s : Str.split sep s <> [].
Proof.
  induction s as [|c s IH]; cbn [Str.split]; [done|].
  destruct (Ascii.eqb c sep); [done|].
  by destruct (Str.split sep s).
Qed.

(** C4, as stated, fails: the extensions accepted are three, not two.  A
    file named [resume.doc] is accepted and handed to the reader of the
    paragraph-oriented format. *)
Lemma doc_extension_accepted :
  file_extension Str.no_unicode "resume.doc" = "doc" /\
  extract_text_from_file Str.no_unicode
    (fun _ => Raise (OtherError "FileDataError"))
    (fun _ => Ok ["John Doe"; "Developer"])
    {| filename := "resume.doc"; file_bytes := [] |}
  = Ok ("John Doe" +:+ String "010" "Developer").
Proof. split; reflexivity. Qed.

(** C4 (amended): the extension of a file is the piece of its name after
    the last dot, in lower case.  The extension [pdf] sends the file to the
    reader of the page-oriented format, and the extensions [docx] and [doc]
    both send it to the reader of the paragraph-oriented format.  A file
    with any other extension is refused with the client error 400 whose
    detail names that extension, whatever the two readers would do. *)
Theorem unsupported_extension_rejected
    (unicode_lower : string -> string)
    (pdf_pages docx_paragraphs : list Byte.byte -> result (list string))
    (uploaded_file : UploadFile) :
  let ext := file_extension unicode_lower (filename uploaded_file) in
  let outcome :=
    extract_text_from_file unicode_lower pdf_pages docx_paragraphs
      uploaded_file in
  (ext <> "pdf" /\ ext <> "docx" /\ ext <> "doc" ->
   outcome = Raise (HTTPException 400 ("Unsupported file format: " +:+ ext))) /\
  (ext = "pdf" ->
   outcome
   = (fun pages => Str.strip (fold_left String.append pages EmptyString))
       <$> pdf_pages (file_bytes uploaded_file)) /\
  (ext = "docx" \/ ext = "doc" ->
   outcome
   = (fun paragraphs => Str.strip (Str.join (String "010" EmptyString) paragraphs))
       <$> docx_paragraphs (file_bytes uploaded_file)).
Proof.
  intros ext outcome. unfold outcome, extract_text_from_file. fold ext.
  split_and!.
  - intros (Hpdf & Hdocx & Hdoc).
    apply String.eqb_neq in Hpdf, Hdocx, Hdoc.
    cbn [existsb]. by rewrite Hpdf, Hdocx, Hdoc.
  - intros ->. cbn [String.eqb Ascii.eqb Bool.eqb].
    by destruct (pdf_pages _).
  - intros [-> | ->]; cbn [String.eqb Ascii.eqb Bool.eqb existsb orb];
      by destruct (docx_paragraphs _).
Qed.

(** [resume.txt] is refused, and the error names [txt]. *)
Lemma resume_txt_rejected :
  extract_text_from_file Str.no_unicode (fun _ => Ok []) (fun _ => Ok [])
    {| filename := "resume.txt"; file_bytes := [] |}
  = Raise (HTTPException 400 "Unsupported file format: txt").
Proof.
  apply (proj1 (unsupported_extension_rejected Str.no_unicode
                  (fun _ => Ok []) (fun _ => Ok [])
                  {| filename := "resume.txt"; file_bytes := [] |})).
  split_and!; vm_compute; discriminate.
Defined.

(** An extension with a letter outside ASCII is lower-cased by the
    runtime's case mapping: [lebenslauf.ÄB] is refused as [äb]. *)
Example non_ascii_extension (unicode_lower : string -> string) :
  unicode_lower "ÄB" = "äb" ->
  extract_text_from_file unicode_lower (fun _ => Ok []) (fun _ => Ok [])
    {| filename := "lebenslauf.ÄB"; file_bytes := [] |}
  = Raise (HTTPException 400 "Unsupported file format: äb").
Proof.
  intros Hlower. unfold extract_text_from_file, file_extension.
  cbn [filename]. replace (List.last (Str.split "." "lebenslauf.ÄB") EmptyString)
    with "ÄB" by reflexivity.
  unfold Str.lower. replace (Str.is_ascii "ÄB") with false by reflexivity.
  by rewrite Hlower.
Qed.

End ExtractorSpec.

(** * Language identification *)

Module LanguageSpec.
Import Language.

(** C6: when the classifier either returns a code or raises its own
    [LangDetectException], [detect_language] returns, and what it returns is
    one of [en], [de], [ar]: the classifier's code when it is one of the
    three, and [en] when the code is another one or the classifier
    raised. *)
Theorem detect_language_total (detect : string -> result string) (text : string) :
  (forall e, detect text = Raise e -> e = LangDetectException) ->
  exists code,
    detect_language detect text = Ok code /\
    code ∈ supported_codes /\
    (forall lang, detect text = Ok lang -> lang ∈ supported_codes -> code = lang) /\
    (forall lang, detect text = Ok lang -> lang ∉ supported_codes -> code = "en") /\
    (detect text = Raise LangDetectException -> code = "en").
Proof.
  intros Hexn. unfold detect_language, supported_codes.
  destruct (detect text) as [lang|e] eqn:Hd.
  - destruct (existsb (String.eqb lang) ["en"; "de"; "ar"]) eqn:Hin.
    + exists lang. apply existsb_exists in Hin as (c & Hc & Heq).
      apply String.eqb_eq in Heq as <-. apply list_elem_of_In in Hc.
      split_and!; [done|done|congruence| |done].
      intros lang' [= <-] Hnot. by destruct Hnot.
    + exists "en". split_and!; [done|apply list_elem_of_here| |done|done].
      intros lang' [= <-] Hsup. apply list_elem_of_In in Hsup.
      assert (existsb (String.eqb lang) ["en"; "de"; "ar"] = true) as Hex.
      { apply existsb_exists. exists lang. split; [done|apply String.eqb_refl]. }
      congruence.
  - rewrite (Hexn e eq_refl). exists "en".
    split_and!; [done|apply list_elem_of_here|done|done|done].
Qed.

Lemma detect_language_total_fr :
  exists code,
    detect_language toy_detect "Bonjour" = Ok code /\
    code ∈ supported_codes /\
    (forall lang, toy_detect "Bonjour" = Ok lang -> lang ∈ supported_codes -> code = lang) /\
    (forall lang, toy_detect "Bonjour" = Ok lang -> lang ∉ supported_codes -> code = "en") /\
    (toy_detect "Bonjour" = Raise LangDetectException -> code = "en").
Proof.
  apply (detect_language_total toy_detect "Bonjour").
  intros e He. vm_compute in He. discriminate.
Defined.

Example detect_language_examples :
  detect_language toy_detect "Bonjour" = Ok "en" /\
  detect_language toy_detect EmptyString = Ok "en" /\
  detect_language toy_detect "Guten Tag" = Ok "de".
Proof. repeat split. Qed.

End LanguageSpec.

(** * Social-link validation *)

Module SocialLinksSpec.
Import SocialLinks.

Lemma validate_social_links_fields (unicode_lower : string -> string)
    (github linkedin kaggle portfolio stackoverflow medium twitter : string) :
  validate_social_links unicode_lower github linkedin kaggle portfolio
    stackoverflow medium twitter
  = check_links unicode_lower
      (form_fields github linkedin kaggle portfolio stackoverflow medium twitter) ∅.
Proof. reflexivity. Qed.

Lemma check_links_find unicode_lower fields m :
  check_links unicode_lower fields m =
  match List.find (rejected unicode_lower) fields with
  | Some field => Raise (HTTPException 400 (detail (fst field)))
  | None => Ok (accepted_entries fields m)
  end.
Proof.
  revert m. induction fields as [|[p s] fields IH]; intros m; [done|].
  cbn [check_links List.find accepted_entries].
  unfold rejected, check_link. cbn [fst snd].
  destruct (supplied s); cbn [andb]; [|apply IH].
  destruct (accepts p (Str.lower unicode_lower s)); cbn [negb]; [apply IH|done].
Qed.

Lemma accepted_entries_other fields m k :
  k ∉ map (fun field => key (fst field)) fields ->
  accepted_entries fields m !! k = m !! k.
Proof.
  revert m. induction fields as [|[p s] fields IH]; intros m Hk; [done|].
  cbn [accepted_entries map fst] in *.
  apply not_elem_of_cons in Hk as [Hne Hk]. rewrite IH by done.
  destruct (supplied s); [|done]. by rewrite lookup_insert_ne.
Qed.

Lemma accepted_entries_lookup fields m p s :
  NoDup (map (fun field => key (fst field)) fields) ->
  (p, s) ∈ fields ->
  accepted_entries fields m !! key p
  = match entry_of s with Some v => Some v | None => m !! key p end.
Proof.
  revert m. induction fields as [|[p' s'] fields IH]; intros m Hnd Hin.
  - by apply elem_of_nil in Hin.
  - cbn [map fst] in Hnd. apply NoDup_cons in Hnd as [Hnotin Hnd].
    cbn [accepted_entries]. apply elem_of_cons in Hin as [[= <- <-]|Hin].
    + rewrite accepted_entries_other by done. unfold entry_of.
      destruct (supplied s); by rewrite ?lookup_insert_eq.
    + rewrite IH by done. destruct (entry_of s); [done|].
      destruct (supplied s'); [|done].
      rewrite lookup_insert_ne; [done|]. intros Heq. apply Hnotin.
      rewrite Heq. apply (list_elem_of_fmap_2 (fun field => key (fst field)) _ _ Hin).
Qed.

Lemma form_fields_keys_NoDup
    (github linkedin kaggle portfolio stackoverflow medium twitter : string) :
  NoDup (map (fun field => key (fst field))
           (form_fields github linkedin kaggle portfolio stackoverflow
              medium twitter)).
Proof. cbn. apply (bool_decide_unpack _). by vm_compute. Qed.

(** Lower-casing keeps the occurrences of a lower-case substring. *)

Lemma prefix_lower sub s :
  String.prefix sub s = true ->
  String.prefix (Str.ascii_lower sub) (Str.ascii_lower s) = true.
Proof.
  revert s. induction sub as [|a sub IH]; intros [|b s]; cbn; try done.
  destruct (ascii_dec a b) as [->|]; [|done].
  destruct (ascii_dec _ _); [apply IH|done].
Qed.

Lemma contains_lower sub s :
  Str.ascii_lower sub = sub ->
  Str.contains sub s = true -> Str.contains sub (Str.ascii_lower s) = true.
Proof.
  intros Hsub. induction s as [|c s IH].
  - cbn [Str.contains Str.ascii_lower]. rewrite !orb_false_r. intros H.
    apply prefix_lower in H. by rewrite Hsub in H.
  - cbn [Str.contains Str.ascii_lower]. intros H. apply orb_prop in H as [H|H].
    + apply prefix_lower in H. rewrite Hsub in H. cbn [Str.ascii_lower] in H.
      by rewrite H.
    + rewrite (IH H). apply orb_true_r.
Qed.

Lemma any_in_lower indicators s :
  Forall (fun x => Str.ascii_lower x = x) indicators ->
  any_in indicators s = true -> any_in indicators (Str.ascii_lower s) = true.
Proof.
  unfold any_in. intros Hall H.
  apply existsb_exists in H as (x & Hin & Hx). apply existsb_exists.
  exists x. split; [done|]. apply contains_lower; [|done].
  rewrite Forall_forall in Hall. apply Hall. by apply list_elem_of_In.
Qed.

(** C8, as stated, fails: [https://notgithub.com/abc] contains the
    substring [github.com], so the code-hosting block accepts it and files
    it under [github]. *)
Lemma notgithub_accepted :
  validate_social_links Str.no_unicode "https://notgithub.com/abc"
    EmptyString EmptyString EmptyString EmptyString EmptyString EmptyString
  = Ok {[ "github" := "https://notgithub.com/abc" ]}.
Proof. vm_compute. reflexivity. Qed.

(** C8 (amended): the fields are checked in the order github, linkedin,
    kaggle, portfolio, stackoverflow, medium, twitter.  A field is supplied
    when it is not empty and not made of white space only.  When a field is
    supplied and its value in lower case fails the platform's test, the
    handler raises the client error 400 with the detail of the first such
    platform.  Otherwise it returns the link map, which holds for each
    platform the value with the white space at its ends removed when the
    field is supplied and no entry when it is not.  The test is a substring
    test: an ASCII value that contains the expected substring as it is
    written is never rejected. *)
Theorem social_links_validated (unicode_lower : string -> string)
    (github linkedin kaggle portfolio stackoverflow medium twitter : string) :
  let fields :=
    form_fields github linkedin kaggle portfolio stackoverflow medium twitter in
  let outcome :=
    validate_social_links unicode_lower github linkedin kaggle portfolio
      stackoverflow medium twitter in
  match List.find (rejected unicode_lower) fields with
  | Some field => outcome = Raise (HTTPException 400 (detail (fst field)))
  | None =>
      exists links, outcome = Ok links /\
        forall p s, (p, s) ∈ fields -> links !! key p = entry_of s
  end /\
  (forall p s, (p, s) ∈ fields ->
     rejected unicode_lower (p, s)
     = supplied s && negb (accepts p (Str.lower unicode_lower s))) /\
  (forall p s, (p, s) ∈ fields -> supplied s = true ->
     Str.is_ascii s = true -> accepts p s = true ->
     rejected unicode_lower (p, s) = false).
Proof.
  intros fields outcome. split_and!.
  - unfold outcome. rewrite validate_social_links_fields, check_links_find.
    fold fields. destruct (List.find (rejected unicode_lower) fields); [done|].
    eexists. split; [done|]. intros p s Hin.
    rewrite (accepted_entries_lookup fields ∅ p s); [|apply form_fields_keys_NoDup|done].
    rewrite lookup_empty. by destruct (entry_of s).
  - done.
  - intros p s Hin Hsup Hascii Hacc. unfold rejected. cbn [fst snd].
    rewrite Hsup. cbn [andb]. apply negb_false_iff.
    rewrite StrSpec.lower_ascii_text by done.
    unfold fields, form_fields in Hin.
    repeat (apply elem_of_cons in Hin as [[= -> ->]|Hin]);
      [..|by apply elem_of_nil in Hin];
      cbn [accepts github_rule linkedin_rule kaggle_rule portfolio_rule
             stackoverflow_rule medium_rule twitter_rule] in *;
      first [ apply contains_lower; [reflexivity|done]
            | apply any_in_lower; [repeat constructor|done] ].
Qed.

Example social_link_examples :
  validate_social_links Str.no_unicode "https://github.com/abc" EmptyString
    EmptyString EmptyString EmptyString EmptyString EmptyString
  = Ok {[ "github" := "https://github.com/abc" ]} /\
  validate_social_links Str.no_unicode "  HTTPS://GitHub.com/abc " EmptyString
    EmptyString EmptyString EmptyString EmptyString EmptyString
  = Ok {[ "github" := "HTTPS://GitHub.com/abc" ]} /\
  validate_social_links Str.no_unicode "https://gitlab.com/abc" EmptyString
    EmptyString EmptyString EmptyString EmptyString EmptyString
  = Raise (HTTPException 400 "Invalid GitHub URL. Must contain 'github.com'") /\
  validate_social_links Str.no_unicode "   " EmptyString EmptyString
    "my site" EmptyString EmptyString EmptyString
  = Raise (HTTPException 400 "Invalid Portfolio URL. Must be a valid URL") /\
  validate_social_links Str.no_unicode "   " EmptyString EmptyString
    EmptyString EmptyString EmptyString EmptyString
  = Ok ∅ /\
  validate_social_links Str.no_unicode (String "194" (String "160" EmptyString))
    EmptyString EmptyString EmptyString EmptyString EmptyString EmptyString
  = Ok ∅.
Proof. repeat split; vm_compute; reflexivity. Qed.

(** A host written with the Kelvin sign U+212A, which the runtime's case
    mapping turns into [k], passes the test and is stored as it was
    typed. *)
Example kelvin_sign_link (unicode_lower : string -> string) :
  unicode_lower "https://Kaggle.com/abc" = "https://kaggle.com/abc" ->
  validate_social_links unicode_lower EmptyString EmptyString
    "https://Kaggle.com/abc" EmptyString EmptyString EmptyString EmptyString
  = Ok {[ "kaggle" := "https://Kaggle.com/abc" ]}.
Proof.
  intros Hlower. unfold validate_social_links, check_link.
  replace (supplied EmptyString) with false by reflexivity.
  replace (supplied "https://Kaggle.com/abc") with true by reflexivity.
  unfold Str.lower.
  replace (Str.is_ascii "https://Kaggle.com/abc") with false by reflexivity.
  rewrite Hlower. cbn [mbind result_bind mret result_ret].
  replace (accepts kaggle_rule "https://kaggle.com/abc") with true by reflexivity.
  cbn [negb key kaggle_rule].
  by replace (Str.strip "https://Kaggle.com/abc")
    with "https://Kaggle.com/abc" by reflexivity.
Qed.

End SocialLinksSpec.

(** * Career recommendations *)

Module CareersSpec.
Import Careers.

Lemma slice_to_singleton {A} (x : A) (limit : Z) :
  slice_to [x] limit = if (1 <=? limit)%Z then [x] else [].
Proof.
  unfold slice_to. destruct (Z.leb_spec 0 limit) as [H0|H0];
    destruct (Z.leb_spec 1 limit) as [H1|H1]; try lia.
  - destruct (Z.to_nat limit) as [|n] eqn:Hn; [lia|].
    cbn [take]. by destruct n.
  - by replace limit with 0%Z by lia.
  - cbn [length]. by replace (1 - Z.to_nat (- limit))%nat with 0%nat by lia.
Qed.

(** C10: with a valid tier the handler returns; it reports one searched
    job; it returns one recommendation when the limit is at least 1 and none
    when the limit is 0 or negative; and its message gives the number of
    recommendations returned and the tier. *)
Theorem recommend_careers_mock
    (job_id posted_at : string) (cv_data : value)
    (tier location : string) (limit : Z) :
  tier = "free" \/ tier = "premium" ->
  exists response,
    recommend_careers job_id posted_at cv_data tier location limit = Ok response /\
    Careers.tier response = tier /\
    Careers.location response = location /\
    total_jobs_searched response = 1%nat /\
    (1 <= limit -> length (recommendations response) = 1%nat) /\
    (limit <= 0 -> recommendations response = []) /\
    message response =
      "Showing top " +:+ Str.of_nat (length (recommendations response))
      +:+ " recommendations from " +:+ tier +:+ " tier" /\
    message response =
      "Showing top " +:+ (if (1 <=? limit)%Z then "1" else "0")
      +:+ " recommendations from " +:+ tier +:+ " tier".
Proof.
  intros Htier. unfold recommend_careers.
  assert (existsb (String.eqb tier) ["free"; "premium"] = true) as ->.
  { by destruct Htier as [-> | ->]. }
  cbn [negb mock_jobs mock_recommendations mbind result_bind mret result_ret].
  eexists. split; [reflexivity|]. cbn [Careers.tier Careers.location
    total_jobs_searched recommendations message length].
  rewrite slice_to_singleton.
  split_and!; try done.
  - intros H. by destruct (Z.leb_spec 1 limit); [|lia].
  - intros H. by destruct (Z.leb_spec 1 limit); [lia|].
  - by destruct (1 <=? limit)%Z.
Qed.

(** The default call: tier [free], limit 10. *)
Lemma recommend_careers_mock_default :
  exists response,
    recommend_careers "job-1" "2025-01-01T00:00:00" (VDict []) "free" "Germany" 10
      = Ok response /\
    Careers.tier response = "free" /\
    Careers.location response = "Germany" /\
    total_jobs_searched response = 1%nat /\
    (1 <= 10 -> length (recommendations response) = 1%nat) /\
    (10 <= 0 -> recommendations response = []) /\
    message response =
      "Showing top " +:+ Str.of_nat (length (recommendations response))
      +:+ " recommendations from " +:+ "free" +:+ " tier" /\
    message response =
      "Showing top " +:+ (if (1 <=? 10)%Z then "1" else "0")
      +:+ " recommendations from " +:+ "free" +:+ " tier".
Proof.
  apply (recommend_careers_mock "job-1" "2025-01-01T00:00:00" (VDict [])
           "free" "Germany" 10).
  left. reflexivity.
Defined.

Example recommend_careers_examples :
  (message <$> recommend_careers "job-1" "now" (VDict []) "premium" "Berlin" 1000)
    = Ok "Showing top 1 recommendations from premium tier" /\
  (message <$> recommend_careers "job-1" "now" (VDict []) "free" "Berlin" (-3))
    = Ok "Showing top 0 recommendations from free tier" /\
  (message <$> recommend_careers "job-1" "now" (VDict []) "gold" "Berlin" 10)
    = Raise (HTTPException 400 "Invalid tier. Must be 'free' or 'premium'").
Proof. repeat split. Qed.

End CareersSpec.

(** * Response assembly *)

Module AssemblerSpec.
Import Builtins Assembler Schema.

(** ** Reasoning about code that can raise *)

Lemma bind_ok_inv {A B} (m : result A) (f : A -> result B) (b : B) :
  m ≫= f = Ok b -> exists a, m = Ok a /\ f a = Ok b.
Proof. destruct m as [a|e]; [|done]. intros H. by exists a. Qed.

Ltac ok_inv H :=
  let a := fresh "a" in
  let Ha := fresh "Ha" in
  apply bind_ok_inv in H as (a & Ha & H).

(** ** The readers *)

Lemma py_get_ok v k dflt :
  is_dict v = true -> py_get v k dflt = Ok (default dflt (field v k)).
Proof. by destruct v. Qed.

Lemma py_get_inv v k dflt x :
  py_get v k dflt = Ok x ->
  is_dict v = true /\ x = default dflt (field v k).
Proof. destruct v; try done. by intros [= <-]. Qed.

Lemma present_as_dict P v k : present_as P v k = true -> is_dict v = true.
Proof. by destruct v. Qed.

Lemma present_as_default P v k dflt :
  present_as P v k = true -> P dflt = true ->
  P (default dflt (field v k)) = true.
Proof.
  destruct v; try done. cbn [present_as field].
  by destruct (dict_lookup k d).
Qed.

Lemma is_number_as_int v : is_number v = true -> exists n, as_int v = Some n.
Proof. unfold is_number. destruct (as_int v) as [n|]; [by exists n|done]. Qed.

Lemma py_add_int a m n : as_int a = Some m -> py_add a (VInt n) = Ok (VInt (m + n)).
Proof. intros H. unfold py_add. by rewrite H. Qed.

Lemma py_add_int_inv a n x :
  py_add a (VInt n) = Ok x -> exists m, as_int a = Some m /\ x = VInt (m + n).
Proof.
  unfold py_add. destruct (as_int a) as [m|] eqn:Ha; cbn [as_int].
  - intros [= <-]. by exists m.
  - by destruct a.
Qed.

Lemma py_sub_int a b m n :
  as_int a = Some m -> as_int b = Some n -> py_sub a b = Ok (VInt (m - n)).
Proof. intros Ha Hb. unfold py_sub. by rewrite Ha, Hb. Qed.

Lemma py_sub_inv a b x :
  py_sub a b = Ok x ->
  exists m n, as_int a = Some m /\ as_int b = Some n /\ x = VInt (m - n).
Proof.
  unfold py_sub. destruct (as_int a) as [m|]; [|done].
  destruct (as_int b) as [n|]; [|done]. intros [= <-]. by exists m, n.
Qed.

Lemma py_max0_int n : py_max0 (VInt n) = Ok (VInt (Z.max 0 n)).
Proof.
  unfold py_max0. cbn [as_int]. f_equal.
  destruct (Z.ltb_spec 0 n); f_equal; lia.
Qed.

(** ** The score expressions *)

Lemma estimated_score_inv rewritten ats score :
  estimated_score rewritten ats = Ok score ->
  exists before,
    is_dict rewritten = true /\ is_dict ats = true /\
    as_int (default (VInt 0) (field ats "overall_score")) = Some before /\
    score = default (VInt (before + 10))
                    (field rewritten "estimated_new_ats_score").
Proof.
  unfold estimated_score. intros H.
  destruct rewritten as [| | | | |d]; try done.
  cbn [get_method mbind result_bind] in H.
  ok_inv H. ok_inv H. apply py_get_inv in Ha as [Hats ->].
  apply py_add_int_inv in Ha0 as (before & Hb & ->).
  injection H as <-. by exists before.
Qed.

Lemma estimated_score_ok rewritten ats before :
  is_dict rewritten = true -> is_dict ats = true ->
  as_int (default (VInt 0) (field ats "overall_score")) = Some before ->
  estimated_score rewritten ats
  = Ok (default (VInt (before + 10))
                (field rewritten "estimated_new_ats_score")).
Proof.
  intros Hr Ha Hb. unfold estimated_score.
  destruct rewritten; try done. cbn [get_method].
  rewrite (py_get_ok ats) by done.
  cbn [mbind result_bind]. by rewrite (py_add_int _ before).
Qed.

Lemma if_below_90_ok rewritten ats before after x y :
  is_dict rewritten = true -> is_dict ats = true ->
  as_int (default (VInt 0) (field ats "overall_score")) = Some before ->
  as_int (default (VInt (before + 10))
                  (field rewritten "estimated_new_ats_score")) = Some after ->
  if_below_90 rewritten ats x y = Ok (if (after <? 90)%Z then x else y).
Proof.
  intros Hr Ha Hb Haf. unfold if_below_90.
  rewrite (estimated_score_ok _ _ before) by done.
  cbn [mbind result_bind]. unfold py_lt_int. by rewrite Haf.
Qed.

(** The [improvement_notes] block, when the two scores are numbers. *)
Lemma improvement_notes_ok rewritten ats before after :
  is_dict rewritten = true -> is_dict ats = true ->
  as_int (default (VInt 0) (field ats "overall_score")) = Some before ->
  as_int (default (VInt (before + 10))
                  (field rewritten "estimated_new_ats_score")) = Some after ->
  improvement_notes rewritten ats
  = Ok (VDict
          [("original_ats_score", default (VInt 0) (field ats "overall_score"));
           ("improved_ats_score",
            default (VInt (before + 10))
                    (field rewritten "estimated_new_ats_score"));
           ("target_ats_score", VInt 90);
           ("gap_to_target", VInt (Z.max 0 (90 - after)));
           ("missing_for_90_percent",
            if (after <? 90)%Z then missing_for_90_percent else VList []);
           ("recommendation",
            if (after <? 90)%Z then VStr recommendation_below
            else VStr recommendation_reached);
           ("examples", if (after <? 90)%Z then examples else VList [])]).
Proof.
  intros Hr Ha Hb Haf. unfold improvement_notes.
  rewrite (py_get_ok ats) by done.
  rewrite (estimated_score_ok _ _ before) by done.
  rewrite !(if_below_90_ok _ _ before after) by done.
  cbn [mbind result_bind mret result_ret].
  rewrite (py_sub_int _ _ 90 after) by done.
  cbn [mbind result_bind]. by rewrite py_max0_int.
Qed.

(** The block raises unless the two scores are numbers. *)
Lemma improvement_notes_inv rewritten ats notes :
  improvement_notes rewritten ats = Ok notes ->
  exists before after,
    is_dict rewritten = true /\ is_dict ats = true /\
    as_int (default (VInt 0) (field ats "overall_score")) = Some before /\
    as_int (default (VInt (before + 10))
                    (field rewritten "estimated_new_ats_score")) = Some after.
Proof.
  unfold improvement_notes. intros H.
  ok_inv H. ok_inv H. ok_inv H. ok_inv H.
  apply estimated_score_inv in Ha1 as (before & Hr & Hats & Hb & ->).
  apply py_sub_inv in Ha2 as (m & after & _ & Haf & _).
  by exists before, after.
Qed.

(** ** The other blocks *)

Lemma check_records_nil : check_records (VList []) = Ok (VList []).
Proof. reflexivity. Qed.

Lemma check_records_ok checks :
  is_dict_list checks = true -> exists records, check_records checks = Ok (VList records).
Proof.
  destruct checks as [| | | |l|]; try done. cbn [is_dict_list].
  intros Hl. unfold check_records. cbn [py_iter mbind result_bind].
  assert (exists records,
    mapM (fun check =>
      item ← py_get check "item" (VStr EmptyString);
      status ← py_get check "status" (VStr EmptyString);
      details ← py_get check "details" (VStr EmptyString);
      mret (VDict [("item", item); ("status", status); ("details", details)])) l
    = Ok records) as [records ->]; [|by exists records].
  induction l as [|check l IH]; [by exists []|].
  cbn [forallb] in Hl. apply andb_prop in Hl as [Hc Hl].
  destruct (IH Hl) as [records Hrecords]. cbn [mapM].
  rewrite !(py_get_ok check) by done. cbn [mbind result_bind].
  rewrite Hrecords. by eexists.
Qed.

Lemma combined_skills_ok order parsed suggested :
  present_as is_scalar_list parsed "skills" = true ->
  (if is_list suggested then is_scalar_list suggested else true) = true ->
  exists skills, combined_skills order parsed suggested = Ok (VList skills).
Proof.
  intros Hp Hs. unfold combined_skills.
  rewrite py_get_ok by (by eapply present_as_dict).
  cbn [mbind result_bind].
  pose proof (present_as_default is_scalar_list parsed "skills" (VList []) Hp eq_refl)
    as Hskills.
  destruct (default (VList []) (field parsed "skills")) as [| | | |l|]; try done.
  cbn [is_scalar_list] in Hskills.
  assert (exists l', (if is_list suggested then suggested else VList []) = VList l'
                     /\ forallb hashable l' = true) as (l' & -> & Hl').
  { destruct suggested; cbn [is_list] in *; try by exists []. by eexists. }
  cbn [py_add as_int mbind result_bind]. unfold list_of_set.
  cbn [py_iter mbind result_bind]. unfold py_set.
  rewrite forallb_app, Hskills, Hl'. by eexists.
Qed.

Lemma improvements_made_ok repr suggested rewritten original improved
    input_language output_language m n :
  present_as is_list rewritten "rewritten_experience" = true ->
  as_int original = Some m -> as_int improved = Some n ->
  exists notes,
    improvements_made repr suggested rewritten original improved
      input_language output_language = Ok notes.
Proof.
  intros Hr Hm Hn. unfold improvements_made.
  rewrite py_get_ok by (by eapply present_as_dict).
  cbn [mbind result_bind].
  pose proof (present_as_default is_list rewritten "rewritten_experience"
                (VList []) Hr eq_refl) as Hexp.
  destruct (default (VList []) (field rewritten "rewritten_experience"));
    try done.
  cbn [py_len mbind result_bind]. rewrite (py_sub_int _ _ n m) by done.
  by eexists.
Qed.

(** ** The whole assembly *)

(** What a response tells about the outputs it was assembled from: the two
    scores are numbers, and the two score blocks hold them. *)
Lemma assemble_scores order repr o response :
  assemble order repr o = Ok response ->
  exists before after,
    let original := default (VInt 0) (field (ats_data o) "overall_score") in
    let improved :=
      default (VInt (before + 10))
        (field (rewritten_data o) "estimated_new_ats_score") in
    as_int original = Some before /\
    as_int improved = Some after /\
    at_path ["improvements_summary"; "ats_score_before"] response = Some original /\
    at_path ["improvements_summary"; "ats_score_after"] response = Some improved /\
    at_path ["improvement_notes"; "original_ats_score"] response = Some original /\
    at_path ["improvement_notes"; "improved_ats_score"] response = Some improved /\
    at_path ["improvement_notes"; "gap_to_target"] response
    = Some (VInt (Z.max 0 (90 - after))).
Proof.
  unfold assemble. intros H.
  ok_inv H. apply py_get_inv in Ha as [Hats ->].
  destruct (rewritten_data o) as [| | | | |d] eqn:Hrw; try done.
  cbn [get_method mbind result_bind] in H.
  ok_inv H. apply py_add_int_inv in Ha as (before & Hb & ->).
  apply bind_ok_inv in H as (skills & _ & H).
  apply bind_ok_inv in H as (made & _ & H).
  apply bind_ok_inv in H as (cv & _ & H).
  apply bind_ok_inv in H as (career & _ & H).
  apply bind_ok_inv in H as (notes & Hnotes & H).
  apply bind_ok_inv in H as (quality & _ & H).
  apply bind_ok_inv in H as (compliance & _ & H).
  injection H as <-.
  destruct (improvement_notes_inv _ _ _ Hnotes)
    as (before' & after & _ & _ & Hb' & Haf).
  assert (before' = before) as -> by congruence.
  rewrite (improvement_notes_ok _ _ before after) in Hnotes by done.
  injection Hnotes as <-.
  exists before, after. by split_and!.
Qed.

(** The response assembled from well-formed outputs. *)
Lemma assemble_ok order repr o :
  well_formed o = true ->
  exists before after skills made passed failed,
    as_int (default (VInt 0) (field (ats_data o) "overall_score")) = Some before /\
    as_int (default (VInt (before + 10))
              (field (rewritten_data o) "estimated_new_ats_score")) = Some after /\
    (field (ats_data o) "passed_checks" = None -> passed = []) /\
    (field (ats_data o) "failed_checks" = None -> failed = []) /\
    assemble order repr o
    = Ok (VDict
       [("final_cv",
         VDict
           [("name", py_or (default VNone (field (parsed_data_dict o) "name"))
                       (VStr EmptyString));
            ("email", py_or (default VNone (field (parsed_data_dict o) "email"))
                        (VStr EmptyString));
            ("phone", py_or (default VNone (field (parsed_data_dict o) "phone"))
                        (VStr EmptyString));
            ("address", py_or (default VNone (field (parsed_data_dict o) "address"))
                          (VStr EmptyString));
            ("summary", default (VStr EmptyString)
                          (field (rewritten_data o) "rewritten_summary"));
            ("skills", VList skills);
            ("experience", default (VList [])
                             (field (rewritten_data o) "rewritten_experience"));
            ("education", default (VList []) (field (parsed_data_dict o) "education"));
            ("projects", default (VList []) (field (parsed_data_dict o) "projects"));
            ("languages", default (VList []) (field (parsed_data_dict o) "languages"));
            ("hobbies", default (VList []) (field (parsed_data_dict o) "hobbies"));
            ("social_links", social_links_data o)]);
        ("career_recommendation",
         VDict
           [("recommended_career",
             default (VStr "Unknown") (field (career_data o) "recommended_career"));
            ("confidence", default (VInt 0) (field (career_data o) "confidence"));
            ("reasoning",
             default (VStr EmptyString) (field (career_data o) "reasoning"));
            ("alternative_careers",
             default (VList []) (field (career_data o) "alternative_careers"))]);
        ("improvements_summary",
         improvements_summary
           (default (VInt 0) (field (ats_data o) "overall_score"))
           (default (VInt (before + 10))
              (field (rewritten_data o) "estimated_new_ats_score"))
           made (input_language o) (output_language o));
        ("improvement_notes",
         VDict
           [("original_ats_score",
             default (VInt 0) (field (ats_data o) "overall_score"));
            ("improved_ats_score",
             default (VInt (before + 10))
               (field (rewritten_data o) "estimated_new_ats_score"));
            ("target_ats_score", VInt 90);
            ("gap_to_target", VInt (Z.max 0 (90 - after)));
            ("missing_for_90_percent",
             if (after <? 90)%Z then missing_for_90_percent else VList []);
            ("recommendation",
             if (after <? 90)%Z then VStr recommendation_below
             else VStr recommendation_reached);
            ("examples", if (after <? 90)%Z then examples else VList [])]);
        ("quality_report",
         VDict
           [("overall_score",
             default (VInt 0) (field (quality_data o) "overall_score"));
            ("strengths", default (VList []) (field (quality_data o) "strengths"));
            ("weaknesses", default (VList []) (field (quality_data o) "weaknesses"));
            ("suggestions",
             default (VList []) (field (quality_data o) "suggestions"))]);
        ("ats_compliance",
         VDict
           [("overall_score",
             default (VInt 0) (field (ats_data o) "overall_score"));
            ("passed_checks", VList passed);
            ("failed_checks", VList failed);
            ("critical_issues",
             default (VList []) (field (ats_data o) "critical_issues"));
            ("recommendations",
             default (VList []) (field (ats_data o) "recommendations"))])]).
Proof.
  unfold well_formed. intros Hwf.
  apply andb_prop in Hwf as [Hwf Hsugg]. apply andb_prop in Hwf as [Hwf Hexp].
  apply andb_prop in Hwf as [Hwf Hest]. apply andb_prop in Hwf as [Hwf Hfailed].
  apply andb_prop in Hwf as [Hwf Hpassed]. apply andb_prop in Hwf as [Hwf Hscore].
  apply andb_prop in Hwf as [Hwf Hcareer].
  apply andb_prop in Hwf as [Hparsed Hquality].
  assert (is_dict (parsed_data_dict o) = true) as Hp by (by eapply present_as_dict).
  assert (is_dict (ats_data o) = true) as Ha by (by eapply present_as_dict).
  assert (is_dict (rewritten_data o) = true) as Hr by (by eapply present_as_dict).
  destruct (is_number_as_int _
              (present_as_default is_number _ _ (VInt 0) Hscore eq_refl))
    as [before Hb].
  destruct (is_number_as_int _
              (present_as_default is_number _ _ (VInt (before + 10)) Hest eq_refl))
    as [after Haf].
  destruct (combined_skills_ok order _ _ Hparsed Hsugg) as [skills Hskills].
  destruct (improvements_made_ok repr (suggested_skills o) (rewritten_data o)
              (default (VInt 0) (field (ats_data o) "overall_score"))
              (default (VInt (before + 10))
                 (field (rewritten_data o) "estimated_new_ats_score"))
              (input_language o) (output_language o) before after Hexp Hb Haf)
    as [made Hmade].
  destruct (check_records_ok _
              (present_as_default is_dict_list _ "passed_checks" (VList []) Hpassed eq_refl))
    as [passed Hp1].
  destruct (check_records_ok _
              (present_as_default is_dict_list _ "failed_checks" (VList []) Hfailed eq_refl))
    as [failed Hf1].
  exists before, after, skills, made, passed, failed.
  split_and!; try done.
  - intros Hnone. rewrite Hnone in Hp1. cbn [default] in Hp1.
    rewrite check_records_nil in Hp1. by injection Hp1.
  - intros Hnone. rewrite Hnone in Hf1. cbn [default] in Hf1.
    rewrite check_records_nil in Hf1. by injection Hf1.
  - unfold assemble.
    rewrite (py_get_ok (ats_data o)) by done. cbn [mbind result_bind].
    destruct (rewritten_data o) as [| | | | |d] eqn:Hrw; try done.
    cbn [get_method mbind result_bind].
    rewrite (py_add_int _ before) by done. cbn [mbind result_bind].
    change (default (VInt (before + 10)) (dict_lookup "estimated_new_ats_score" d))
      with (default (VInt (before + 10))
              (field (VDict d) "estimated_new_ats_score")).
    rewrite Hskills. cbn [mbind result_bind].
    rewrite Hmade. cbn [mbind result_bind].
    unfold final_cv, career_recommendation, quality_report, ats_compliance.
    rewrite !(py_get_ok (parsed_data_dict o)) by done.
    rewrite !(py_get_ok (VDict d)) by done.
    rewrite !(py_get_ok (career_data o)) by done.
    rewrite !(py_get_ok (quality_data o)) by done.
    rewrite !(py_get_ok (ats_data o)) by done.
    rewrite (improvement_notes_ok _ _ before after) by done.
    cbn [mbind result_bind mret result_ret].
    rewrite Hp1. cbn [mbind result_bind]. rewrite Hf1. reflexivity.
Qed.

(** ** The claims about the assembly *)

Example quality_omits_score_reads_zero :
  field (quality_data quality_omits_score) "overall_score" = None /\
  assemble as_listed no_repr quality_omits_score
    ≫= (fun response => Ok (at_path ["quality_report"; "overall_score"] response))
  = Ok (Some (VInt 0)).
Proof. split; reflexivity. Qed.

(** C5: whenever a response is assembled (and one is, from well-formed
    outputs), its [ats_score_after] is the rewrite stage's
    [estimated_new_ats_score] when that field is present and
    [ats_score_before] plus 10 when it is omitted, and its [gap_to_target]
    is [max(0, 90 - ats_score_after)], which is never negative. *)
Theorem ats_score_after_and_gap
    (order : list value -> list value) (repr : value -> string) (o : outputs) :
  (well_formed o = true -> exists response, assemble order repr o = Ok response) /\
  (forall response, assemble order repr o = Ok response ->
   exists before after : Z,
     at_path ["improvements_summary"; "ats_score_before"] response
     = Some (default (VInt 0) (field (ats_data o) "overall_score")) /\
     as_int (default (VInt 0) (field (ats_data o) "overall_score")) = Some before /\
     at_path ["improvements_summary"; "ats_score_after"] response
     = Some (default (VInt (before + 10))
               (field (rewritten_data o) "estimated_new_ats_score")) /\
     as_int (default (VInt (before + 10))
               (field (rewritten_data o) "estimated_new_ats_score")) = Some after /\
     at_path ["improvement_notes"; "gap_to_target"] response
     = Some (VInt (Z.max 0 (90 - after))) /\
     0 <= Z.max 0 (90 - after)).
Proof.
  split.
  - intros Hwf.
    destruct (assemble_ok order repr o Hwf)
      as (? & ? & ? & ? & ? & ? & _ & _ & _ & _ & ->).
    by eexists.
  - intros response H.
    destruct (assemble_scores order repr o response H)
      as (before & after & Hb & Haf & Hsb & Hsa & _ & _ & Hgap).
    exists before, after. split_and!; try done. lia.
Qed.

Example gap_to_target_examples :
  improvement_notes (VDict [("estimated_new_ats_score", VInt 95)]) (VDict [])
    ≫= (fun notes => Ok (at_path ["gap_to_target"] notes))
  = Ok (Some (VInt 0)) /\
  improvement_notes (VDict [("estimated_new_ats_score", VInt 70)]) (VDict [])
    ≫= (fun notes => Ok (at_path ["gap_to_target"] notes))
  = Ok (Some (VInt 20)) /\
  improvement_notes (VDict []) (VDict [("overall_score", VInt 62)])
    ≫= (fun notes => Ok (at_path ["improved_ats_score"] notes))
  = Ok (Some (VInt 72)).
Proof. repeat split. Qed.

(** C9: whenever a response is assembled (and one is, from well-formed
    outputs), its two score blocks agree: [improvement_notes] and
    [improvements_summary] hold the same score before the rewrite and the
    same score after it, and [gap_to_target] is [max(0, 90 - s)] for the
    score [s] that [improvements_summary] gives as [ats_score_after]. *)
Theorem score_blocks_agree
    (order : list value -> list value) (repr : value -> string) (o : outputs) :
  (well_formed o = true -> exists response, assemble order repr o = Ok response) /\
  (forall response, assemble order repr o = Ok response ->
   exists (original improved : value) (after : Z),
     at_path ["improvement_notes"; "original_ats_score"] response = Some original /\
     at_path ["improvements_summary"; "ats_score_before"] response = Some original /\
     at_path ["improvement_notes"; "improved_ats_score"] response = Some improved /\
     at_path ["improvements_summary"; "ats_score_after"] response = Some improved /\
     as_int improved = Some after /\
     at_path ["improvement_notes"; "gap_to_target"] response
     = Some (VInt (Z.max 0 (90 - after)))).
Proof.
  split.
  - intros Hwf.
    destruct (assemble_ok order repr o Hwf)
      as (? & ? & ? & ? & ? & ? & _ & _ & _ & _ & ->).
    by eexists.
  - intros response H.
    destruct (assemble_scores order repr o response H)
      as (before & after & Hb & Haf & Hsb & Hsa & Hno & Hni & Hgap).
    exists (default (VInt 0) (field (ats_data o) "overall_score")),
      (default (VInt (before + 10))
         (field (rewritten_data o) "estimated_new_ats_score")), after.
    by split_and!.
Qed.

(** ** The combined skills *)

Lemma existsb_scalar_eqb_strs x acc :
  existsb (scalar_eqb (VStr x)) (map VStr acc) = bool_decide (x ∈ acc).
Proof.
  induction acc as [|y acc IH]; [done|]. cbn [map existsb scalar_eqb].
  rewrite IH. destruct (String.eqb_spec x y) as [->|Hne].
  - cbn [orb]. symmetry. apply bool_decide_eq_true. apply list_elem_of_here.
  - cbn [orb]. apply bool_decide_ext. rewrite elem_of_cons. tauto.
Qed.

Lemma set_add_strs acc x :
  set_add (map VStr acc) (VStr x) = map VStr (add_new acc x).
Proof.
  unfold set_add, add_new. rewrite existsb_scalar_eqb_strs.
  destruct (bool_decide (x ∈ acc)); [done|]. by rewrite map_app.
Qed.

Lemma fold_set_add_strs xs acc :
  fold_left set_add (map VStr xs) (map VStr acc)
  = map VStr (fold_left add_new xs acc).
Proof.
  revert acc. induction xs as [|x xs IH]; intros acc; [done|].
  cbn [map fold_left]. by rewrite set_add_strs, IH.
Qed.

Lemma fold_add_new_spec xs acc :
  NoDup acc ->
  NoDup (fold_left add_new xs acc) /\
  forall s, s ∈ fold_left add_new xs acc <-> s ∈ acc \/ s ∈ xs.
Proof.
  revert acc. induction xs as [|x xs IH]; intros acc Hnd; cbn [fold_left].
  - split; [done|]. intros s. rewrite elem_of_nil. tauto.
  - assert (NoDup (add_new acc x) /\
            forall s, s ∈ add_new acc x <-> s ∈ acc \/ s = x) as [Hnd' Hin].
    { unfold add_new. case_bool_decide as Hx.
      - split; [done|]. intros s. split; [by left|]. by intros [?| ->].
      - split.
        + apply NoDup_app. split_and!; [done| |apply NoDup_singleton].
          intros y Hy Hyx. apply list_elem_of_singleton in Hyx. by subst.
        + intros s. by rewrite elem_of_app, list_elem_of_singleton. }
    destruct (IH _ Hnd') as [Hnd'' Hin'']. split; [done|].
    intros s. rewrite Hin'', Hin, elem_of_cons. tauto.
Qed.

Lemma forallb_hashable_strs xs : forallb hashable (map VStr xs) = true.
Proof. by induction xs. Qed.

(** C7: whatever the order in which the set is read, the combined skills
    are the skills of the two lists without repetition: each skill of
    either list occurs in the result exactly once, and nothing else does. *)
Theorem combined_skills_is_union
    (order : list value -> list value) (parsed_data_dict : value)
    (original suggested : list string) :
  (forall s, Permutation (order s) s) ->
  field parsed_data_dict "skills" = Some (strs original) ->
  exists skills,
    combined_skills order parsed_data_dict (strs suggested) = Ok (strs skills) /\
    NoDup skills /\
    (forall s, s ∈ skills <-> s ∈ original \/ s ∈ suggested).
Proof.
  intros Horder Hskills.
  destruct parsed_data_dict as [| | | | |d]; try done.
  unfold combined_skills, py_get. cbn [get_method mbind result_bind mret result_ret].
  cbn [field] in Hskills. rewrite Hskills. unfold strs.
  cbn [default from_option id is_list py_add as_int mbind result_bind].
  unfold list_of_set, py_set. cbn [py_iter mbind result_bind].
  rewrite <- map_app, forallb_hashable_strs.
  change (@nil value) with (map VStr []). rewrite fold_set_add_strs.
  cbn [mbind result_bind mret result_ret].
  destruct (Permutation_map_inv _ _ (Horder (map VStr (fold_left add_new
              (original ++ suggested) [])))) as (skills & Heq & Hperm).
  exists skills. rewrite Heq. split; [done|].
  destruct (fold_add_new_spec (original ++ suggested) [] NoDup_nil_2)
    as [Hnd Hin].
  split.
  - by rewrite <- Hperm.
  - intros s. rewrite <- Hperm, Hin, elem_of_nil, elem_of_app. tauto.
Qed.

(** The skills [Python, SQL] with the suggestions [SQL, Docker]. *)
Lemma python_sql_docker :
  exists skills,
    combined_skills as_listed (VDict [("skills", strs ["Python"; "SQL"])])
      (strs ["SQL"; "Docker"]) = Ok (strs skills) /\
    NoDup skills /\
    (forall s, s ∈ skills <-> s ∈ ["Python"; "SQL"] \/ s ∈ ["SQL"; "Docker"]).
Proof.
  apply (combined_skills_is_union as_listed
           (VDict [("skills", strs ["Python"; "SQL"])])
           ["Python"; "SQL"] ["SQL"; "Docker"]).
  - intros s. apply Permutation_refl.
  - reflexivity.
Defined.

Example combined_skills_examples :
  combined_skills as_listed (VDict [("skills", strs ["Python"; "SQL"])])
    (strs ["SQL"; "Docker"]) = Ok (strs ["Python"; "SQL"; "Docker"]) /\
  combined_skills latest_first (VDict [("skills", strs ["Python"; "SQL"])])
    (strs ["SQL"; "Docker"]) = Ok (strs ["Docker"; "SQL"; "Python"]) /\
  combined_skills as_listed (VDict []) (VStr "SQL") = Ok (strs []).
Proof. repeat split. Qed.

End AssemblerSpec.

(** * More on the structural sanitizer *)

Module SanitizerMore.
Import Sanitizer Measure SanitizerSpec.

Lemma size_dict d :
  size (VDict d) = S (list_sum (map (fun kv => size (snd kv)) d)).
Proof.
  cbn [size]. f_equal. induction d as [|[k v] d IH]; [done|].
  cbn [map list_sum fold_right snd]. by rewrite IH.
Qed.

Lemma size_list l : size (VList l) = S (list_sum (map size l)).
Proof.
  cbn [size]. f_equal. induction l as [|x l IH]; [done|].
  cbn [map list_sum fold_right]. by rewrite IH.
Qed.

Lemma size_pos v : (1 <= size v)%nat.
Proof. destruct v; cbn [size]; lia. Qed.

(** A pass never makes a value larger, and it makes a value that is not
    clean smaller. *)
Lemma size_filter v :
  (size (filter_null_values v) <= size v)%nat /\
  (clean v = false -> size (filter_null_values v) < size v)%nat.
Proof.
  induction v as [| | | |l IH|d IH] using value_nested_ind;
    try (split; [done|discriminate]).
  - rewrite filter_null_values_list, clean_list, !size_list.
    induction IH as [|x l [Hle Hlt] _ [IHle IHlt]]; [split; [done|discriminate]|].
    unfold list_sum in *. cbn [filter_elems forallb map fold_right] in *.
    pose proof (size_pos x) as Hpos.
    destruct (list_keep x); cbn [andb map fold_right].
    + split; [lia|]. destruct (clean x); cbn [andb]; intros Hc.
      * specialize (IHlt Hc). lia.
      * specialize (Hlt eq_refl). lia.
    + split; [lia|]. intros _. lia.
  - rewrite filter_null_values_dict, clean_dict, !size_dict.
    induction IH as [|[k v] d [Hle Hlt] _ [IHle IHlt]]; [split; [done|discriminate]|].
    unfold list_sum in *. cbn [filter_items forallb map fold_right snd] in *.
    pose proof (size_pos v) as Hpos.
    destruct (dict_keep v); cbn [andb map fold_right snd].
    + split; [lia|]. destruct (clean v); cbn [andb]; intros Hc.
      * specialize (IHlt Hc). lia.
      * specialize (Hlt eq_refl). lia.
    + split; [lia|]. intros _. lia.
Qed.

Lemma passes_clean n v : clean v = true -> passes n v = v.
Proof.
  intros Hc. induction n as [|n IH]; [done|].
  cbn [passes]. by rewrite (proj1 (clean_fixed_point v) Hc).
Qed.

Lemma passes_reach_clean n v : (size v <= n)%nat -> clean (passes n v) = true.
Proof.
  revert v. induction n as [|n IH]; intros v Hn.
  - pose proof (size_pos v). lia.
  - destruct (clean v) eqn:Hc.
    + by rewrite passes_clean.
    + cbn [passes]. apply IH.
      pose proof (proj2 (size_filter v) Hc). lia.
Qed.

Lemma passes_add m n v : passes (m + n) v = passes n (passes m v).
Proof.
  revert v. induction m as [|m IH]; intros v; [done|].
  cbn [Nat.add passes]. apply IH.
Qed.

(** X1: the sanitizer returns a value unchanged exactly when the value is
    clean: no mapping value in it is null, the empty string or the empty
    sequence, and no sequence element in it is null, the empty string or the
    empty mapping, at any depth. *)
Theorem filter_null_values_fixed_iff_clean (v : value) :
  filter_null_values v = v <-> clean v = true.
Proof. symmetry. apply clean_fixed_point. Qed.

(** X2: the sanitizer only removes.  A mapping stays a mapping whose keys
    are a sublist of the input's keys, in the same order; a sequence stays a
    sequence that is not longer; a scalar is returned as it is; and the
    result holds no more values than the input. *)
Theorem filter_null_values_only_removes :
  (forall d, exists d',
     filter_null_values (VDict d) = VDict d' /\
     sublist (map fst d') (map fst d)) /\
  (forall l, exists l',
     filter_null_values (VList l) = VList l' /\ (length l' <= length l)%nat) /\
  (forall v, is_dict_or_list v = false -> filter_null_values v = v) /\
  (forall v, (size (filter_null_values v) <= size v)%nat).
Proof.
  split_and!.
  - intros d. exists (filter_items d). split; [done|].
    induction d as [|[k v] d IH]; cbn [filter_items map fst]; [done|].
    destruct (dict_keep v); cbn [map fst];
      [by apply sublist_skip|by apply sublist_cons].
  - intros l. exists (filter_elems l). split; [done|apply filter_elems_length].
  - by intros [].
  - intros v. apply size_filter.
Qed.

(** X3: repeated sanitizing settles.  After as many passes as the input
    holds values the result is clean, and every further pass returns it
    unchanged. *)
Theorem filter_null_values_settles (v : value) (n : nat) :
  clean (passes (size v) v) = true /\
  passes (size v + n) v = passes (size v) v.
Proof.
  split.
  - by apply passes_reach_clean.
  - rewrite passes_add. apply passes_clean. by apply passes_reach_clean.
Qed.

Example passes_examples :
  passes 1 (VDict [("a", VList [VDict [("b", VList [VNone])]])])
  = VDict [("a", VList [VDict [("b", VList [])]])] /\
  passes 2 (VDict [("a", VList [VDict [("b", VList [VNone])]])])
  = VDict [("a", VList [VDict []])] /\
  passes 3 (VDict [("a", VList [VDict [("b", VList [VNone])]])])
  = VDict [("a", VList [])] /\
  passes 4 (VDict [("a", VList [VDict [("b", VList [VNone])]])])
  = VDict [].
Proof. repeat split. Qed.

End SanitizerMore.

(** * More on the strings, the extraction and the links *)

Module RequestMore.
Import Extractor SocialLinks Handler StrSpec SocialLinksSpec.

(** ** [split] and the extension *)

Lemma last_app_cons {A} (pre : list A) (x : A) (l : list A) (d : A) :
  List.last (pre ++ x :: l) d = List.last (x :: l) d.
Proof.
  induction pre as [|y pre IH]; [done|].
  cbn [app]. rewrite <- IH. cbn [List.last]. by destruct pre.
Qed.

Lemma split_cons sep s : exists piece pieces, Str.split sep s = piece :: pieces.
Proof.
  induction s as [|c s (piece & pieces & IH)]; cbn [Str.split]; [by eexists _, _|].
  destruct (Ascii.eqb c sep); [by eexists _, _|]. rewrite IH. by eexists _, _.
Qed.

Lemma split_after_sep sep s1 s2 :
  exists p pre,
    Str.split sep (s1 +:+ String sep s2) = (p :: pre) ++ Str.split sep s2.
Proof.
  induction s1 as [|c s1 (p & pre & IH)];
    rewrite ?append_empty, ?append_cons; cbn [Str.split].
  - rewrite Ascii.eqb_refl. by exists EmptyString, [].
  - rewrite IH. destruct (Ascii.eqb c sep).
    + by exists EmptyString, (p :: pre).
    + by exists (String c p), pre.
Qed.

Lemma split_after_sep_last sep s1 s2 :
  List.last (Str.split sep (s1 +:+ String sep s2)) EmptyString
  = List.last (Str.split sep s2) EmptyString.
Proof.
  destruct (split_after_sep sep s1 s2) as (p & pre & ->).
  destruct (split_cons sep s2) as (piece & pieces & ->).
  apply last_app_cons.
Qed.

Lemma split_without_sep sep s :
  Str.contains (String sep EmptyString) s = false -> Str.split sep s = [s].
Proof.
  induction s as [|c s IH]; [done|]. cbn [Str.contains String.prefix Str.split].
  intros H. apply orb_false_elim in H as [Hc Hs].
  rewrite (IH Hs). destruct (Ascii.eqb_spec c sep) as [->|Hne]; [|done].
  destruct (ascii_dec sep sep); [|done]. by destruct s.
Qed.

(** X4: the extension is read after the last dot and without regard to
    case.  For a name [stem.ext] whose [ext] holds no dot it is [ext] in
    lower case, whatever dots the stem holds; for a name without a dot it is
    the whole name in lower case.  On an ASCII [ext] lower case means
    [A]..[Z] turned into [a]..[z]. *)
Theorem file_extension_after_last_dot
    (unicode_lower : string -> string) (stem ext : string) :
  Str.contains "." ext = false ->
  file_extension unicode_lower (stem +:+ "." +:+ ext)
  = Str.lower unicode_lower ext /\
  file_extension unicode_lower ext = Str.lower unicode_lower ext /\
  (Str.is_ascii ext = true ->
   file_extension unicode_lower (stem +:+ "." +:+ ext) = Str.ascii_lower ext).
Proof.
  intros Hext. unfold file_extension.
  change ("." +:+ ext) with (String "." ext).
  rewrite split_after_sep_last, (split_without_sep "." ext Hext).
  split_and!; [done..|]. apply lower_ascii_text.
Qed.

Lemma file_extension_after_last_dot_pdf :
  file_extension Str.no_unicode ("resume.v2" +:+ "." +:+ "PDF")
  = Str.lower Str.no_unicode "PDF" /\
  file_extension Str.no_unicode "PDF" = Str.lower Str.no_unicode "PDF" /\
  (Str.is_ascii "PDF" = true ->
   file_extension Str.no_unicode ("resume.v2" +:+ "." +:+ "PDF")
   = Str.ascii_lower "PDF").
Proof.
  apply (file_extension_after_last_dot Str.no_unicode "resume.v2" "PDF").
  reflexivity.
Defined.

Lemma extract_text_from_file_stripped
    (unicode_lower : string -> string)
    (pdf_pages docx_paragraphs : list Byte.byte -> result (list string))
    (uploaded_file : UploadFile) (text : string) :
  extract_text_from_file unicode_lower pdf_pages docx_paragraphs uploaded_file
  = Ok text ->
  Str.strip text = text.
Proof.
  unfold extract_text_from_file. intros H.
  destruct (String.eqb _ "pdf").
  - destruct (pdf_pages _) as [pages|e]; [|done].
    injection H as <-. apply strip_strip.
  - destruct (existsb _ _); [|done].
    destruct (docx_paragraphs _) as [paragraphs|e]; [|done].
    injection H as <-. apply strip_strip.
Qed.

(** X5: when the extraction returns a text, the extension of the file was
    [pdf], [docx] or [doc], the library of that format returned its pieces,
    and the text is their concatenation (pages) or their lines
    (paragraphs), with no white space left at either end, the white space
    being Unicode's. *)
Theorem extract_text_from_file_result
    (unicode_lower : string -> string)
    (pdf_pages docx_paragraphs : list Byte.byte -> result (list string))
    (uploaded_file : UploadFile) (text : string) :
  extract_text_from_file unicode_lower pdf_pages docx_paragraphs uploaded_file
  = Ok text ->
  let ext := file_extension unicode_lower (filename uploaded_file) in
  Str.strip text = text /\
  Str.starts_clean (Str.chars text) = true /\
  Str.rstrip_chars (Str.chars text) = Str.chars text /\
  ((ext = "pdf" /\ exists pages,
      pdf_pages (file_bytes uploaded_file) = Ok pages /\
      text = Str.strip (fold_left String.append pages EmptyString)) \/
   ((ext = "docx" \/ ext = "doc") /\ exists paragraphs,
      docx_paragraphs (file_bytes uploaded_file) = Ok paragraphs /\
      text = Str.strip (Str.join (String "010" EmptyString) paragraphs))).
Proof.
  intros H. cbv zeta.
  assert (forall raw, Str.starts_clean (Str.chars (Str.strip raw)) = true /\
                      Str.rstrip_chars (Str.chars (Str.strip raw))
                      = Str.chars (Str.strip raw)) as Hends.
  { intros raw. unfold Str.strip.
    rewrite chars_cat
      by apply rstrip_chars_well_split, lstrip_chars_well_split,
           chars_well_split.
    split; [apply rstrip_chars_starts_clean, lstrip_chars_starts_clean
           |apply rstrip_chars_idempotent]. }
  unfold extract_text_from_file in H.
  set (ext := file_extension unicode_lower (filename uploaded_file)) in *.
  destruct (String.eqb_spec ext "pdf") as [Hpdf|Hpdf].
  - destruct (pdf_pages (file_bytes uploaded_file)) as [pages|e]; [|done].
    injection H as <-. split_and!; [apply strip_strip|apply Hends..|].
    left. split; [done|]. by exists pages.
  - cbn [existsb] in H.
    destruct (String.eqb_spec ext "docx") as [Hdocx|Hdocx];
      [|destruct (String.eqb_spec ext "doc") as [Hdoc|Hdoc]; [|done]];
      cbn [orb] in H;
      (destruct (docx_paragraphs (file_bytes uploaded_file)) as [paragraphs|e];
       [|done]);
      injection H as <-; (split_and!; [apply strip_strip|apply Hends..|]);
      right; (split; [by auto|]); by exists paragraphs.
Qed.

Lemma extract_text_from_file_result_pdf :
  extract_text_from_file Str.no_unicode
    (fun _ => Ok ["  Page one. "; "Page two.  "])
    (fun _ => Raise (OtherError "PackageNotFoundError")) final_pdf
  = Ok "Page one. Page two." /\
  let ext := file_extension Str.no_unicode (filename final_pdf) in
  Str.strip "Page one. Page two." = "Page one. Page two." /\
  Str.starts_clean (Str.chars "Page one. Page two.") = true /\
  Str.rstrip_chars (Str.chars "Page one. Page two.")
  = Str.chars "Page one. Page two." /\
  ((ext = "pdf" /\ exists pages,
      (fun _ => Ok ["  Page one. "; "Page two.  "]) (file_bytes final_pdf)
      = Ok pages /\
      "Page one. Page two." = Str.strip (fold_left String.append pages EmptyString)) \/
   ((ext = "docx" \/ ext = "doc") /\ exists paragraphs,
      (fun _ : list Byte.byte => @Raise (list string) (OtherError "PackageNotFoundError"))
        (file_bytes final_pdf) = Ok paragraphs /\
      "Page one. Page two."
      = Str.strip (Str.join (String "010" EmptyString) paragraphs))).
Proof.
  split; [reflexivity|].
  apply (extract_text_from_file_result Str.no_unicode
           (fun _ => Ok ["  Page one. "; "Page two.  "])
           (fun _ => Raise (OtherError "PackageNotFoundError")) final_pdf).
  reflexivity.
Defined.

Example extract_text_from_file_examples :
  extract_text_from_file Str.no_unicode
    (fun _ => Raise (OtherError "FileDataError"))
    (fun _ => Ok [String "194" (String "160" "John Doe"); "Developer"
                    +:+ String "226" (String "128" (String "131" EmptyString))])
    {| filename := "cv.docx"; file_bytes := [] |}
  = Ok ("John Doe" +:+ String "010" "Developer").
Proof. reflexivity. Qed.

(** ** The link map *)

(** X6: every entry of the link map that the validation returns belongs to
    one of the seven platforms and holds the value supplied for it as it was
    typed, with the white space at its ends removed; that value is not
    empty, and the value supplied passed the platform's test in lower
    case. *)
Theorem social_links_entries (unicode_lower : string -> string)
    (github linkedin kaggle portfolio stackoverflow medium twitter : string)
    (social_links_data : gmap string string) (k v : string) :
  validate_social_links unicode_lower github linkedin kaggle portfolio
    stackoverflow medium twitter = Ok social_links_data ->
  social_links_data !! k = Some v ->
  exists p s,
    (p, s) ∈ form_fields github linkedin kaggle portfolio stackoverflow
               medium twitter /\
    k = key p /\ v = Str.strip s /\ v <> EmptyString /\ Str.strip v = v /\
    accepts p (Str.lower unicode_lower s) = true.
Proof.
  rewrite validate_social_links_fields, check_links_find.
  set (fields := form_fields _ _ _ _ _ _ _).
  destruct (List.find (rejected unicode_lower) fields) as [field|] eqn:Hfind;
    [done|].
  intros Heq Hk.
  assert (social_links_data = accepted_entries fields ∅) as -> by congruence.
  clear Heq.
  destruct (decide (k ∈ map (fun field => key (fst field)) fields)) as [Hin|Hnotin].
  - apply list_elem_of_fmap in Hin as ([p s] & Hkey & Hin).
    cbn [fst] in Hkey. subst k.
    rewrite (accepted_entries_lookup fields ∅ p s) in Hk;
      [|apply form_fields_keys_NoDup|done].
    unfold entry_of in Hk. destruct (supplied s) eqn:Hsup; [|by rewrite lookup_empty in Hk].
    injection Hk as <-. exists p, s. split_and!; try done.
    + unfold supplied in Hsup. apply andb_prop in Hsup as [_ Hs].
      by destruct (Str.strip s).
    + apply strip_strip.
    + apply find_none with (x := (p, s)) in Hfind; [|by apply list_elem_of_In].
      unfold rejected in Hfind. cbn [fst snd] in Hfind. rewrite Hsup in Hfind.
      by destruct (accepts p (Str.lower unicode_lower s)).
  - rewrite accepted_entries_other in Hk by done. by rewrite lookup_empty in Hk.
Qed.

Lemma social_links_entries_github :
  exists p s,
    (p, s) ∈ form_fields "  https://GitHub.com/abc " EmptyString EmptyString
               EmptyString EmptyString EmptyString "https://x.com/abc" /\
    "github" = key p /\ "https://GitHub.com/abc" = Str.strip s /\
    "https://GitHub.com/abc" <> EmptyString /\
    Str.strip "https://GitHub.com/abc" = "https://GitHub.com/abc" /\
    accepts p (Str.lower Str.no_unicode s) = true.
Proof.
  apply (social_links_entries Str.no_unicode
           "  https://GitHub.com/abc " EmptyString EmptyString
           EmptyString EmptyString EmptyString "https://x.com/abc"
           {[ "github" := "https://GitHub.com/abc"; "twitter" := "https://x.com/abc" ]}
           "github" "https://GitHub.com/abc").
  - vm_compute. reflexivity.
  - vm_compute. reflexivity.
Defined.

End RequestMore.

(** * The handler around the parse transform *)

Module HandlerSpec.
Import Builtins Extractor SocialLinks Language Handler StrSpec RequestMore.

Lemma detect_language_supported detect text lang :
  detect_language detect text = Ok lang -> lang ∈ supported_codes.
Proof.
  unfold detect_language, supported_codes.
  destruct (detect text) as [code|e].
  - destruct (existsb (String.eqb code) ["en"; "de"; "ar"]) eqn:Hin.
    + intros [= <-]. apply existsb_exists in Hin as (c & Hc & Heq).
      apply String.eqb_eq in Heq as <-. by apply list_elem_of_In.
    + intros [= <-]. apply list_elem_of_here.
  - destruct e; try done. intros [= <-]. apply list_elem_of_here.
Qed.

Lemma supported_language_check output_language :
  existsb (String.eqb output_language) (map fst SUPPORTED_LANGUAGES) = true
  <-> output_language ∈ supported_codes.
Proof.
  cbn [map fst SUPPORTED_LANGUAGES]. unfold supported_codes.
  rewrite existsb_exists. split.
  - intros (c & Hc & Heq). apply String.eqb_eq in Heq as <-.
    by apply list_elem_of_In.
  - intros Hin. exists output_language. split; [by apply list_elem_of_In|].
    apply String.eqb_refl.
Qed.

(** X7: the handler reports the first failure in the order of its checks.
    An output language other than [en], [de], [ar] is refused with its own
    400, whatever the links and the file; with a supported language a
    failure of the link validation is reported whatever the file; then a
    failure of the extraction; then a text that is empty or shorter than 50
    characters (code points, whatever the number of bytes) is refused with
    a 400 before the language is detected. *)
Theorem prepare_error_order
    (unicode_lower : string -> string) (detect : string -> result string)
    (pdf_pages docx_paragraphs : list Byte.byte -> result (list string))
    (cv_file : UploadFile) (output_language : string)
    (github linkedin kaggle portfolio stackoverflow medium twitter : string) :
  let outcome :=
    prepare unicode_lower detect pdf_pages docx_paragraphs cv_file
      output_language
      github linkedin kaggle portfolio stackoverflow medium twitter in
  let checked :=
    validate_social_links unicode_lower github linkedin kaggle portfolio
      stackoverflow medium twitter in
  let extracted :=
    extract_text_from_file unicode_lower pdf_pages docx_paragraphs cv_file in
  (output_language ∉ supported_codes ->
   outcome = Raise (HTTPException 400
               "Invalid output_language. Supported: ['en', 'de', 'ar']")) /\
  (output_language ∈ supported_codes ->
   (forall e, checked = Raise e -> outcome = Raise e) /\
   (forall social_links_data e,
      checked = Ok social_links_data -> extracted = Raise e ->
      outcome = Raise e) /\
   (forall social_links_data text,
      checked = Ok social_links_data -> extracted = Ok text ->
      (Str.len text < 50)%nat ->
      outcome = Raise (HTTPException 400 insufficient_text))).
Proof.
  intros outcome checked extracted. unfold outcome, prepare. fold checked extracted.
  split.
  - intros Hnot. rewrite <- supported_language_check in Hnot.
    by destruct (existsb _ _).
  - intros Hin. apply supported_language_check in Hin. rewrite Hin.
    cbn [negb]. split_and!.
    + by intros e ->.
    + by intros social_links_data e -> ->.
    + intros social_links_data text -> -> Hlen. cbn [mbind result_bind].
      apply Nat.ltb_lt in Hlen. rewrite Hlen. by rewrite orb_true_r.
Qed.

(** What the handler holds when [prepare] returns. *)
Lemma prepare_inv
    (unicode_lower : string -> string) (detect : string -> result string)
    (pdf_pages docx_paragraphs : list Byte.byte -> result (list string))
    (cv_file : UploadFile) (output_language : string)
    (github linkedin kaggle portfolio stackoverflow medium twitter : string)
    (p : prepared) :
  prepare unicode_lower detect pdf_pages docx_paragraphs cv_file
      output_language
    github linkedin kaggle portfolio stackoverflow medium twitter = Ok p ->
  existsb (String.eqb output_language) (map fst SUPPORTED_LANGUAGES) = true /\
  validate_social_links unicode_lower github linkedin kaggle portfolio
    stackoverflow medium twitter = Ok (links p) /\
  extract_text_from_file unicode_lower pdf_pages docx_paragraphs cv_file
    = Ok (extracted_text p) /\
  (50 <= Str.len (extracted_text p))%nat /\
  detect_language detect (extracted_text p) = Ok (detected_language p).
Proof.
  unfold prepare. intros H.
  destruct (existsb (String.eqb output_language) (map fst SUPPORTED_LANGUAGES))
    eqn:Hlang; [|done].
  cbn [negb] in H.
  destruct (validate_social_links _ _ _ _ _ _ _) as [social_links_data|e]; [|done].
  destruct (extract_text_from_file _ _ _) as [text|e] eqn:Htext; [|done].
  cbn [mbind result_bind] in H.
  destruct (negb (Str.truthy text) || (Str.len text <? 50)%nat) eqn:Hlen;
    [done|].
  apply orb_false_elim in Hlen as [_ Hlen]. apply Nat.ltb_ge in Hlen.
  destruct (detect_language detect text) as [lang|e] eqn:Hdetect; [|done].
  injection H as <-. cbn [links extracted_text detected_language].
  by split_and!.
Qed.

(** X8: when the handler reaches the parse transform, the output language
    is one of the three supported codes, the links passed their validation,
    the text is the one extracted from the file, with no white space at its
    ends and at least 50 characters (code points) long, and the detected
    language is one of the three codes. *)
Theorem prepare_result
    (unicode_lower : string -> string) (detect : string -> result string)
    (pdf_pages docx_paragraphs : list Byte.byte -> result (list string))
    (cv_file : UploadFile) (output_language : string)
    (github linkedin kaggle portfolio stackoverflow medium twitter : string)
    (p : prepared) :
  prepare unicode_lower detect pdf_pages docx_paragraphs cv_file
      output_language
    github linkedin kaggle portfolio stackoverflow medium twitter = Ok p ->
  output_language ∈ supported_codes /\
  validate_social_links unicode_lower github linkedin kaggle portfolio
    stackoverflow medium twitter = Ok (links p) /\
  extract_text_from_file unicode_lower pdf_pages docx_paragraphs cv_file
    = Ok (extracted_text p) /\
  (50 <= Str.len (extracted_text p))%nat /\
  Str.strip (extracted_text p) = extracted_text p /\
  detect_language detect (extracted_text p) = Ok (detected_language p) /\
  detected_language p ∈ supported_codes.
Proof.
  intros H.
  destruct (prepare_inv _ _ _ _ _ _ _ _ _ _ _ _ _ _ H)
    as (Hlang & Hlinks & Htext & Hlen & Hdetect).
  split_and!; try done.
  - by apply supported_language_check.
  - by eapply extract_text_from_file_stripped.
  - by eapply detect_language_supported.
Qed.

Lemma prepare_result_john_doe :
  exists p,
    prepare Str.no_unicode toy_detect one_page one_page final_pdf "de"
      "https://github.com/johndoe" EmptyString EmptyString EmptyString
      EmptyString EmptyString EmptyString = Ok p /\
    "de" ∈ supported_codes /\
    validate_social_links Str.no_unicode "https://github.com/johndoe"
      EmptyString EmptyString EmptyString EmptyString EmptyString EmptyString
    = Ok (links p) /\
    extract_text_from_file Str.no_unicode one_page one_page final_pdf
      = Ok (extracted_text p) /\
    (50 <= Str.len (extracted_text p))%nat /\
    Str.strip (extracted_text p) = extracted_text p /\
    detect_language toy_detect (extracted_text p) = Ok (detected_language p) /\
    detected_language p ∈ supported_codes.
Proof.
  eexists. split; [reflexivity|].
  apply (prepare_result Str.no_unicode toy_detect one_page one_page final_pdf "de"
           "https://github.com/johndoe" EmptyString EmptyString EmptyString
           EmptyString EmptyString EmptyString).
  reflexivity.
Defined.

Example prepare_examples :
  prepare Str.no_unicode toy_detect one_page one_page final_pdf "fr"
    "https://gitlab.com/x" EmptyString EmptyString EmptyString
    EmptyString EmptyString EmptyString
  = Raise (HTTPException 400
             "Invalid output_language. Supported: ['en', 'de', 'ar']") /\
  prepare Str.no_unicode toy_detect one_page one_page
    {| filename := "resume.txt"; file_bytes := [] |} "de"
    "https://gitlab.com/x" EmptyString EmptyString EmptyString
    EmptyString EmptyString EmptyString
  = Raise (HTTPException 400 "Invalid GitHub URL. Must contain 'github.com'") /\
  prepare Str.no_unicode toy_detect (fun _ => Ok ["  too short  "]) one_page
    final_pdf "de"
    EmptyString EmptyString EmptyString EmptyString
    EmptyString EmptyString EmptyString
  = Raise (HTTPException 400 insufficient_text) /\
  (extract_text_from_file Str.no_unicode short_page one_page final_pdf
   ≫= fun text => Ok (Str.len text, String.length text)) = Ok (47, 52)%nat /\
  prepare Str.no_unicode toy_detect short_page one_page final_pdf "de"
    EmptyString EmptyString EmptyString EmptyString
    EmptyString EmptyString EmptyString
  = Raise (HTTPException 400 insufficient_text).
Proof. repeat split. Qed.

End HandlerSpec.

(** * Attaching the links and sanitizing the parsed data *)

Module SanitizeStepSpec.
Import Builtins Handler.

Lemma dict_lookup_set k k' v d :
  dict_lookup k' (dict_set k v d)
  = if String.eqb k' k then Some v else dict_lookup k' d.
Proof.
  induction d as [|[k0 v0] d IH]; cbn [dict_set dict_lookup].
  - by destruct (String.eqb k' k).
  - destruct (String.eqb_spec k k0) as [->|Hne]; cbn [dict_lookup].
    + by destruct (String.eqb k' k0).
    + rewrite IH. destruct (String.eqb_spec k' k0) as [->|Hne']; [|done].
      destruct (String.eqb_spec k0 k) as [->|_]; done.
Qed.

Lemma existsb_key k d :
  existsb (fun kv : string * value => String.eqb k (fst kv)) d
  = match dict_lookup k d with Some _ => true | None => false end.
Proof.
  induction d as [|[k0 v0] d IH]; [done|]. cbn [existsb dict_lookup fst].
  rewrite IH. by destruct (String.eqb k k0).
Qed.

Lemma keys_dict_set k v d :
  map fst (dict_set k v d)
  = match dict_lookup k d with
    | Some _ => map fst d
    | None => map fst d ++ [k]
    end.
Proof.
  induction d as [|[k0 v0] d IH]; [done|]. cbn [dict_set dict_lookup].
  destruct (String.eqb_spec k k0) as [->|Hne]; [done|].
  cbn [map fst]. rewrite IH. by destruct (dict_lookup k d).
Qed.

(** One block on a dictionary. *)
Lemma sanitize_field_dict k d :
  (forall v, dict_lookup k d = Some v -> truthy v = true -> is_list v = true) ->
  exists d',
    sanitize_field k (VDict d) = Ok (VDict d') /\
    map fst d' = map fst d /\
    forall k', dict_lookup k' d'
               = if String.eqb k' k then sanitized_entries <$> dict_lookup k d
                 else dict_lookup k' d.
Proof.
  intros Hlist. unfold sanitize_field. cbn [py_in mbind result_bind].
  rewrite existsb_key. cbn [py_getitem].
  destruct (dict_lookup k d) as [v|] eqn:Hv.
  - cbn [mbind result_bind]. destruct (truthy v) eqn:Htruthy.
    + specialize (Hlist v eq_refl Htruthy).
      destruct v as [| | | |l|]; try done.
      cbn [py_iter mbind result_bind py_setitem]. eexists. split_and!; [done| |].
      * by rewrite keys_dict_set, Hv.
      * intros k'. by rewrite dict_lookup_set.
    + exists d. split_and!; try done. intros k'.
      destruct (String.eqb_spec k' k) as [->|]; [|done]. rewrite Hv.
      cbn [fmap option_fmap option_map]. f_equal.
      destruct v as [| | | |[|x l]|]; done.
  - exists d. split_and!; try done. intros k'.
    by destruct (String.eqb_spec k' k) as [->|].
Qed.

(** X9: on a parsed mapping whose projects, languages and education are
    lists (or missing, or falsy), the step returns a mapping with the same
    keys in the same order, [social_links] being added last when it was
    missing and there are links.  [social_links] holds the links when there
    are any; each of the three keys holds its list with every entry
    sanitized and none dropped; every other key, [experience] and [skills]
    among them, holds what the parse transform returned. *)
Theorem attach_and_sanitize_dict
    (d : list (string * value)) (social_links_data : value) :
  (forall k v, k ∈ sanitized_keys -> dict_lookup k d = Some v ->
     truthy v = true -> is_list v = true) ->
  exists d',
    attach_and_sanitize (VDict d) social_links_data = Ok (VDict d') /\
    map fst d'
    = (if truthy social_links_data
       then match dict_lookup "social_links" d with
            | Some _ => map fst d
            | None => map fst d ++ ["social_links"]
            end
       else map fst d) /\
    dict_lookup "social_links" d'
    = (if truthy social_links_data then Some social_links_data
       else dict_lookup "social_links" d) /\
    (forall k, k ∈ sanitized_keys ->
       dict_lookup k d' = sanitized_entries <$> dict_lookup k d) /\
    (forall k, k <> "social_links" -> k ∉ sanitized_keys ->
       dict_lookup k d' = dict_lookup k d).
Proof.
  intros Hlists. unfold attach_and_sanitize.
  set (d0 := if truthy social_links_data
             then dict_set "social_links" social_links_data d else d).
  assert ((if truthy social_links_data
           then py_setitem (VDict d) "social_links" social_links_data
           else Ok (VDict d)) = Ok (VDict d0)) as ->.
  { unfold d0. by destruct (truthy social_links_data). }
  assert (forall k, dict_lookup k d0
                    = if String.eqb k "social_links"
                      then (if truthy social_links_data
                            then Some social_links_data
                            else dict_lookup "social_links" d)
                      else dict_lookup k d) as Hd0.
  { intros k. unfold d0. destruct (truthy social_links_data).
    - rewrite dict_lookup_set. by destruct (String.eqb k "social_links").
    - by destruct (String.eqb_spec k "social_links") as [->|]. }
  assert (map fst d0
          = (if truthy social_links_data
             then match dict_lookup "social_links" d with
                  | Some _ => map fst d
                  | None => map fst d ++ ["social_links"]
                  end
             else map fst d)) as Hkeys0.
  { unfold d0. destruct (truthy social_links_data); [|done].
    apply keys_dict_set. }
  cbn [mbind result_bind].
  destruct (sanitize_field_dict "projects" d0) as (d1 & -> & Hkeys1 & Hd1).
  { intros v. rewrite Hd0. cbn [String.eqb Ascii.eqb Bool.eqb].
    apply Hlists. unfold sanitized_keys. by repeat constructor. }
  cbn [mbind result_bind].
  destruct (sanitize_field_dict "languages" d1) as (d2 & -> & Hkeys2 & Hd2).
  { intros v. rewrite Hd1. cbn [String.eqb Ascii.eqb Bool.eqb]. rewrite Hd0.
    cbn [String.eqb Ascii.eqb Bool.eqb].
    apply Hlists. unfold sanitized_keys. by repeat constructor. }
  cbn [mbind result_bind].
  destruct (sanitize_field_dict "education" d2) as (d3 & -> & Hkeys3 & Hd3).
  { intros v. rewrite Hd2. cbn [String.eqb Ascii.eqb Bool.eqb]. rewrite Hd1.
    cbn [String.eqb Ascii.eqb Bool.eqb]. rewrite Hd0.
    cbn [String.eqb Ascii.eqb Bool.eqb].
    apply Hlists. unfold sanitized_keys. by repeat constructor. }
  exists d3. split_and!.
  - done.
  - by rewrite Hkeys3, Hkeys2, Hkeys1.
  - repeat (rewrite ?Hd3, ?Hd2, ?Hd1, ?Hd0; cbn [String.eqb Ascii.eqb Bool.eqb]).
    done.
  - intros k Hk. unfold sanitized_keys in Hk.
    repeat (apply elem_of_cons in Hk as [->|Hk]);
      [..|by apply elem_of_nil in Hk];
      repeat (rewrite ?Hd3, ?Hd2, ?Hd1, ?Hd0;
              cbn [String.eqb Ascii.eqb Bool.eqb]);
      done.
  - intros k Hlinks Hk. unfold sanitized_keys in Hk.
    apply not_elem_of_cons in Hk as [Hp Hk].
    apply not_elem_of_cons in Hk as [Hl Hk].
    apply not_elem_of_cons in Hk as [He _].
    apply String.eqb_neq in Hlinks, Hp, Hl, He.
    by rewrite Hd3, He, Hd2, Hl, Hd1, Hp, Hd0, Hlinks.
Qed.

Lemma attach_and_sanitize_sample :
  exists d',
    attach_and_sanitize (VDict sample_entries) sample_links = Ok (VDict d') /\
    map fst d'
    = (if truthy sample_links
       then match dict_lookup "social_links" sample_entries with
            | Some _ => map fst sample_entries
            | None => map fst sample_entries ++ ["social_links"]
            end
       else map fst sample_entries) /\
    dict_lookup "social_links" d'
    = (if truthy sample_links then Some sample_links
       else dict_lookup "social_links" sample_entries) /\
    (forall k, k ∈ sanitized_keys ->
       dict_lookup k d' = sanitized_entries <$> dict_lookup k sample_entries) /\
    (forall k, k <> "social_links" -> k ∉ sanitized_keys ->
       dict_lookup k d' = dict_lookup k sample_entries).
Proof.
  apply (attach_and_sanitize_dict sample_entries sample_links).
  intros k v Hk. unfold sanitized_keys in Hk.
  repeat (apply elem_of_cons in Hk as [->|Hk]);
    [..|by apply elem_of_nil in Hk];
    vm_compute; intros [= <-]; done.
Defined.

Example attach_and_sanitize_examples :
  attach_and_sanitize sample_parsed sample_links
  = Ok (VDict
          [("name", VStr "John Doe");
           ("experience",
            VList [VDict [("position", VStr "Developer"); ("company", VNone)]]);
           ("projects",
            VList [VDict [("title", VStr "Churn model");
                          ("technologies", VList [VStr "Python"])];
                   VDict []]);
           ("languages", VList []);
           ("education", VNone);
           ("social_links", sample_links)]) /\
  attach_and_sanitize sample_parsed (VDict []) = attach_and_sanitize sample_parsed VNone /\
  attach_and_sanitize (VList []) sample_links = Raise TypeError /\
  attach_and_sanitize (VDict [("projects", VInt 3)]) (VDict []) = Raise TypeError /\
  attach_and_sanitize (VDict [("projects", VStr "ab")]) (VDict [])
  = Ok (VDict [("projects", VList [VStr "a"; VStr "b"])]).
Proof. repeat split. Qed.

End SanitizeStepSpec.

(** * More on the assembled response *)

Module ResponseSpec.
Import Builtins Assembler Schema Response AssemblerSpec.

(** Every block of a response, read back from the outputs. *)
Lemma assemble_blocks order repr o response :
  assemble order repr o = Ok response ->
  exists before skills made cv career notes quality compliance,
    let original := default (VInt 0) (field (ats_data o) "overall_score") in
    let improved :=
      default (VInt (before + 10))
        (field (rewritten_data o) "estimated_new_ats_score") in
    as_int original = Some before /\
    is_dict (rewritten_data o) = true /\
    is_dict (ats_data o) = true /\
    combined_skills order (parsed_data_dict o) (suggested_skills o) = Ok skills /\
    improvements_made repr (suggested_skills o) (rewritten_data o)
      original improved (input_language o) (output_language o) = Ok made /\
    final_cv (parsed_data_dict o) (rewritten_data o) skills (social_links_data o)
      = Ok cv /\
    career_recommendation (career_data o) = Ok career /\
    improvement_notes (rewritten_data o) (ats_data o) = Ok notes /\
    quality_report (quality_data o) = Ok quality /\
    ats_compliance (ats_data o) = Ok compliance /\
    response
    = VDict [("final_cv", cv);
             ("career_recommendation", career);
             ("improvements_summary",
              improvements_summary original improved made
                (input_language o) (output_language o));
             ("improvement_notes", notes);
             ("quality_report", quality);
             ("ats_compliance", compliance)].
Proof.
  unfold assemble. intros H.
  apply bind_ok_inv in H as (original & Horiginal & H).
  apply py_get_inv in Horiginal as [Hats ->].
  destruct (rewritten_data o) as [| | | | |d] eqn:Hrw; try done.
  cbn [get_method mbind result_bind] in H.
  apply bind_ok_inv in H as (dflt & Hdflt & H).
  apply py_add_int_inv in Hdflt as (before & Hb & ->).
  apply bind_ok_inv in H as (skills & Hskills & H).
  apply bind_ok_inv in H as (made & Hmade & H).
  apply bind_ok_inv in H as (cv & Hcv & H).
  apply bind_ok_inv in H as (career & Hcareer & H).
  apply bind_ok_inv in H as (notes & Hnotes & H).
  apply bind_ok_inv in H as (quality & Hquality & H).
  apply bind_ok_inv in H as (compliance & Hcompliance & H).
  injection H as <-.
  exists before, skills, made, cv, career, notes, quality, compliance.
  by split_and!.
Qed.

(** The notes of [improvements_made], in their order. *)
Lemma improvements_made_inv repr suggested rewritten original improved
    input_language output_language notes :
  improvements_made repr suggested rewritten original improved
    input_language output_language = Ok notes ->
  exists count gain,
    py_len (default (VList []) (field rewritten "rewritten_experience"))
      = Ok count /\
    py_sub improved original = Ok gain /\
    notes =
      (if negb (String.eqb input_language output_language)
       then ["Translated CV from "
             +:+ names_get lang_names input_language input_language
             +:+ " to "
             +:+ names_get lang_names output_language output_language]
       else [])
      ++ ["Improved professional summary with strong action verbs and context";
          "Enhanced " +:+ Str.of_nat count
          +:+ " experience descriptions with impact and scope"]
      ++ (match suggested with
          | VList (x :: l) =>
              ["Added " +:+ Str.of_nat (length (x :: l))
               +:+ " suggested skills based on experience"]
          | _ => []
          end)
      ++ ["Improved ATS compliance from " +:+ py_str repr original
          +:+ "% to " +:+ py_str repr improved
          +:+ "% (+" +:+ py_str repr gain +:+ "%)";
          "Applied industry-specific keywords and professional terminology"].
Proof.
  unfold improvements_made. intros H.
  apply bind_ok_inv in H as (experience & Hexp & H).
  apply py_get_inv in Hexp as [Hrw ->].
  apply bind_ok_inv in H as (count & Hcount & H).
  apply bind_ok_inv in H as (gain & Hgain & H).
  injection H as <-. exists count, gain. split_and!; [done..|].
  destruct (negb (String.eqb input_language output_language));
    destruct suggested as [| | | |[|x l]|]; reflexivity.
Qed.

Lemma prefix_append p s : String.prefix p (p +:+ s) = true.
Proof.
  induction p as [|c p IH]; [by destruct s|].
  change (String c p +:+ s) with (String c (p +:+ s)).
  cbn [String.prefix]. by destruct (ascii_dec c c).
Qed.

(** X10: in every response the translation flag and the narrative agree.
    [translation_applied] is true exactly when the detected language differs
    from the output language, and exactly then the list of improvements
    opens with the note that starts [Translated CV from]; the list always
    ends with the keywords note, and holds four notes plus one for a
    translation and one for a non-empty list of suggested skills. *)
Theorem improvements_summary_consistent
    (order : list value -> list value) (repr : value -> string) (o : outputs)
    (response : value) :
  assemble order repr o = Ok response ->
  exists notes,
    at_path ["improvements_summary"; "improvements_made"] response
    = Some (strs notes) /\
    at_path ["improvements_summary"; "translation_applied"] response
    = Some (VBool (negb (String.eqb (input_language o) (output_language o)))) /\
    at_path ["improvements_summary"; "input_language"] response
    = Some (VStr (input_language o)) /\
    at_path ["improvements_summary"; "output_language"] response
    = Some (VStr (output_language o)) /\
    ((exists note, head notes = Some note /\
                   String.prefix "Translated CV from " note = true)
     <-> input_language o <> output_language o) /\
    last notes
    = Some "Applied industry-specific keywords and professional terminology" /\
    length notes
    = (4 + (if negb (String.eqb (input_language o) (output_language o))
            then 1 else 0)
         + (match suggested_skills o with VList (_ :: _) => 1 | _ => 0 end))%nat.
Proof.
  intros H.
  destruct (assemble_blocks order repr o response H)
    as (before & skills & made & cv & career & notes & quality & compliance
        & _ & _ & _ & _ & Hmade & _ & _ & _ & _ & _ & ->).
  exists made. split_and!; try reflexivity.
  - destruct (improvements_made_inv _ _ _ _ _ _ _ _ Hmade)
      as (count & gain & _ & _ & ->).
    destruct (String.eqb_spec (input_language o) (output_language o)) as [Heq|Hne];
      cbn [negb app head].
    + split; [|done]. intros (note & [= <-] & Hprefix). by vm_compute in Hprefix.
    + split; [done|]. intros _. eexists. split; [done|]. apply prefix_append.
  - destruct (improvements_made_inv _ _ _ _ _ _ _ _ Hmade)
      as (count & gain & _ & _ & ->).
    by rewrite !last_app.
  - destruct (improvements_made_inv _ _ _ _ _ _ _ _ Hmade)
      as (count & gain & _ & _ & ->).
    rewrite !length_app.
    destruct (negb _); destruct (suggested_skills o) as [| | | |[|x l]|];
      cbn [length]; lia.
Qed.

Lemma improvements_summary_consistent_sample :
  exists response,
    assemble as_listed no_repr quality_omits_score = Ok response /\
    exists notes,
      at_path ["improvements_summary"; "improvements_made"] response
      = Some (strs notes) /\
      at_path ["improvements_summary"; "translation_applied"] response
      = Some (VBool (negb (String.eqb (input_language quality_omits_score)
                                      (output_language quality_omits_score)))) /\
      at_path ["improvements_summary"; "input_language"] response
      = Some (VStr (input_language quality_omits_score)) /\
      at_path ["improvements_summary"; "output_language"] response
      = Some (VStr (output_language quality_omits_score)) /\
      ((exists note, head notes = Some note /\
                     String.prefix "Translated CV from " note = true)
       <-> input_language quality_omits_score
           <> output_language quality_omits_score) /\
      last notes
      = Some "Applied industry-specific keywords and professional terminology" /\
      length notes
      = (4 + (if negb (String.eqb (input_language quality_omits_score)
                                  (output_language quality_omits_score))
              then 1 else 0)
           + (match suggested_skills quality_omits_score with
              | VList (_ :: _) => 1
              | _ => 0
              end))%nat.
Proof.
  eexists. split; [reflexivity|].
  apply (improvements_summary_consistent as_listed no_repr quality_omits_score).
  reflexivity.
Defined.

Example improvements_made_examples :
  improvements_made no_repr (strs ["SQL"; "Docker"]) (VDict [])
    (VInt 60) (VInt 70) "en" "de"
  = Ok ["Translated CV from English to German";
        "Improved professional summary with strong action verbs and context";
        "Enhanced 0 experience descriptions with impact and scope";
        "Added 2 suggested skills based on experience";
        "Improved ATS compliance from 60% to 70% (+10%)";
        "Applied industry-specific keywords and professional terminology"] /\
  improvements_made no_repr (VDict [("suggested_skills", strs ["SQL"])])
    (VDict [("rewritten_experience", VList [VDict []])])
    (VInt 60) (VInt 55) "fr" "fr"
  = Ok ["Improved professional summary with strong action verbs and context";
        "Enhanced 1 experience descriptions with impact and scope";
        "Improved ATS compliance from 60% to 55% (+-5%)";
        "Applied industry-specific keywords and professional terminology"].
Proof. split; reflexivity. Qed.

(** ** The advice of [improvement_notes] *)

(** The block, read back from a response. *)
Lemma improvement_notes_block order repr o response :
  assemble order repr o = Ok response ->
  exists before after,
    as_int (default (VInt 0) (field (ats_data o) "overall_score")) = Some before /\
    as_int (default (VInt (before + 10))
              (field (rewritten_data o) "estimated_new_ats_score")) = Some after /\
    at_path ["improvement_notes"] response
    = Some (VDict
          [("original_ats_score",
            default (VInt 0) (field (ats_data o) "overall_score"));
           ("improved_ats_score",
            default (VInt (before + 10))
                    (field (rewritten_data o) "estimated_new_ats_score"));
           ("target_ats_score", VInt 90);
           ("gap_to_target", VInt (Z.max 0 (90 - after)));
           ("missing_for_90_percent",
            if (after <? 90)%Z then missing_for_90_percent else VList []);
           ("recommendation",
            if (after <? 90)%Z then VStr recommendation_below
            else VStr recommendation_reached);
           ("examples", if (after <? 90)%Z then examples else VList [])]).
Proof.
  intros H.
  destruct (assemble_blocks order repr o response H)
    as (before & skills & made & cv & career & notes & quality & compliance
        & Hb & _ & _ & _ & _ & _ & _ & Hnotes & _ & _ & ->).
  destruct (improvement_notes_inv _ _ _ Hnotes)
    as (before' & after & Hr & Hats & Hb' & Haf).
  assert (before' = before) as -> by congruence.
  rewrite (improvement_notes_ok _ _ before after) in Hnotes by done.
  injection Hnotes as <-. by exists before, after.
Qed.

(** X11: in every response the advice of [improvement_notes] follows the
    gap.  The target is 90.  When the score after the rewrite is below 90
    the gap is what is missing to 90, and the block lists the four missing
    elements, the recommendation to add metrics and the three examples;
    when the score is 90 or more the gap is 0, both lists are empty and the
    recommendation is the congratulation. *)
Theorem advice_follows_gap
    (order : list value -> list value) (repr : value -> string) (o : outputs)
    (response : value) :
  assemble order repr o = Ok response ->
  exists after gap : Z,
    at_path ["improvement_notes"; "improved_ats_score"] response ≫= as_int
    = Some after /\
    at_path ["improvement_notes"; "target_ats_score"] response = Some (VInt 90) /\
    at_path ["improvement_notes"; "gap_to_target"] response = Some (VInt gap) /\
    (0 < gap <-> after < 90) /\
    (after < 90 ->
     gap = 90 - after /\
     at_path ["improvement_notes"; "missing_for_90_percent"] response
     = Some missing_for_90_percent /\
     at_path ["improvement_notes"; "recommendation"] response
     = Some (VStr recommendation_below) /\
     at_path ["improvement_notes"; "examples"] response = Some examples) /\
    (90 <= after ->
     gap = 0 /\
     at_path ["improvement_notes"; "missing_for_90_percent"] response
     = Some (VList []) /\
     at_path ["improvement_notes"; "recommendation"] response
     = Some (VStr recommendation_reached) /\
     at_path ["improvement_notes"; "examples"] response = Some (VList [])).
Proof.
  intros H.
  destruct (improvement_notes_block order repr o response H)
    as (before & after & Hb & Haf & Hblock).
  assert (forall k, at_path ["improvement_notes"; k] response
                    = at_path ["improvement_notes"] response ≫= at_path [k])
    as Hpath.
  { intros k. destruct response as [| | | | |d]; try done.
    cbn [at_path]. by destruct (dict_lookup "improvement_notes" d). }
  exists after, (Z.max 0 (90 - after)). rewrite !Hpath, Hblock.
  cbn [mbind option_bind at_path dict_lookup String.eqb Ascii.eqb Bool.eqb].
  split_and!; try done; [lia| |].
  - intros Hlt. apply Z.ltb_lt in Hlt as Hltb. rewrite Hltb.
    split_and!; try done. lia.
  - intros Hge. apply Z.ltb_ge in Hge as Hltb. rewrite Hltb.
    split_and!; try done. lia.
Qed.

Lemma advice_follows_gap_sample :
  exists response,
    assemble as_listed no_repr quality_omits_score = Ok response /\
    exists after gap : Z,
      at_path ["improvement_notes"; "improved_ats_score"] response ≫= as_int
      = Some after /\
      at_path ["improvement_notes"; "target_ats_score"] response
      = Some (VInt 90) /\
      at_path ["improvement_notes"; "gap_to_target"] response
      = Some (VInt gap) /\
      (0 < gap <-> after < 90) /\
      (after < 90 ->
       gap = 90 - after /\
       at_path ["improvement_notes"; "missing_for_90_percent"] response
       = Some missing_for_90_percent /\
       at_path ["improvement_notes"; "recommendation"] response
       = Some (VStr recommendation_below) /\
       at_path ["improvement_notes"; "examples"] response = Some examples) /\
      (90 <= after ->
       gap = 0 /\
       at_path ["improvement_notes"; "missing_for_90_percent"] response
       = Some (VList []) /\
       at_path ["improvement_notes"; "recommendation"] response
       = Some (VStr recommendation_reached) /\
       at_path ["improvement_notes"; "examples"] response = Some (VList [])).
Proof.
  eexists. split; [reflexivity|].
  apply (advice_follows_gap as_listed no_repr quality_omits_score).
  reflexivity.
Defined.

(** ** The check records of [ats_compliance] *)

Lemma check_records_mapM l :
  mapM (fun check =>
      item ← py_get check "item" (VStr EmptyString);
      status ← py_get check "status" (VStr EmptyString);
      details ← py_get check "details" (VStr EmptyString);
      mret (VDict [("item", item); ("status", status); ("details", details)])) l
  = if forallb is_dict l then Ok (map check_record l) else Raise AttributeError.
Proof.
  induction l as [|check l IH]; [done|]. cbn [mapM forallb map].
  destruct check as [| | | | |d]; try done.
  rewrite !py_get_ok by done. cbn [mbind result_bind is_dict andb].
  rewrite IH. by destruct (forallb is_dict l).
Qed.

(** X12: the comprehension that copies the ATS checks returns exactly when
    the checks can be iterated and each of them is a mapping.  It then
    returns one record per check, in order, each with the three keys
    [item], [status], [details] and nothing else: a key the check omits
    reads the empty string, and any other key of the check is dropped.  A
    check that is not a mapping raises [AttributeError]. *)
Theorem check_records_shape (checks : value) :
  (forall records,
     check_records checks = Ok records <->
     exists l, py_iter checks = Ok l /\ forallb is_dict l = true /\
               records = VList (map check_record l)) /\
  (forall l, py_iter checks = Ok l -> forallb is_dict l = false ->
     check_records checks = Raise AttributeError).
Proof.
  unfold check_records. split.
  - intros records. destruct (py_iter checks) as [l|e]; cbn [mbind result_bind].
    + rewrite check_records_mapM. split.
      * destruct (forallb is_dict l) eqn:Hl; [|done].
        intros [= <-]. by exists l.
      * intros (l' & [= <-] & Hl & ->). by rewrite Hl.
    + split; [done|]. by intros (l & Hl & _).
  - intros l -> Hl. cbn [mbind result_bind]. by rewrite check_records_mapM, Hl.
Qed.

Example check_records_examples :
  check_records
    (VList [VDict [("item", VStr "Contact"); ("status", VStr "pass");
                   ("score", VInt 10)];
            VDict []])
  = Ok (VList [VDict [("item", VStr "Contact"); ("status", VStr "pass");
                      ("details", VStr EmptyString)];
               VDict [("item", VStr EmptyString); ("status", VStr EmptyString);
                      ("details", VStr EmptyString)]]) /\
  check_records (VList [VStr "Contact"]) = Raise AttributeError /\
  check_records (VDict []) = Ok (VList []) /\
  check_records VNone = Raise TypeError.
Proof. repeat split. Qed.

(** ** When the assembly returns *)

Lemma check_records_yields checks :
  check_records checks
  = match py_iter checks with
    | Ok l => if forallb is_dict l then Ok (VList (map check_record l))
              else Raise AttributeError
    | Raise e => Raise e
    end.
Proof.
  unfold check_records. destruct (py_iter checks) as [l|e]; [|done].
  cbn [mbind result_bind]. rewrite check_records_mapM.
  by destruct (forallb is_dict l).
Qed.

Lemma check_records_returns checks :
  (exists records, check_records checks = Ok records)
  <-> yields_dicts checks = true.
Proof.
  rewrite check_records_yields. unfold yields_dicts.
  destruct (py_iter checks) as [l|e].
  - destruct (forallb is_dict l); [|by split; [intros [? ?]|]].
    split; [done|]. intros _. by eexists.
  - by split; [intros [? ?]|].
Qed.

Lemma combined_skills_inv order parsed suggested skills :
  combined_skills order parsed suggested = Ok skills ->
  is_dict parsed = true /\
  exists l l',
    default (VList []) (field parsed "skills") = VList l /\
    (if is_list suggested then suggested else VList []) = VList l' /\
    forallb hashable (l ++ l') = true /\
    skills = VList (order (fold_left set_add (l ++ l') [])).
Proof.
  unfold combined_skills. intros H.
  apply bind_ok_inv in H as (v & Hv & H). apply py_get_inv in Hv as [Hp ->].
  apply bind_ok_inv in H as (both & Hboth & H).
  split; [done|].
  assert (exists l', (if is_list suggested then suggested else VList []) = VList l')
    as [l' Hl'].
  { destruct suggested; cbn [is_list]; by eexists. }
  rewrite Hl' in Hboth.
  destruct (default (VList []) (field parsed "skills")) as [| | | |l|];
    try done.
  injection Hboth as <-. exists l, l'.
  unfold list_of_set, py_set in H. cbn [py_iter mbind result_bind] in H.
  destruct (forallb hashable (l ++ l')); [|done].
  injection H as <-. done.
Qed.

Lemma combined_skills_returns order parsed suggested l l' :
  is_dict parsed = true ->
  default (VList []) (field parsed "skills") = VList l ->
  (if is_list suggested then suggested else VList []) = VList l' ->
  forallb hashable (l ++ l') = true ->
  combined_skills order parsed suggested
  = Ok (VList (order (fold_left set_add (l ++ l') []))).
Proof.
  intros Hp Hl Hl' Hh. unfold combined_skills.
  rewrite py_get_ok by done. cbn [mbind result_bind]. rewrite Hl, Hl'.
  cbn [py_add as_int mbind result_bind]. unfold list_of_set, py_set.
  cbn [py_iter mbind result_bind]. by rewrite Hh.
Qed.

Lemma has_len_py_len v : has_len v = true <-> exists n, py_len v = Ok n.
Proof.
  destruct v; cbn [has_len py_len]; split; try done;
    try (by intros [? ?]); intros _; by eexists.
Qed.

(** X14: the assembly returns a response exactly when the transform
    outputs meet what it computes with: the parsed data and the quality,
    ATS, career and rewrite outputs are mappings; the ATS score and the
    score after the rewrite (or their defaults) are numbers; the skills are
    a list whose members, with those of a suggested list, are hashable; the
    rewritten experience has a length; the passed and failed checks are
    mappings.  On any other outputs an exception escapes the handler. *)
Theorem assemble_returns_iff
    (order : list value -> list value) (repr : value -> string) (o : outputs) :
  (exists response, assemble order repr o = Ok response)
  <-> assemblable o = true.
Proof.
  unfold assemblable. split.
  - intros [response H].
    destruct (assemble_blocks order repr o response H)
      as (before & skills & made & cv & career & notes & quality & compliance
          & Hb & Hr & Ha & Hskills & Hmade & Hcv & Hcareer & Hnotes
          & Hquality & Hcompliance & _).
    apply combined_skills_inv in Hskills as (Hp & l & l' & Hl & Hl' & Hh & _).
    destruct (improvements_made_inv _ _ _ _ _ _ _ _ Hmade)
      as (count & gain & Hcount & Hgain & _).
    apply py_sub_inv in Hgain as (after & before' & Haf & _ & _).
    unfold career_recommendation in Hcareer.
    apply bind_ok_inv in Hcareer as (? & Hc & _). apply py_get_inv in Hc as [Hc _].
    unfold quality_report in Hquality.
    apply bind_ok_inv in Hquality as (? & Hq & _). apply py_get_inv in Hq as [Hq _].
    unfold ats_compliance in Hcompliance.
    apply bind_ok_inv in Hcompliance as (? & _ & Hcompliance).
    apply bind_ok_inv in Hcompliance as (passed & Hpassed & Hcompliance).
    apply py_get_inv in Hpassed as [_ ->].
    apply bind_ok_inv in Hcompliance as (? & Hp1 & Hcompliance).
    apply bind_ok_inv in Hcompliance as (failed & Hfailed & Hcompliance).
    apply py_get_inv in Hfailed as [_ ->].
    apply bind_ok_inv in Hcompliance as (? & Hf1 & _).
    rewrite Hp, Hq, Ha, Hc, Hr, Hb, Hl, Hl', Hh. unfold is_number. rewrite Haf.
    rewrite (proj2 (has_len_py_len _)) by (by exists count).
    rewrite (proj1 (check_records_returns _)) by (by eexists).
    rewrite (proj1 (check_records_returns _)) by (by eexists).
    done.
  - intros H.
    apply andb_prop in H as [H Hfailed]. apply andb_prop in H as [H Hpassed].
    apply andb_prop in H as [H Hlen]. apply andb_prop in H as [H Hskills].
    apply andb_prop in H as [H Hscores]. apply andb_prop in H as [H Hr].
    apply andb_prop in H as [H Hc]. apply andb_prop in H as [H Ha].
    apply andb_prop in H as [Hp Hq].
    destruct (as_int (default (VInt 0) (field (ats_data o) "overall_score")))
      as [before|] eqn:Hb; [|done].
    apply is_number_as_int in Hscores as [after Haf].
    destruct (default (VList []) (field (parsed_data_dict o) "skills"))
      as [| | | |l|] eqn:Hl; try done.
    destruct (if is_list (suggested_skills o) then suggested_skills o
              else VList []) as [| | | |l'|] eqn:Hl'; try done.
    apply has_len_py_len in Hlen as [count Hcount].
    apply check_records_returns in Hpassed as [passed Hp1].
    apply check_records_returns in Hfailed as [failed Hf1].
    unfold assemble.
    rewrite (py_get_ok (ats_data o)) by done. cbn [mbind result_bind].
    destruct (rewritten_data o) as [| | | | |d] eqn:Hrw; try done.
    cbn [get_method mbind result_bind].
    rewrite (py_add_int _ before) by done. cbn [mbind result_bind].
    rewrite (combined_skills_returns order _ _ l l') by done.
    cbn [mbind result_bind].
    unfold improvements_made. rewrite (py_get_ok (VDict d)) by done.
    cbn [mbind result_bind]. rewrite Hcount. cbn [mbind result_bind].
    change (default (VInt (before + 10)) (dict_lookup "estimated_new_ats_score" d))
      with (default (VInt (before + 10))
              (field (VDict d) "estimated_new_ats_score")).
    rewrite (py_sub_int _ _ after before) by done.
    cbn [mbind result_bind mret result_ret].
    unfold final_cv, career_recommendation, quality_report, ats_compliance.
    rewrite !(py_get_ok (parsed_data_dict o)) by done.
    rewrite !(py_get_ok (VDict d)) by done.
    rewrite !(py_get_ok (career_data o)) by done.
    rewrite !(py_get_ok (quality_data o)) by done.
    rewrite !(py_get_ok (ats_data o)) by done.
    rewrite (improvement_notes_ok _ _ before after) by done.
    cbn [mbind result_bind mret result_ret].
    rewrite Hp1. cbn [mbind result_bind]. rewrite Hf1. by eexists.
Qed.

Example assemblable_examples :
  assemblable quality_omits_score = true /\
  assemblable nothing_delivered = true /\
  assemblable score_as_text = false.
Proof. repeat split. Qed.

(** X15: the default of the score after the rewrite is computed before the
    rewrite output is looked at.  When the ATS output gives an
    [overall_score] that is not a number, a string or a null for example,
    the assembly raises [TypeError], also when the rewrite output delivers
    its own [estimated_new_ats_score]. *)
Theorem score_default_is_eager
    (order : list value -> list value) (repr : value -> string) (o : outputs) :
  is_dict (ats_data o) = true ->
  is_dict (rewritten_data o) = true ->
  is_number (default (VInt 0) (field (ats_data o) "overall_score")) = false ->
  assemble order repr o = Raise TypeError.
Proof.
  intros Ha Hr Hscore. unfold assemble.
  rewrite (py_get_ok (ats_data o)) by done. cbn [mbind result_bind].
  destruct (rewritten_data o) as [| | | | |d]; try done.
  cbn [get_method mbind result_bind].
  by destruct (default (VInt 0) (field (ats_data o) "overall_score")).
Qed.

Lemma score_as_text_raises :
  field (rewritten_data score_as_text) "estimated_new_ats_score"
  = Some (VInt 92) /\
  assemble as_listed no_repr score_as_text = Raise TypeError.
Proof.
  split; [reflexivity|].
  apply (score_default_is_eager as_listed no_repr score_as_text); reflexivity.
Defined.

(** ** The shape of the response *)

Ltac block_inv H :=
  repeat (let v := fresh "v" in
          let Hv := fresh "Hv" in
          apply bind_ok_inv in H as (v & Hv & H);
          try (apply py_get_inv in Hv as [_ ->]));
  injection H as <-.

(** X13: every response has the same shape, whatever the transforms left
    out: the six blocks in the order of the source, each with its keys in
    order.  A contact field of [final_cv] is never null: it holds the
    parsed value when that value is truthy, and the empty string when the
    value is missing, null or otherwise falsy; [final_cv.social_links]
    holds the validated links. *)
Theorem response_shape
    (order : list value -> list value) (repr : value -> string) (o : outputs)
    (response : value) :
  assemble order repr o = Ok response ->
  keys_of response = Some (map fst block_keys) /\
  (forall block keys, (block, keys) ∈ block_keys ->
     at_path [block] response ≫= keys_of = Some keys) /\
  (forall k, k ∈ contact_fields ->
     at_path ["final_cv"; k] response
     = Some (match field (parsed_data_dict o) k with
             | Some v => if truthy v then v else VStr EmptyString
             | None => VStr EmptyString
             end) /\
     at_path ["final_cv"; k] response <> Some VNone) /\
  at_path ["final_cv"; "social_links"] response = Some (social_links_data o).
Proof.
  intros H.
  destruct (improvement_notes_block order repr o response H)
    as (before' & after & _ & _ & Hblock).
  destruct (assemble_blocks order repr o response H)
    as (before & skills & made & cv & career & notes & quality & compliance
        & _ & _ & _ & _ & _ & Hcv & Hcareer & _ & Hquality & Hcompliance & ->).
  cbn [at_path dict_lookup String.eqb Ascii.eqb Bool.eqb mbind option_bind]
    in Hblock.
  injection Hblock as ->.
  unfold final_cv in Hcv. block_inv Hcv.
  unfold career_recommendation in Hcareer. block_inv Hcareer.
  unfold quality_report in Hquality. block_inv Hquality.
  unfold ats_compliance in Hcompliance. block_inv Hcompliance.
  split_and!; try reflexivity.
  - intros block keys Hin. unfold block_keys in Hin.
    repeat (apply elem_of_cons in Hin as [[= -> ->]|Hin]);
      [reflexivity..|by apply elem_of_nil in Hin].
  - intros k Hin. unfold contact_fields in Hin.
    assert (forall x, py_or (default VNone x) (VStr EmptyString)
                      = match x with
                        | Some v => if truthy v then v else VStr EmptyString
                        | None => VStr EmptyString
                        end) as Hor.
    { by intros [x|]. }
    assert (forall x, match x with
                      | Some v => if truthy v then v else VStr EmptyString
                      | None => VStr EmptyString
                      end <> VNone) as Hnone.
    { intros [x|]; [|done]. by destruct (truthy x) eqn:Hx; [destruct x|]. }
    repeat (apply elem_of_cons in Hin as [->|Hin]);
      [..|by apply elem_of_nil in Hin];
      (assert (forall A B : Prop, A -> (A -> B) -> A /\ B) as Hand by tauto;
       apply Hand;
       [cbn [at_path dict_lookup String.eqb Ascii.eqb Bool.eqb mbind option_bind];
        f_equal; apply Hor
       |intros ->; intros [= Heq]; by apply Hnone in Heq]).
Qed.

Lemma response_shape_sample :
  exists response,
    assemble as_listed no_repr quality_omits_score = Ok response /\
    keys_of response = Some (map fst block_keys) /\
    (forall block keys, (block, keys) ∈ block_keys ->
       at_path [block] response ≫= keys_of = Some keys) /\
    (forall k, k ∈ contact_fields ->
       at_path ["final_cv"; k] response
       = Some (match field (parsed_data_dict quality_omits_score) k with
               | Some v => if truthy v then v else VStr EmptyString
               | None => VStr EmptyString
               end) /\
       at_path ["final_cv"; k] response <> Some VNone) /\
    at_path ["final_cv"; "social_links"] response
    = Some (social_links_data quality_omits_score).
Proof.
  eexists. split; [reflexivity|].
  apply (response_shape as_listed no_repr quality_omits_score).
  reflexivity.
Defined.

(** ** The skills, when a list is missing *)

(** X16: a parsed CV without a [skills] key counts as having no skills,
    and suggested skills that are not a list count as none: the combined
    skills are then the skills that remain, each once.  In particular a
    suggestion transform that answers with a mapping adds nothing. *)
Theorem combined_skills_defaults
    (order : list value -> list value) (parsed_data_dict suggested_skills : value)
    (original suggested : list string) :
  (forall s, Permutation (order s) s) ->
  is_dict parsed_data_dict = true ->
  default (VList []) (field parsed_data_dict "skills") = strs original ->
  (if is_list suggested_skills then suggested_skills else VList [])
  = strs suggested ->
  exists skills,
    combined_skills order parsed_data_dict suggested_skills = Ok (strs skills) /\
    NoDup skills /\
    (forall s, s ∈ skills <-> s ∈ original \/ s ∈ suggested).
Proof.
  intros Horder Hp Hskills Hsuggested.
  rewrite (combined_skills_returns order _ _ (map VStr original)
             (map VStr suggested)); try done.
  - rewrite <- map_app. change (@nil value) with (map VStr []).
    rewrite fold_set_add_strs.
    destruct (Permutation_map_inv _ _ (Horder (map VStr (fold_left add_new
                (original ++ suggested) [])))) as (skills & Heq & Hperm).
    exists skills. rewrite Heq. split; [done|].
    destruct (fold_add_new_spec (original ++ suggested) [] NoDup_nil_2)
      as [Hnd Hin].
    split.
    + by rewrite <- Hperm.
    + intros s. rewrite <- Hperm, Hin, elem_of_nil, elem_of_app. tauto.
  - rewrite <- map_app. apply forallb_hashable_strs.
Qed.

Lemma combined_skills_defaults_mapping :
  exists skills,
    combined_skills as_listed (VDict [("skills", strs ["Python"; "Python"])])
      (VDict [("suggested_skills", strs ["SQL"])]) = Ok (strs skills) /\
    NoDup skills /\
    (forall s, s ∈ skills <-> s ∈ ["Python"; "Python"] \/ s ∈ []).
Proof.
  apply (combined_skills_defaults as_listed (VDict [("skills", strs ["Python"; "Python"])])
           (VDict [("suggested_skills", strs ["SQL"])]) ["Python"; "Python"] []).
  - intros s. apply Permutation_refl.
  - reflexivity.
  - reflexivity.
  - reflexivity.
Defined.

Example combined_skills_defaults_examples :
  combined_skills as_listed (VDict [("skills", strs ["Python"; "Python"])])
    (VDict [("suggested_skills", strs ["SQL"])]) = Ok (strs ["Python"]) /\
  combined_skills as_listed (VDict []) (strs ["SQL"; "SQL"]) = Ok (strs ["SQL"]) /\
  combined_skills as_listed (VDict [("skills", VNone)]) (strs ["SQL"])
  = Raise TypeError /\
  combined_skills as_listed (VDict [("skills", VList [VDict []])]) (VList [])
  = Raise TypeError.
Proof. repeat split. Qed.

End ResponseSpec.

(** * Missing fields *)

Module ToleranceSpec.
Import Builtins Assembler Schema Response AssemblerSpec ResponseSpec.





(** X21: skills that are reported as null stop the assembly.  When the
    parsed data give [skills] as null, and the ATS and rewrite outputs are
    mappings with a numeric score, the assembly raises [TypeError] at the
    sum of the two skill lists, whatever the other fields hold; a null
    name, email, phone or address is read as the empty string instead. *)
Theorem null_skills_raise
    (order : list value -> list value) (repr : value -> string) (o : outputs) :
  is_dict (parsed_data_dict o) = true ->
  is_dict (ats_data o) = true ->
  is_dict (rewritten_data o) = true ->
  is_number (default (VInt 0) (field (ats_data o) "overall_score")) = true ->
  field (parsed_data_dict o) "skills" = Some VNone ->
  assemble order repr o = Raise TypeError /\
  forall k, k ∈ contact_fields ->
    field (parsed_data_dict o) k = Some VNone ->
    py_or (default VNone (field (parsed_data_dict o) k)) (VStr EmptyString)
    = VStr EmptyString.
Proof.
  intros Hp Ha Hr Hscore Hskills. split.
  - unfold assemble.
    rewrite (py_get_ok (ats_data o)) by done. cbn [mbind result_bind].
    destruct (rewritten_data o) as [| | | | |d]; try done.
    cbn [get_method mbind result_bind].
    apply is_number_as_int in Hscore as [before Hb].
    rewrite (py_add_int _ before) by done. cbn [mbind result_bind].
    unfold combined_skills. rewrite py_get_ok by done.
    cbn [mbind result_bind]. rewrite Hskills. cbn [default from_option id].
    by destruct (is_list (suggested_skills o)), (suggested_skills o).
  - intros k _ ->. reflexivity.
Qed.

Lemma null_skills_raise_john_doe :
  assemble as_listed no_repr skills_null = Raise TypeError /\
  forall k, k ∈ contact_fields ->
    field (parsed_data_dict skills_null) k = Some VNone ->
    py_or (default VNone (field (parsed_data_dict skills_null) k))
      (VStr EmptyString)
    = VStr EmptyString.
Proof.
  apply (null_skills_raise as_listed no_repr skills_null); reflexivity.
Defined.

End ToleranceSpec.

(** * More on the career recommendations *)

Module CareersMore.
Import Builtins Careers CareersSpec.

(** X17: the tier decides everything the mock reports.  A tier other than
    [free] and [premium], compared as written, is refused with a 400.
    Otherwise every recommendation returned carries the job with the
    identifier and the time stamp drawn for the request, found by [BA-API]
    for the free tier and by [LinkedIn] for the premium one; and the
    recommendations depend neither on the CV data nor on the location. *)
Theorem recommend_careers_tier
    (job_id posted_at : string) (cv_data : value)
    (tier location : string) (limit : Z) :
  (tier <> "free" /\ tier <> "premium" ->
   recommend_careers job_id posted_at cv_data tier location limit
   = Raise (HTTPException 400 "Invalid tier. Must be 'free' or 'premium'")) /\
  (forall response,
     recommend_careers job_id posted_at cv_data tier location limit = Ok response ->
     (tier = "free" \/ tier = "premium") /\
     (forall r, r ∈ recommendations response ->
        at_path ["job"; "id"] r = Some (VStr job_id) /\
        at_path ["job"; "posted_at"] r = Some (VStr posted_at) /\
        (tier = "free" -> at_path ["job"; "source"] r = Some (VStr "BA-API")) /\
        (tier = "premium" ->
         at_path ["job"; "source"] r = Some (VStr "LinkedIn"))) /\
     (forall cv_data' location',
        recommendations
          <$> recommend_careers job_id posted_at cv_data' tier location' limit
        = Ok (recommendations response))).
Proof.
  unfold recommend_careers. cbn [existsb].
  destruct (String.eqb_spec tier "free") as [->|Hfree];
    [|destruct (String.eqb_spec tier "premium") as [->|Hpremium]];
    cbn [orb negb].
  - split; [by intros [? _]|]. intros response [= <-].
    cbn [mock_jobs mock_recommendations mbind result_bind mret result_ret
         recommendations fmap result_fmap].
    split_and!; [by left| |done].
    intros r Hr. rewrite slice_to_singleton in Hr.
    destruct (1 <=? limit)%Z; [|by apply elem_of_nil in Hr].
    apply list_elem_of_singleton in Hr as ->. by split_and!.
  - split; [by intros [_ ?]|]. intros response [= <-].
    cbn [mock_jobs mock_recommendations mbind result_bind mret result_ret
         recommendations fmap result_fmap].
    split_and!; [by right| |done].
    intros r Hr. rewrite slice_to_singleton in Hr.
    destruct (1 <=? limit)%Z; [|by apply elem_of_nil in Hr].
    apply list_elem_of_singleton in Hr as ->. by split_and!.
  - split; [done|]. by intros response.
Qed.

Example recommend_careers_tier_examples :
  (tier <$> recommend_careers "job-1" "now" (VDict []) "Free" "Berlin" 10)
    = Raise (HTTPException 400 "Invalid tier. Must be 'free' or 'premium'") /\
  (tier <$> recommend_careers "job-1" "now" (VDict []) EmptyString "Berlin" 10)
    = Raise (HTTPException 400 "Invalid tier. Must be 'free' or 'premium'") /\
  (recommendations <$> recommend_careers "job-1" "now" VNone "premium" "Berlin" 1)
    ≫= (fun l => Ok (head l ≫= at_path ["job"; "source"]))
    = Ok (Some (VStr "LinkedIn")).
Proof. repeat split. Qed.

End CareersMore.

(** * The whole handler *)

Module EndpointSpec.
Import Builtins Sanitizer Extractor SocialLinks Language Assembler Schema.
Import Handler Endpoint Response.
Import StrSpec SanitizerSpec SocialLinksSpec AssemblerSpec HandlerSpec SanitizeStepSpec.
Import ResponseSpec.

(** What the handler went through when it returns a response. *)
Lemma analyze_and_rewrite_cv_inv
    unicode_lower detect pdf_pages docx_paragraphs order repr llm cv_file lang
    github linkedin kaggle portfolio stackoverflow medium twitter response :
  analyze_and_rewrite_cv unicode_lower detect pdf_pages docx_paragraphs order
    repr llm cv_file lang
    github linkedin kaggle portfolio stackoverflow medium twitter
  = Ok response ->
  exists p parsed sanitized quality ats suggested career rewritten,
    prepare unicode_lower detect pdf_pages docx_paragraphs cv_file lang
      github linkedin kaggle portfolio stackoverflow medium twitter = Ok p /\
    parser_chain llm (extracted_text p) = Ok parsed /\
    attach_and_sanitize parsed (links_value (links p)) = Ok sanitized /\
    assemble order repr
      {| parsed_data_dict := sanitized;
         quality_data := quality;
         ats_data := ats;
         suggested_skills := suggested;
         career_data := career;
         rewritten_data := rewritten;
         input_language := detected_language p;
         output_language := lang;
         social_links_data := links_value (links p) |} = Ok response.
Proof.
  unfold analyze_and_rewrite_cv. intros H.
  apply bind_ok_inv in H as (p & Hp & H).
  apply bind_ok_inv in H as (parsed & Hparsed & H).
  apply bind_ok_inv in H as (sanitized & Hsanitized & H).
  apply bind_ok_inv in H as (quality & _ & H).
  apply bind_ok_inv in H as (ats & _ & H).
  apply bind_ok_inv in H as (suggested & _ & H).
  apply bind_ok_inv in H as (career & _ & H).
  apply bind_ok_inv in H as (rewritten & _ & H).
  by exists p, parsed, sanitized, quality, ats, suggested, career, rewritten.
Qed.

(** The block [final_cv] of a response. *)
Lemma assemble_final_cv order repr o response :
  assemble order repr o = Ok response ->
  is_dict (parsed_data_dict o) = true /\
  exists d,
    at_path ["final_cv"] response = Some (VDict d) /\
    dict_lookup "education" d
    = Some (default (VList []) (field (parsed_data_dict o) "education")) /\
    dict_lookup "projects" d
    = Some (default (VList []) (field (parsed_data_dict o) "projects")) /\
    dict_lookup "languages" d
    = Some (default (VList []) (field (parsed_data_dict o) "languages")) /\
    dict_lookup "hobbies" d
    = Some (default (VList []) (field (parsed_data_dict o) "hobbies")) /\
    dict_lookup "social_links" d = Some (social_links_data o).
Proof.
  intros H.
  destruct (assemble_blocks order repr o response H)
    as (before & skills & made & cv & career & notes & quality & compliance
        & _ & _ & _ & Hskills & _ & Hcv & _ & _ & _ & _ & ->).
  apply combined_skills_inv in Hskills as [Hp _]. split; [done|].
  unfold final_cv in Hcv. block_inv Hcv. eexists. by split_and!.
Qed.

Lemma at_path_cons k path v :
  at_path (k :: path) v = at_path [k] v ≫= at_path path.
Proof.
  destruct v as [| | | | |d]; try done. cbn [at_path].
  by destruct (dict_lookup k d).
Qed.

(** ** The links *)

Lemma dict_lookup_links (m : gmap string string) (keys : list string) (k : string) :
  dict_lookup k (omap (fun k => (fun v => (k, VStr v)) <$> m !! k) keys)
  = if bool_decide (k ∈ keys) then VStr <$> m !! k else None.
Proof.
  induction keys as [|k0 keys IH]; [done|]. cbn [omap list_omap].
  destruct (String.eqb_spec k k0) as [<-|Hne].
  - rewrite bool_decide_eq_true_2 by apply list_elem_of_here.
    destruct (m !! k) as [v|] eqn:Hv; cbn [fmap option_fmap option_map].
    + cbn [dict_lookup]. by rewrite String.eqb_refl.
    + rewrite IH. by case_bool_decide.
  - assert (bool_decide (k ∈ k0 :: keys) = bool_decide (k ∈ keys)) as ->.
    { apply bool_decide_ext. rewrite elem_of_cons. tauto. }
    destruct (m !! k0) as [v|]; cbn [fmap option_fmap option_map]; [|done].
    cbn [dict_lookup]. by destruct (String.eqb_spec k k0).
Qed.

(** X18: the links of a response are the links of the request.  For each
    of the seven platforms [final_cv.social_links] holds, under the key of
    the platform, the value of the form field with the white space at its
    ends removed when the field was supplied, and no entry when the field
    was empty or blank. *)
Theorem response_carries_links
    (unicode_lower : string -> string) (detect : string -> result string)
    (pdf_pages docx_paragraphs : list Byte.byte -> result (list string))
    (order : list value -> list value) (repr : value -> string)
    (llm : transforms) (cv_file : UploadFile) (output_language : string)
    (github linkedin kaggle portfolio stackoverflow medium twitter : string)
    (response : value) :
  analyze_and_rewrite_cv unicode_lower detect pdf_pages docx_paragraphs order
    repr llm cv_file output_language
    github linkedin kaggle portfolio stackoverflow medium twitter
  = Ok response ->
  forall platform s,
    (platform, s) ∈ form_fields github linkedin kaggle portfolio stackoverflow
                      medium twitter ->
    at_path ["final_cv"; "social_links"; key platform] response
    = if supplied s then Some (VStr (Str.strip s)) else None.
Proof.
  intros H platform s Hin.
  apply analyze_and_rewrite_cv_inv in H
    as (p & parsed & sanitized & quality & ats & suggested & career & rewritten
        & Hp & _ & _ & H).
  apply prepare_inv in Hp as (_ & Hlinks & _).
  apply assemble_final_cv in H as (_ & d & Hcv & _ & _ & _ & _ & Hd).
  cbn [social_links_data] in Hd.
  rewrite at_path_cons, Hcv. cbn [mbind option_bind at_path]. rewrite Hd.
  cbn [mbind option_bind]. unfold links_value. cbn [mbind option_bind].
  rewrite dict_lookup_links.
  rewrite validate_social_links_fields, check_links_find in Hlinks.
  set (fields := form_fields _ _ _ _ _ _ _) in *.
  destruct (List.find (rejected unicode_lower) fields) as [field|]; [done|].
  assert (links p = accepted_entries fields ∅) as -> by congruence.
  rewrite (accepted_entries_lookup fields ∅ platform s);
    [|apply form_fields_keys_NoDup|done].
  rewrite lookup_empty. unfold entry_of.
  rewrite bool_decide_eq_true_2.
  - by destruct (supplied s).
  - unfold fields, form_fields in Hin.
    repeat (apply elem_of_cons in Hin as [[= -> ->]|Hin]);
      [..|by apply elem_of_nil in Hin];
      cbn [key github_rule linkedin_rule kaggle_rule portfolio_rule
           stackoverflow_rule medium_rule twitter_rule];
      repeat first [apply list_elem_of_here | apply list_elem_of_further].
Qed.

Lemma response_carries_links_john_doe :
  exists response,
    analyze_and_rewrite_cv Str.no_unicode toy_detect one_page one_page as_listed
      no_repr
      toy_transforms final_pdf "de"
      "  https://github.com/johndoe " EmptyString EmptyString EmptyString
      EmptyString EmptyString "   " = Ok response /\
    forall platform s,
      (platform, s) ∈ form_fields "  https://github.com/johndoe " EmptyString
                        EmptyString EmptyString EmptyString EmptyString "   " ->
      at_path ["final_cv"; "social_links"; key platform] response
      = if supplied s then Some (VStr (Str.strip s)) else None.
Proof.
  eexists. split; [vm_compute; reflexivity|].
  apply (response_carries_links Str.no_unicode toy_detect one_page one_page as_listed no_repr
           toy_transforms final_pdf "de"
           "  https://github.com/johndoe " EmptyString EmptyString EmptyString
           EmptyString EmptyString "   ").
  vm_compute. reflexivity.
Defined.

(** ** The languages *)

(** X19: the languages of a response are supported ones.  The output
    language is the one requested, one of [en], [de], [ar]; the input
    language is the one detected in the text extracted from the file, one
    of the three as well; and [translation_applied] tells whether the two
    differ. *)
Theorem response_languages
    (unicode_lower : string -> string) (detect : string -> result string)
    (pdf_pages docx_paragraphs : list Byte.byte -> result (list string))
    (order : list value -> list value) (repr : value -> string)
    (llm : transforms) (cv_file : UploadFile) (output_language : string)
    (github linkedin kaggle portfolio stackoverflow medium twitter : string)
    (response : value) :
  analyze_and_rewrite_cv unicode_lower detect pdf_pages docx_paragraphs order
    repr llm cv_file output_language
    github linkedin kaggle portfolio stackoverflow medium twitter
  = Ok response ->
  output_language ∈ supported_codes /\
  exists text input_language,
    extract_text_from_file unicode_lower pdf_pages docx_paragraphs cv_file
    = Ok text /\
    detect_language detect text = Ok input_language /\
    input_language ∈ supported_codes /\
    at_path ["improvements_summary"; "input_language"] response
    = Some (VStr input_language) /\
    at_path ["improvements_summary"; "output_language"] response
    = Some (VStr output_language) /\
    at_path ["improvements_summary"; "translation_applied"] response
    = Some (VBool (negb (String.eqb input_language output_language))).
Proof.
  intros H.
  apply analyze_and_rewrite_cv_inv in H
    as (p & parsed & sanitized & quality & ats & suggested & career & rewritten
        & Hp & _ & _ & H).
  apply prepare_inv in Hp as (Hlang & _ & Htext & _ & Hdetect).
  split; [by apply supported_language_check|].
  exists (extracted_text p), (detected_language p).
  destruct (assemble_blocks _ _ _ _ H)
    as (? & ? & ? & ? & ? & ? & ? & ? & _ & _ & _ & _ & _ & _ & _ & _ & _ & _ & ->).
  split_and!; try done. by eapply detect_language_supported.
Qed.

Lemma response_languages_john_doe :
  exists response,
    analyze_and_rewrite_cv Str.no_unicode toy_detect one_page one_page as_listed
      no_repr
      toy_transforms final_pdf "de"
      "  https://github.com/johndoe " EmptyString EmptyString EmptyString
      EmptyString EmptyString "   " = Ok response /\
    "de" ∈ supported_codes /\
    exists text input_language,
      extract_text_from_file Str.no_unicode one_page one_page final_pdf
      = Ok text /\
      detect_language toy_detect text = Ok input_language /\
      input_language ∈ supported_codes /\
      at_path ["improvements_summary"; "input_language"] response
      = Some (VStr input_language) /\
      at_path ["improvements_summary"; "output_language"] response
      = Some (VStr "de") /\
      at_path ["improvements_summary"; "translation_applied"] response
      = Some (VBool (negb (String.eqb input_language "de"))).
Proof.
  eexists. split; [vm_compute; reflexivity|].
  apply (response_languages Str.no_unicode toy_detect one_page one_page as_listed no_repr
           toy_transforms final_pdf "de"
           "  https://github.com/johndoe " EmptyString EmptyString EmptyString
           EmptyString EmptyString "   ").
  vm_compute. reflexivity.
Defined.

(** ** The sanitized entries *)

Lemma sanitize_field_inv k d v' :
  sanitize_field k (VDict d) = Ok v' ->
  exists d',
    v' = VDict d' /\
    (forall k', k' <> k -> dict_lookup k' d' = dict_lookup k' d) /\
    exists s,
      sanitized_value (default (VList []) (dict_lookup k d)) = Ok s /\
      default (VList []) (dict_lookup k d') = s.
Proof.
  unfold sanitize_field. cbn [py_in mbind result_bind].
  rewrite existsb_key. cbn [py_getitem].
  destruct (dict_lookup k d) as [v|] eqn:Hv; cbn [mbind result_bind].
  - destruct (truthy v) eqn:Htruthy.
    + destruct (py_iter v) as [entries|e] eqn:Hiter; [|done].
      cbn [mbind result_bind py_setitem]. intros [= <-].
      eexists. split; [done|]. split.
      * intros k' Hne. rewrite dict_lookup_set.
        by apply String.eqb_neq in Hne as ->.
      * eexists. rewrite dict_lookup_set, String.eqb_refl.
        cbn [default from_option id]. unfold sanitized_value.
        by rewrite Htruthy, Hiter.
    + intros [= <-]. exists d. split_and!; try done.
      exists v. rewrite Hv. cbn [default from_option id].
      unfold sanitized_value. by rewrite Htruthy.
  - intros [= <-]. exists d. split_and!; try done.
    exists (VList []). by rewrite Hv.
Qed.

Lemma sanitize_field_other k v v' :
  is_dict v = false -> sanitize_field k v = Ok v' -> v' = v.
Proof.
  unfold sanitize_field. destruct v as [| | |s|l|d]; try done; intros _;
    cbn [py_in mbind result_bind].
  - destruct (Str.contains k s); [done|]. by intros [= <-].
  - destruct (existsb _ l); [done|]. by intros [= <-].
Qed.

Lemma attach_and_sanitize_is_dict v links v' :
  attach_and_sanitize v links = Ok v' -> is_dict v' = true -> is_dict v = true.
Proof.
  destruct (is_dict v) eqn:Hv; [done|]. unfold attach_and_sanitize.
  intros H Hv'.
  apply bind_ok_inv in H as (v0 & H0 & H).
  assert (v0 = v) as ->.
  { destruct (truthy links); [by destruct v|by injection H0]. }
  apply bind_ok_inv in H as (v1 & H1 & H).
  apply sanitize_field_other in H1 as ->; [|done].
  apply bind_ok_inv in H as (v2 & H2 & H).
  apply sanitize_field_other in H2 as ->; [|done].
  apply sanitize_field_other in H as ->; [|done]. congruence.
Qed.

Lemma attach_and_sanitize_inv d links v' :
  attach_and_sanitize (VDict d) links = Ok v' ->
  exists d',
    v' = VDict d' /\
    (forall k, k ∈ sanitized_keys ->
       exists s,
         sanitized_value (default (VList []) (dict_lookup k d)) = Ok s /\
         default (VList []) (dict_lookup k d') = s) /\
    (forall k, k <> "social_links" -> k ∉ sanitized_keys ->
       dict_lookup k d' = dict_lookup k d).
Proof.
  unfold attach_and_sanitize. intros H.
  apply bind_ok_inv in H as (v0 & H0 & H).
  assert (exists d0, v0 = VDict d0 /\
            forall k, k <> "social_links" -> dict_lookup k d0 = dict_lookup k d)
    as (d0 & -> & Hd0).
  { destruct (truthy links).
    - injection H0 as <-. eexists. split; [done|].
      intros k Hne. rewrite dict_lookup_set.
      by apply String.eqb_neq in Hne as ->.
    - injection H0 as <-. by exists d. }
  apply bind_ok_inv in H as (v1 & H1 & H).
  apply sanitize_field_inv in H1 as (d1 & -> & Hd1 & s1 & Hs1 & Hs1').
  apply bind_ok_inv in H as (v2 & H2 & H).
  apply sanitize_field_inv in H2 as (d2 & -> & Hd2 & s2 & Hs2 & Hs2').
  apply sanitize_field_inv in H as (d3 & -> & Hd3 & s3 & Hs3 & Hs3').
  exists d3. split; [done|]. split.
  - intros k Hk. unfold sanitized_keys in Hk.
    repeat (apply elem_of_cons in Hk as [->|Hk]); [..|by apply elem_of_nil in Hk].
    + exists s1. rewrite Hd0 in Hs1 by done. split; [done|].
      by rewrite Hd3, Hd2.
    + exists s2. rewrite Hd1, Hd0 in Hs2 by done. split; [done|].
      by rewrite Hd3.
    + exists s3. by rewrite Hd2, Hd1, Hd0 in Hs3 by done.
  - intros k Hlinks Hk. unfold sanitized_keys in Hk.
    apply not_elem_of_cons in Hk as [Hp Hk].
    apply not_elem_of_cons in Hk as [Hl Hk].
    apply not_elem_of_cons in Hk as [He _].
    by rewrite Hd3, Hd2, Hd1, Hd0.
Qed.

Lemma sanitized_value_clean v s l :
  sanitized_value v = Ok s -> s = VList l ->
  Forall (fun x => null_inside x = false) l.
Proof.
  unfold sanitized_value. destruct (truthy v) eqn:Htruthy.
  - destruct (py_iter v) as [entries|e]; [|done].
    intros [= <-] [= <-]. apply Forall_forall. intros x Hx.
    apply list_elem_of_fmap in Hx as (y & -> & _). apply null_inside_filter.
  - intros [= <-] ->. by destruct l.
Qed.

(** X20: the projects, languages and education of a response are the
    sanitized entries of the parsed CV.  Under each of the three keys
    [final_cv] holds what the sanitizing block makes of the value that the
    parse transform returned (the empty list when it returned none): every
    entry of a non-empty list sanitized, none dropped.  So whenever the
    response holds a list there, no entry of that list contains a null or
    an empty string inside a mapping or a sequence, at any depth.  The
    hobbies are passed on as the parse transform returned them. *)
Theorem response_entries_sanitized
    (unicode_lower : string -> string) (detect : string -> result string)
    (pdf_pages docx_paragraphs : list Byte.byte -> result (list string))
    (order : list value -> list value) (repr : value -> string)
    (llm : transforms) (cv_file : UploadFile) (output_language : string)
    (github linkedin kaggle portfolio stackoverflow medium twitter : string)
    (response : value) :
  analyze_and_rewrite_cv unicode_lower detect pdf_pages docx_paragraphs order
    repr llm cv_file output_language
    github linkedin kaggle portfolio stackoverflow medium twitter
  = Ok response ->
  exists text d,
    extract_text_from_file unicode_lower pdf_pages docx_paragraphs cv_file
    = Ok text /\
    parser_chain llm text = Ok (VDict d) /\
    (forall k, k ∈ sanitized_keys ->
       exists v,
         sanitized_value (default (VList []) (dict_lookup k d)) = Ok v /\
         at_path ["final_cv"; k] response = Some v /\
         forall l, v = VList l ->
           Forall (fun entry => null_inside entry = false) l) /\
    at_path ["final_cv"; "hobbies"] response
    = Some (default (VList []) (dict_lookup "hobbies" d)).
Proof.
  intros H.
  apply analyze_and_rewrite_cv_inv in H
    as (p & parsed & sanitized & quality & ats & suggested & career & rewritten
        & Hp & Hparsed & Hsanitized & H).
  apply prepare_inv in Hp as (_ & _ & Htext & _ & _).
  apply assemble_final_cv in H
    as (Hdict & cv & Hcv & Heducation & Hprojects & Hlanguages & Hhobbies & _).
  cbn [parsed_data_dict] in *.
  pose proof (attach_and_sanitize_is_dict _ _ _ Hsanitized Hdict) as Hd.
  destruct parsed as [| | | | |d]; try done.
  apply attach_and_sanitize_inv in Hsanitized as (d' & -> & Hkeys & Hother).
  exists (extracted_text p), d. split_and!; try done.
  - intros k Hk. destruct (Hkeys k Hk) as (s & Hs & Hs').
    exists s. split_and!; [done| |intros l; by eapply sanitized_value_clean].
    rewrite at_path_cons, Hcv. cbn [mbind option_bind at_path].
    cbn [field] in *. unfold sanitized_keys in Hk.
    repeat (apply elem_of_cons in Hk as [->|Hk]); [..|by apply elem_of_nil in Hk].
    + rewrite Hprojects. cbn [mbind option_bind]. by rewrite Hs'.
    + rewrite Hlanguages. cbn [mbind option_bind]. by rewrite Hs'.
    + rewrite Heducation. cbn [mbind option_bind]. by rewrite Hs'.
  - rewrite at_path_cons, Hcv. cbn [mbind option_bind at_path].
    rewrite Hhobbies. cbn [mbind option_bind field]. rewrite Hother; [done..|].
    unfold sanitized_keys. intros Hin.
    repeat (apply elem_of_cons in Hin as [[=]|Hin]). by apply elem_of_nil in Hin.
Qed.

Lemma response_entries_sanitized_john_doe :
  exists response,
    analyze_and_rewrite_cv Str.no_unicode toy_detect one_page one_page as_listed
      no_repr
      toy_transforms final_pdf "de"
      "  https://github.com/johndoe " EmptyString EmptyString EmptyString
      EmptyString EmptyString "   " = Ok response /\
    exists text d,
      extract_text_from_file Str.no_unicode one_page one_page final_pdf
      = Ok text /\
      parser_chain toy_transforms text = Ok (VDict d) /\
      (forall k, k ∈ sanitized_keys ->
         exists v,
           sanitized_value (default (VList []) (dict_lookup k d)) = Ok v /\
           at_path ["final_cv"; k] response = Some v /\
           forall l, v = VList l ->
             Forall (fun entry => null_inside entry = false) l) /\
      at_path ["final_cv"; "hobbies"] response
      = Some (default (VList []) (dict_lookup "hobbies" d)).
Proof.
  eexists. split; [vm_compute; reflexivity|].
  apply (response_entries_sanitized Str.no_unicode toy_detect one_page one_page as_listed
           no_repr toy_transforms final_pdf "de"
           "  https://github.com/johndoe " EmptyString EmptyString EmptyString
           EmptyString EmptyString "   ").
  vm_compute. reflexivity.
Defined.

Example analyze_and_rewrite_cv_examples :
  (analyze_and_rewrite_cv Str.no_unicode toy_detect one_page one_page as_listed
      no_repr
     toy_transforms final_pdf "de"
     "  https://github.com/johndoe " EmptyString EmptyString EmptyString
     EmptyString EmptyString "   "
   ≫= fun response => Ok (at_path ["final_cv"; "projects"] response,
                           at_path ["final_cv"; "education"] response,
                           at_path ["final_cv"; "social_links"] response))
  = Ok (Some (VList [VDict [("title", VStr "Churn model");
                            ("technologies", VList [VStr "Python"])];
                     VDict []]),
        Some VNone,
        Some (VDict [("github", VStr "https://github.com/johndoe")])) /\
  analyze_and_rewrite_cv Str.no_unicode toy_detect one_page one_page as_listed
      no_repr
    toy_transforms final_pdf "fr"
    EmptyString EmptyString EmptyString EmptyString
    EmptyString EmptyString EmptyString
  = Raise (HTTPException 400
             "Invalid output_language. Supported: ['en', 'de', 'ar']").
Proof. split; vm_compute; reflexivity. Qed.

End EndpointSpec.
